(** * JW-Limited CDN worker: a shallow embedding of [src/index.ts]

    The development follows the layout of the [CDNService] class: first
    the JavaScript primitives the service relies on (strings, numbers,
    [Array.prototype.sort], [Headers]), then one module per subsystem:
    request hashing, range handling, quota accounting, upload tracking,
    the path obfuscator, the worker-proxy cache resolver and the
    versioned file store. *)

From Stdlib Require Import ZArith Lia Ascii String List.
From Stdlib.Strings Require Import Byte.
From stdpp Require Import base decidable option list strings pretty gmap fin_maps sorting.

Local Open Scope string_scope.
Local Open Scope list_scope.
Local Open Scope Z_scope.

(** ** JavaScript primitives *)

Module JS.

(** Strings are sequences of Latin-1 code units: every string the modelled
    code passes to [btoa], [parseInt] or a template literal is of that
    kind (URL components, header byte strings, hexadecimal digests). *)

Definition code (c : ascii) : Z := Z.of_N (N_of_ascii c).

Definition in_range (lo hi c : ascii) : bool :=
  (code lo <=? code c) && (code c <=? code hi).

Definition is_upper (c : ascii) : bool := in_range "A" "Z" c.
Definition is_lower (c : ascii) : bool := in_range "a" "z" c.
Definition is_digit (c : ascii) : bool := in_range "0" "9" c.
Definition is_alnum (c : ascii) : bool := is_upper c || is_lower c || is_digit c.

Definition lower_char (c : ascii) : ascii :=
  if is_upper c then ascii_of_N (N_of_ascii c + 32) else c.
Definition upper_char (c : ascii) : ascii :=
  if is_lower c then ascii_of_N (N_of_ascii c - 32) else c.

Fixpoint map_string (f : ascii -> ascii) (s : string) : string :=
  match s with
  | EmptyString => EmptyString
  | String c s' => String (f c) (map_string f s')
  end.

Fixpoint filter_string (p : ascii -> bool) (s : string) : string :=
  match s with
  | EmptyString => EmptyString
  | String c s' => if p c then String c (filter_string p s') else filter_string p s'
  end.

Fixpoint exists_string (p : ascii -> bool) (s : string) : bool :=
  match s with
  | EmptyString => false
  | String c s' => p c || exists_string p s'
  end.

Definition toLowerCase : string -> string := map_string lower_char.
Definition toUpperCase : string -> string := map_string upper_char.

Fixpoint take_string (n : nat) (s : string) : string :=
  match n, s with
  | S n', String c s' => String c (take_string n' s')
  | _, _ => EmptyString
  end.

Fixpoint drop_string (n : nat) (s : string) : string :=
  match n, s with
  | S n', String _ s' => drop_string n' s'
  | _, _ => s
  end.

(** [s.substring(a, b)] for non-negative [a <= b]. *)
Definition substring (a b : nat) (s : string) : string :=
  take_string (b - a) (drop_string a s).

Fixpoint startsWith (p s : string) : bool :=
  match p, s with
  | EmptyString, _ => true
  | String a p', String b s' => if Ascii.eqb a b then startsWith p' s' else false
  | String _ _, EmptyString => false
  end.

Fixpoint includes (p s : string) : bool :=
  startsWith p s ||
  match s with
  | EmptyString => false
  | String _ s' => includes p s'
  end.

(** [s.replace(p, '')] with a string (or regex-literal) pattern without
    metacharacters: the first occurrence of [p] is removed. *)
Fixpoint remove_first (p s : string) : string :=
  if startsWith p s then drop_string (String.length p) s
  else match s with
       | EmptyString => EmptyString
       | String c s' => String c (remove_first p s')
       end.

(** [s.split(sep)] for a one-character separator. *)
Fixpoint split_go (sep : ascii) (cur : string) (s : string) : list string :=
  match s with
  | EmptyString => [String.rev cur]
  | String c s' =>
      if Ascii.eqb c sep then String.rev cur :: split_go sep EmptyString s'
      else split_go sep (String c cur) s'
  end.

Definition split (sep : ascii) (s : string) : list string := split_go sep EmptyString s.

Fixpoint join (sep : string) (l : list string) : string :=
  match l with
  | [] => ""
  | [x] => x
  | x :: rest => x +:+ sep +:+ join sep rest
  end.

(** Numbers that the modelled code prints are integers below 2^53, for
    which a template literal prints the decimal digits. *)
Definition num (z : Z) : string := pretty z.

(** White space skipped by [parseInt] (the Latin-1 part of it). *)
Definition is_js_space (c : ascii) : bool :=
  let n := code c in
  ((9 <=? n) && (n <=? 13)) || (n =? 32) || (n =? 160).

Fixpoint skip_spaces (s : string) : string :=
  match s with
  | String c s' => if is_js_space c then skip_spaces s' else s
  | EmptyString => s
  end.

Fixpoint digits_go (acc : option Z) (s : string) : option Z :=
  match s with
  | String c s' =>
      if is_digit c
      then digits_go (Some (10 * default 0 acc + (code c - 48))) s'
      else acc
  | EmptyString => acc
  end.

(** [parseInt(s, 10)]; [None] is [NaN].  An [undefined] argument is
    converted to the string ["undefined"], which parses to [NaN] too. *)
Definition parseInt (s : string) : option Z :=
  match skip_spaces s with
  | String "-" s' => Z.opp <$> digits_go None s'
  | String "+" s' => digits_go None s'
  | s' => digits_go None s'
  end.

Definition parseInt_opt (o : option string) : option Z :=
  match o with
  | Some s => parseInt s
  | None => None
  end.

(** [x || d] on numbers: [NaN] and [0] are falsy. *)
Definition or_num (x : option Z) (d : Z) : Z :=
  match x with
  | Some v => if v =? 0 then d else v
  | None => d
  end.

(** [x || d] on strings: [null], [undefined] and [''] are falsy. *)
Definition or_str (x : option string) (d : string) : string :=
  match x with
  | Some EmptyString | None => d
  | Some s => s
  end.

(** [Math.round(a / b)] for an integer [a] and a positive integer [b]:
    halves go up. *)
Definition round_div (a b : Z) : Z := (2 * a + b) / (2 * b).

(** [arr.slice(begin, end)] (also [ArrayBuffer.prototype.slice]):
    negative indices count from the end, everything is clamped. *)
Definition clamp_index (len i : Z) : Z :=
  if i <? 0 then Z.max (len + i) 0 else Z.min i len.

Definition slice {A} (l : list A) (b e : Z) : list A :=
  let len := Z.of_nat (length l) in
  let first := clamp_index len b in
  let final := clamp_index len e in
  take (Z.to_nat (final - first)) (drop (Z.to_nat first) l).

(** [arr.sort(cmp)]: the sort is stable, so for a comparator that is a
    total preorder its result is the one of a stable insertion sort. *)
Section Sort.
Context {A : Type} (cmp : A -> A -> Z).

Fixpoint insert_sorted (x : A) (l : list A) : list A :=
  match l with
  | [] => [x]
  | y :: l' => if cmp y x <=? 0 then y :: insert_sorted x l' else x :: y :: l'
  end.

Definition sort (l : list A) : list A := foldl (fun acc x => insert_sorted x acc) [] l.
End Sort.

(** The comparator [(a, b) => f(b) - f(a)]: descending by [f], and the
    order it establishes. *)
Definition desc_by {A} (f : A -> Z) : A -> A -> Z := fun a b => f b - f a.

Definition desc_rel {A} (f : A -> Z) : relation A := fun a b => f b <= f a.

(** [s.substring(a, b)] in general: arguments are clamped to the string
    and swapped when out of order. *)
Definition substr (a b : Z) (s : string) : string :=
  let len := Z.of_nat (String.length s) in
  let a' := Z.min (Z.max a 0) len in
  let b' := Z.min (Z.max b 0) len in
  substring (Z.to_nat (Z.min a' b')) (Z.to_nat (Z.max a' b')) s.

(** [n.toString(36)] and [n.toString(16)] for a non-negative integer. *)
Definition digit_char (d : Z) : ascii :=
  match String.get (Z.to_nat d) "0123456789abcdefghijklmnopqrstuvwxyz" with
  | Some c => c
  | None => "0"%char
  end.

Fixpoint radix_go (fuel : nat) (base n : Z) (acc : string) : string :=
  match fuel with
  | O => acc
  | S fuel' =>
      if n <? base then String (digit_char n) acc
      else radix_go fuel' base (n / base) (String (digit_char (n mod base)) acc)
  end.

Definition toString_radix (base n : Z) : string :=
  radix_go (S (Z.to_nat (Z.log2 n))) base n "".

(** [arr.reduce((acc, char) => acc + char.charCodeAt(0), 0)] over the
    characters of a string. *)
Fixpoint char_code_sum (s : string) : Z :=
  match s with
  | EmptyString => 0
  | String c s' => code c + char_code_sum s'
  end.

(** [a % b]; [None] is the [NaN] of a zero divisor. *)
Definition rem (a b : Z) : option Z := if b =? 0 then None else Some (Z.rem a b).

(** The members that every object literal inherits from
    [Object.prototype].  A lookup [table[name]] on a literal that has no
    entry [name] of its own finds the inherited function -- for
    [__proto__], the prototype object itself -- which is truthy and has
    none of the fields of the literal's values; any other name reads
    [undefined]. *)
Definition object_prototype_members : list string :=
  ["constructor"; "__defineGetter__"; "__defineSetter__"; "hasOwnProperty";
   "__lookupGetter__"; "__lookupSetter__"; "isPrototypeOf"; "propertyIsEnumerable";
   "toString"; "valueOf"; "__proto__"; "toLocaleString"].

Definition is_inherited (name : string) : bool :=
  existsb (String.eqb name) object_prototype_members.

(** The text of an inherited member as a property key and in a template
    literal, the way V8 prints a built-in function. *)
Definition inherited_text (name : string) : string :=
  if String.eqb name "__proto__" then "[object Object]"
  else "function " +:+ (if String.eqb name "constructor" then "Object" else name)
       +:+ "() { [native code] }".

(** [Headers]: names are case-insensitive and stored in lower case. *)
Definition header_get (h : string) (hs : gmap string string) : option string :=
  hs !! toLowerCase h.
Definition header_set (h v : string) (hs : gmap string string) : gmap string string :=
  <[toLowerCase h := v]> hs.

End JS.

(** ** HTTP data *)

Record URL := {
  url_protocol : string;
  url_host : string;
  url_pathname : string;
  url_search : string;
  url_hash : string
}.

Record Request := {
  req_method : string;
  req_url : URL;
  req_headers : gmap string string;
  req_body : list byte
}.

(** The value passed to [JSON.stringify] for a JSON response, as a tree. *)
Unset Elimination Schemes.
Inductive JVal :=
| JNull
| JBool (b : bool)
| JNum (n : Z)
| JStr (s : string)
| JDate (t : Z)                        (* [new Date(t).toISOString()] *)
| JArr (l : list JVal)
| JObj (fields : list (string * JVal)).
Set Elimination Schemes.

Inductive Body :=
| BNone
| BBytes (b : list byte)
| BText (s : string)
| BJson (j : JVal).

Record Response := {
  res_status : Z;
  res_headers : gmap string string;
  res_body : Body
}.

(** [getCORSHeaders()], lines 2121-2132. *)
Definition getCORSHeaders : list (string * string) :=
  [ ("Access-Control-Allow-Origin", "*");
    ("Access-Control-Allow-Methods", "GET, HEAD, OPTIONS, POST, PUT, DELETE, PATCH");
    ("Access-Control-Allow-Headers", "*");
    ("Access-Control-Allow-Credentials", "false");
    ("Access-Control-Max-Age", "86400");
    ("Cross-Origin-Resource-Policy", "cross-origin");
    ("Cross-Origin-Embedder-Policy", "unsafe-none");
    ("Cross-Origin-Opener-Policy", "unsafe-none") ].

Definition headers_of (l : list (string * string)) : gmap string string :=
  foldl (fun hs kv => JS.header_set kv.1 kv.2 hs) ∅ l.

Definition json_headers : gmap string string :=
  headers_of (("Content-Type", "application/json") :: getCORSHeaders).

(** [createErrorResponse(status, message)], lines 4159-4171; [now] is the
    clock reading that ends up in the [timestamp] field. *)
Definition createErrorResponse (now : Z) (status : Z) (message : string) : Response :=
  {| res_status := status;
     res_headers := json_headers;
     res_body := BJson (JObj [("error", JStr message); ("status", JNum status);
                              ("timestamp", JDate now)]) |}.

(** A JSON response built with [new Response(JSON.stringify(..), {headers})]. *)
Definition json_response (j : JVal) : Response :=
  {| res_status := 200; res_headers := json_headers; res_body := BJson j |}.

(** ** Request hashing ([hashRequest], [btoa]) *)

Module RequestHash.

Definition b64_alphabet : string :=
  "ABCDEFGHIJKLMNOPQRSTUVWXYZabcdefghijklmnopqrstuvwxyz0123456789+/".

Definition b64_char (n : Z) : ascii :=
  match String.get (Z.to_nat n) b64_alphabet with
  | Some c => c
  | None => "="%char
  end.

Definition sextet (n : Z) (k : Z) : ascii :=
  b64_char (Z.land (Z.shiftr n (6 * k)) 63).

(** [btoa]: base64 of a Latin-1 string, with [=] padding. *)
Fixpoint btoa (s : string) : string :=
  match s with
  | EmptyString => ""
  | String a EmptyString =>
      let n := Z.shiftl (JS.code a) 16 in
      String (sextet n 3) (String (sextet n 2) "==")
  | String a (String b EmptyString) =>
      let n := Z.lor (Z.shiftl (JS.code a) 16) (Z.shiftl (JS.code b) 8) in
      String (sextet n 3) (String (sextet n 2) (String (sextet n 1) "="))
  | String a (String b (String c rest)) =>
      let n := Z.lor (Z.lor (Z.shiftl (JS.code a) 16) (Z.shiftl (JS.code b) 8)) (JS.code c) in
      String (sextet n 3) (String (sextet n 2)
        (String (sextet n 1) (String (sextet n 0) (btoa rest))))
  end.

Definition relevantHeaders : list string :=
  ["authorization"; "accept"; "accept-language"].

(** [hashRequest(request)], lines 2260-2269. *)
Definition hashRequest (request : Request) : string :=
  let url := req_url request in
  let key := req_method request +:+ ":" +:+ url_pathname url +:+ url_search url in
  let headerValues :=
    JS.join ":" (map (fun h => JS.or_str (JS.header_get h (req_headers request)) "")
                     relevantHeaders) in
  JS.substring 0 32 (JS.filter_string JS.is_alnum (btoa (key +:+ ":" +:+ headerValues))).

Definition sample_url : URL :=
  {| url_protocol := "https:"; url_host := "cdn.example.com";
     url_pathname := "/worker/auth/v2/login"; url_search := "?x=1"; url_hash := "" |}.

Definition sample_request : Request :=
  {| req_method := "GET"; req_url := sample_url;
     req_headers := {[ "accept" := "text/html"; "user-agent" := "curl/8" ]};
     req_body := [] |}.

(** The same method, path, query and relevant headers, sent to another
    host with a body, a cookie and a fragment. *)
Definition sample_request' : Request :=
  {| req_method := "GET";
     req_url := {| url_protocol := "http:"; url_host := "other.example.org";
                   url_pathname := "/worker/auth/v2/login"; url_search := "?x=1";
                   url_hash := "#top" |};
     req_headers := {[ "accept" := "text/html"; "cookie" := "sid=42" ]};
     req_body := [x01; x02]%byte |}.

End RequestHash.

(** ** Range requests ([isMediaFile], [handleRangeRequest]) *)

Module RangeRequests.

(** [isMediaFile(contentType)], lines 2163-2167. *)
Definition isMediaFile (contentType : string) : bool :=
  JS.startsWith "video/" contentType
  || JS.startsWith "audio/" contentType
  || String.eqb contentType "application/octet-stream".

(** [rangeHeader.replace(/bytes=/, '').split('-')] *)
Definition range_parts (rangeHeader : string) : list string :=
  JS.split "-" (JS.remove_first "bytes=" rangeHeader).

(** The locals [start] and [end] of [handleRangeRequest]. *)
Definition range_start (rangeHeader : string) : Z :=
  JS.or_num (JS.parseInt_opt (range_parts rangeHeader !! 0%nat)) 0.

Definition range_end (rangeHeader : string) (fileSize : Z) : Z :=
  JS.or_num (JS.parseInt_opt (range_parts rangeHeader !! 1%nat)) (fileSize - 1).

(** [handleRangeRequest(body, rangeHeader, headers, contentType)],
    lines 2172-2191.  [headers] is the header object built by the caller;
    the function updates it in place and hands it to the response. *)
Definition handleRangeRequest (body : list byte) (rangeHeader : string)
    (headers : gmap string string) (contentType : string) : Response :=
  let fileSize := Z.of_nat (length body) in
  let start := range_start rangeHeader in
  let end_ := range_end rangeHeader fileSize in
  if (start >=? fileSize) || (end_ >=? fileSize) then
    {| res_status := 416;
       res_headers := JS.header_set "Content-Range" ("bytes */" +:+ JS.num fileSize) headers;
       res_body := BText "Range Not Satisfiable" |}
  else
    let chunkSize := (end_ - start) + 1 in
    let chunk := JS.slice body start (end_ + 1) in
    {| res_status := 206;
       res_headers :=
         JS.header_set "Content-Type" contentType
           (JS.header_set "Content-Length" (JS.num chunkSize)
              (JS.header_set "Content-Range"
                 ("bytes " +:+ JS.num start +:+ "-" +:+ JS.num end_ +:+ "/" +:+ JS.num fileSize)
                 headers));
       res_body := BBytes chunk |}.

(** The call site in [handleUploadedAssetRequest], lines 1933-1938 (the
    one in [optimizeResponse], lines 2024-2027, has the same guard): a
    range is honoured only for media content types; other bodies are
    served whole. *)
Definition serveBuffered (body : list byte) (rangeHeader : option string)
    (headers : gmap string string) (contentType : string) : Response :=
  match rangeHeader with
  | Some (String c r) =>
      if isMediaFile contentType
      then handleRangeRequest body (String c r) headers contentType
      else {| res_status := 200; res_headers := headers; res_body := BBytes body |}
  | _ => {| res_status := 200; res_headers := headers; res_body := BBytes body |}
  end.

Definition ten_bytes : list byte :=
  [x00; x01; x02; x03; x04; x05; x06; x07; x08; x09]%byte.

End RangeRequests.

(** ** The stores behind the service ([Env]) *)

Module Store.

(** The user object returned by the identity service. *)
Record User := {
  user_id : string;
  user_name : option string;
  user_email : option string;
  user_role : option string
}.

(** [interface FileMetadata], lines 36-52. *)
Record FileMetadata := {
  fm_id : string;
  fm_name : string;
  fm_originalName : string;
  fm_path : string;
  fm_mimeType : string;
  fm_size : Z;
  fm_owner : string;
  fm_ownerId : string;
  fm_created : Z;
  fm_modified : Z;
  fm_version : Z;
  fm_isPublic : bool;
  fm_tags : list string;
  fm_description : option string;
  fm_customFields : option (gmap string string)
}.

(** A JSON object that carries some of the fields of a [FileMetadata]:
    the body of a metadata update, and the [metadata] entry of a version
    record.  A full metadata object is the patch that carries them all. *)
Record Patch := {
  p_id : option string;
  p_name : option string;
  p_originalName : option string;
  p_path : option string;
  p_mimeType : option string;
  p_size : option Z;
  p_owner : option string;
  p_ownerId : option string;
  p_created : option Z;
  p_modified : option Z;
  p_version : option Z;
  p_isPublic : option bool;
  p_tags : option (list string);
  p_description : option string;
  p_customFields : option (gmap string string)
}.

Definition empty_patch : Patch :=
  {| p_id := None; p_name := None; p_originalName := None; p_path := None;
     p_mimeType := None; p_size := None; p_owner := None; p_ownerId := None;
     p_created := None; p_modified := None; p_version := None; p_isPublic := None;
     p_tags := None; p_description := None; p_customFields := None |}.

Definition patch_of_metadata (m : FileMetadata) : Patch :=
  {| p_id := Some (fm_id m); p_name := Some (fm_name m);
     p_originalName := Some (fm_originalName m); p_path := Some (fm_path m);
     p_mimeType := Some (fm_mimeType m); p_size := Some (fm_size m);
     p_owner := Some (fm_owner m); p_ownerId := Some (fm_ownerId m);
     p_created := Some (fm_created m); p_modified := Some (fm_modified m);
     p_version := Some (fm_version m); p_isPublic := Some (fm_isPublic m);
     p_tags := Some (fm_tags m); p_description := fm_description m;
     p_customFields := fm_customFields m |}.

(** The object spread [{...m, ...p}]. *)
Definition spread (m : FileMetadata) (p : Patch) : FileMetadata :=
  {| fm_id := default (fm_id m) (p_id p);
     fm_name := default (fm_name m) (p_name p);
     fm_originalName := default (fm_originalName m) (p_originalName p);
     fm_path := default (fm_path m) (p_path p);
     fm_mimeType := default (fm_mimeType m) (p_mimeType p);
     fm_size := default (fm_size m) (p_size p);
     fm_owner := default (fm_owner m) (p_owner p);
     fm_ownerId := default (fm_ownerId m) (p_ownerId p);
     fm_created := default (fm_created m) (p_created p);
     fm_modified := default (fm_modified m) (p_modified p);
     fm_version := default (fm_version m) (p_version p);
     fm_isPublic := default (fm_isPublic m) (p_isPublic p);
     fm_tags := default (fm_tags m) (p_tags p);
     fm_description := match p_description p with Some d => Some d | None => fm_description m end;
     fm_customFields := match p_customFields p with Some c => Some c | None => fm_customFields m end |}.

Definition with_modified_version (m : FileMetadata) (modified version : Z) : FileMetadata :=
  {| fm_id := fm_id m; fm_name := fm_name m; fm_originalName := fm_originalName m;
     fm_path := fm_path m; fm_mimeType := fm_mimeType m; fm_size := fm_size m;
     fm_owner := fm_owner m; fm_ownerId := fm_ownerId m; fm_created := fm_created m;
     fm_modified := modified; fm_version := version; fm_isPublic := fm_isPublic m;
     fm_tags := fm_tags m; fm_description := fm_description m;
     fm_customFields := fm_customFields m |}.

Definition with_size (m : FileMetadata) (size : Z) : FileMetadata :=
  {| fm_id := fm_id m; fm_name := fm_name m; fm_originalName := fm_originalName m;
     fm_path := fm_path m; fm_mimeType := fm_mimeType m; fm_size := size;
     fm_owner := fm_owner m; fm_ownerId := fm_ownerId m; fm_created := fm_created m;
     fm_modified := fm_modified m; fm_version := fm_version m; fm_isPublic := fm_isPublic m;
     fm_tags := fm_tags m; fm_description := fm_description m;
     fm_customFields := fm_customFields m |}.

Inductive ChangeType := CTmetadata | CTcontent | CTboth.

(** [interface FileVersion], lines 19-34. *)
Record Changes := {
  ch_metadata : option Patch;
  ch_contentSize : option Z;
  ch_contentHash : option string
}.

Record FileVersion := {
  fv_version : Z;
  fv_timestamp : Z;
  fv_author : option string;
  fv_authorId : string;
  fv_changeType : ChangeType;
  fv_changes : Changes;
  fv_contentBytes : Z;
  fv_metadataBytes : Z
}.

(** The record [handleDirectUpload] builds for a stored file (lines
    3235-3247); [uploadedAt] is the instant whose ISO string is stored. *)
Record UploadMeta := {
  um_name : string;
  um_path : string;
  um_storagePath : string;
  um_originalPath : option string;
  um_size : Z;
  um_type : string;
  um_uploadedAt : Z;
  um_userId : string;
  um_username : option string
}.

(** An entry of the per-user upload list:
    [{...fileMetadata, createdAt: fileMetadata.uploadedAt}]. *)
Record TrackedUpload := {
  tu_meta : UploadMeta;
  tu_createdAt : Z
}.

(** [storage_usage:{userId}] records of [updateUserStorageUsage]. *)
Record StorageUsage := {
  su_files : Z;
  su_versions : Z;
  su_total : Z;
  su_lastUpdated : Z
}.

(** What [storeInKVCache] keeps for a proxied response (lines 2299-2313):
    the serialized response, and the record used for quick expiry checks. *)
Record CachedData := {
  cd_status : Z;
  cd_headers : gmap string string;
  cd_body : list byte;
  cd_timestamp : Z
}.

Record CacheMeta := {
  cm_expires : Z;
  cm_size : Z;
  cm_workerPath : string;
  cm_contentType : string
}.

(** One day of [cdn:stats:daily]. *)
Record DayStats := {
  ds_requests : Z;
  ds_bandwidth : Z;
  ds_hits : Z
}.

(** Values of the [CDN_METADATA] namespace.  The key families are
    [file:..], [user_uploads:..], [storage_usage:..], the cache keys
    [worker:..] and the single key [cdn:stats:daily], whose object is
    indexed by day (the day number stands for the ISO date). *)
Inductive MetaValue :=
| MVFile (m : FileMetadata)
| MVUploads (l : list TrackedUpload)
| MVUsage (u : StorageUsage)
| MVCacheMeta (m : CacheMeta)
| MVStats (s : gmap Z DayStats).

(** Values of the [FILE_VERSIONS] namespace, under the keys
    [version:{id}:{n}], [version_content:{id}:{n}] and [versions:{id}]. *)
Inductive VersionValue :=
| VVRecord (v : FileVersion)
| VVContent (b : list byte)
| VVIndex (l : list Z).

(** The metadata object attached to a [CDN_CACHE] entry. *)
Record AssetMeta := {
  am_contentType : option string;
  am_size : option string;
  am_name : option string;
  am_description : option string;
  am_tags : option (list string);
  am_customFields : option (gmap string string);
  am_lastModified : option Z;
  am_originalName : option string
}.

(** Values of the [CDN_CACHE] namespace: an uploaded asset with its
    metadata object (keys [asset:..]) or a cached proxy response (keys
    [worker:..]). *)
Inductive CacheValue :=
| CVAsset (value : list byte) (metadata : option AssetMeta)
| CVResponse (d : CachedData).

(** A row of the [assets] table, with the columns that [getFileMetadata]
    reads and that the [UPDATE] statements write. *)
Record AssetRow := {
  r_name : string;
  r_original_name : string;
  r_path : string;
  r_mime_type : string;
  r_size : Z;
  r_file_size : Z;
  r_user_name : option string;
  r_user_id : string;
  r_created_at : Z;
  r_updated_at : option Z;
  r_version : option Z;
  r_is_public : option bool;
  r_tags : option (list string);
  r_description : option string;
  r_custom_fields : option (gmap string string)
}.

(** The D1 binding: the table, keyed by its primary key [id], and whether
    the deployed table accepts the [UPDATE] statements of the file editor
    (when it does not, the statement throws and the caller logs it). *)
Record Database := {
  db_assets : gmap string AssetRow;
  db_accepts_updates : bool
}.

Record Env := {
  CDN_CACHE : gmap string CacheValue;
  CDN_METADATA : gmap string MetaValue;
  FILE_VERSIONS : gmap string VersionValue;
  FILE_CONTENT : gmap string (list byte);
  ASSETS_DB : option Database
}.

Definition set_CDN_CACHE (f : gmap string CacheValue -> gmap string CacheValue) (e : Env) : Env :=
  {| CDN_CACHE := f (CDN_CACHE e); CDN_METADATA := CDN_METADATA e;
     FILE_VERSIONS := FILE_VERSIONS e; FILE_CONTENT := FILE_CONTENT e;
     ASSETS_DB := ASSETS_DB e |}.

Definition set_CDN_METADATA (f : gmap string MetaValue -> gmap string MetaValue) (e : Env) : Env :=
  {| CDN_CACHE := CDN_CACHE e; CDN_METADATA := f (CDN_METADATA e);
     FILE_VERSIONS := FILE_VERSIONS e; FILE_CONTENT := FILE_CONTENT e;
     ASSETS_DB := ASSETS_DB e |}.

Definition set_FILE_VERSIONS (f : gmap string VersionValue -> gmap string VersionValue) (e : Env) : Env :=
  {| CDN_CACHE := CDN_CACHE e; CDN_METADATA := CDN_METADATA e;
     FILE_VERSIONS := f (FILE_VERSIONS e); FILE_CONTENT := FILE_CONTENT e;
     ASSETS_DB := ASSETS_DB e |}.

Definition set_FILE_CONTENT (f : gmap string (list byte) -> gmap string (list byte)) (e : Env) : Env :=
  {| CDN_CACHE := CDN_CACHE e; CDN_METADATA := CDN_METADATA e;
     FILE_VERSIONS := FILE_VERSIONS e; FILE_CONTENT := f (FILE_CONTENT e);
     ASSETS_DB := ASSETS_DB e |}.

Definition set_ASSETS_DB (f : Database -> Database) (e : Env) : Env :=
  {| CDN_CACHE := CDN_CACHE e; CDN_METADATA := CDN_METADATA e;
     FILE_VERSIONS := FILE_VERSIONS e; FILE_CONTENT := FILE_CONTENT e;
     ASSETS_DB := f <$> ASSETS_DB e |}.

Definition empty_env : Env :=
  {| CDN_CACHE := ∅; CDN_METADATA := ∅; FILE_VERSIONS := ∅; FILE_CONTENT := ∅;
     ASSETS_DB := None |}.

(** Typed reads, [get(key, 'json') as T]. *)
Definition get_file (e : Env) (key : string) : option FileMetadata :=
  match CDN_METADATA e !! key with Some (MVFile m) => Some m | _ => None end.

Definition get_uploads (e : Env) (key : string) : option (list TrackedUpload) :=
  match CDN_METADATA e !! key with Some (MVUploads l) => Some l | _ => None end.

Definition get_usage (e : Env) (key : string) : option StorageUsage :=
  match CDN_METADATA e !! key with Some (MVUsage u) => Some u | _ => None end.

Definition get_cache_meta (e : Env) (key : string) : option CacheMeta :=
  match CDN_METADATA e !! key with Some (MVCacheMeta m) => Some m | _ => None end.

Definition get_stats (e : Env) (key : string) : option (gmap Z DayStats) :=
  match CDN_METADATA e !! key with Some (MVStats s) => Some s | _ => None end.

Definition get_cached_response (e : Env) (key : string) : option CachedData :=
  match CDN_CACHE e !! key with Some (CVResponse d) => Some d | _ => None end.

Definition get_asset (e : Env) (key : string) : option (list byte * option AssetMeta) :=
  match CDN_CACHE e !! key with Some (CVAsset v m) => Some (v, m) | _ => None end.

Definition get_record (e : Env) (key : string) : option FileVersion :=
  match FILE_VERSIONS e !! key with Some (VVRecord v) => Some v | _ => None end.

Definition get_version_content (e : Env) (key : string) : option (list byte) :=
  match FILE_VERSIONS e !! key with Some (VVContent b) => Some b | _ => None end.

Definition get_index (e : Env) (key : string) : option (list Z) :=
  match FILE_VERSIONS e !! key with Some (VVIndex l) => Some l | _ => None end.

(** Key builders (the template literals of the source). *)
Definition file_key (fileId : string) : string := "file:" +:+ fileId.
Definition user_uploads_key (userId : string) : string := "user_uploads:" +:+ userId.
Definition storage_usage_key (userId : string) : string := "storage_usage:" +:+ userId.
Definition content_key (fileId : string) : string := "content:" +:+ fileId.
Definition asset_key (path : string) : string := "asset:" +:+ path.
Definition version_key (fileId : string) (n : Z) : string :=
  "version:" +:+ fileId +:+ ":" +:+ JS.num n.
Definition version_content_key (fileId : string) (n : Z) : string :=
  "version_content:" +:+ fileId +:+ ":" +:+ JS.num n.
Definition versions_key (fileId : string) : string := "versions:" +:+ fileId.

End Store.

(** ** Quota and usage accounting *)

Module Quota.
Import Store.

Record QuotaLimits := { maxFiles : Z; maxStorage : Z }.

Definition GiB : Z := 1024 * 1024 * 1024.
Definition MiB : Z := 1024 * 1024.

(** The [quotas] table of [checkUserQuota], lines 1210-1214. *)
Definition quota_user : QuotaLimits := {| maxFiles := 100; maxStorage := GiB |}.
Definition quota_premium : QuotaLimits := {| maxFiles := 1000; maxStorage := 10 * GiB |}.
Definition quota_admin : QuotaLimits := {| maxFiles := -1; maxStorage := -1 |}.

Definition quotas : gmap string QuotaLimits :=
  {[ "user" := quota_user; "premium" := quota_premium; "admin" := quota_admin ]}.

(** What [quotas[userRole] || quotas.user] evaluates to (lines 1216-1217):
    an entry of the table, or -- for a role that names a member the table
    inherits -- that member, which has neither [maxFiles] nor
    [maxStorage].  A role is whatever text the identity service returns. *)
Inductive QuotaEntry :=
| Limits (quota : QuotaLimits)
| InheritedMember (name : string).

Definition quota_of (user : User) : QuotaEntry :=
  let userRole := JS.or_str (user_role user) "user" in
  match quotas !! userRole with
  | Some quota => Limits quota
  | None =>
      if JS.is_inherited userRole then InheritedMember userRole else Limits quota_user
  end.

Record Usage := { files : Z; storage : Z }.

(** The rows of a user in the [assets] table. *)
Definition rows_of (db : Database) (userId : string) : list AssetRow :=
  filter (fun r => r_user_id r = userId) (snd <$> map_to_list (db_assets db)).

Definition sum_list (l : list Z) : Z := foldr Z.add 0 l.

(** [calculateUserUsage(userId)], lines 923-960: the key-value upload
    list and the relational table are added up. *)
Definition calculateUserUsage (env : Env) (userId : string) : Usage :=
  let kv :=
    match get_uploads env (user_uploads_key userId) with
    | Some kvUploads =>
        {| files := Z.of_nat (length kvUploads);
           storage := sum_list ((fun u => um_size (tu_meta u)) <$> kvUploads) |}
    | None => {| files := 0; storage := 0 |}
    end in
  match ASSETS_DB env with
  | Some db =>
      let rows := rows_of db userId in
      {| files := files kv + Z.of_nat (length rows);
         storage := storage kv + sum_list (r_file_size <$> rows) |}
  | None => kv
  end.

Record QuotaCheck := { canUpload : bool; reason : option string }.

Definition file_limit_reason (usedFiles limit : Z) : string :=
  "File limit exceeded (" +:+ JS.num usedFiles +:+ "/" +:+ JS.num limit +:+ ")".

Definition storage_limit_reason (usedBytes limit : Z) : string :=
  let usedMB := JS.round_div usedBytes MiB in
  let maxMB := JS.round_div limit MiB in
  "Storage limit exceeded (" +:+ JS.num usedMB +:+ "MB/" +:+ JS.num maxMB +:+ "MB)".

(** The checks of [checkUserQuota] once the usage is known. *)
Definition check_limits (quota : QuotaLimits) (usage : Usage) : QuotaCheck :=
  if (maxFiles quota >? 0) && (files usage >=? maxFiles quota) then
    {| canUpload := false;
       reason := Some (file_limit_reason (files usage) (maxFiles quota)) |}
  else if (maxStorage quota >? 0) && (storage usage >=? maxStorage quota) then
    {| canUpload := false;
       reason := Some (storage_limit_reason (storage usage) (maxStorage quota)) |}
  else {| canUpload := true; reason := None |}.

(** [checkUserQuota(user)], lines 1207-1245.  On an inherited member
    [quota.maxFiles] and [quota.maxStorage] are [undefined]: the test for
    the sentinel ([=== -1]) is false, the usage is computed, and both
    limit checks ([> 0]) are false, so line 1239 is reached. *)
Definition checkUserQuota (env : Env) (user : User) : QuotaCheck :=
  match quota_of user with
  | Limits quota =>
      if (maxFiles quota =? -1) && (maxStorage quota =? -1) then
        {| canUpload := true; reason := None |}
      else check_limits quota (calculateUserUsage env (user_id user))
  | InheritedMember _ => {| canUpload := true; reason := None |}
  end.

(** [handleUploadRequest(request, pathname)], lines 3156-3192.  The
    identity service and the two upload handlers are the collaborators of
    this dispatcher. *)
Section UploadEndpoint.
Variable verifyUserAuthentication : Request -> option User.
Variable handleDirectUpload : Env -> Request -> User -> Env * Response.
Variable handleDatabaseUpload : Env -> Request -> User -> Env * Response.

Definition handleUploadRequest (now : Z) (env : Env) (request : Request)
    (pathname : string) : Env * Response :=
  if String.eqb (req_method request) "OPTIONS" then
    (env, {| res_status := 200; res_headers := headers_of getCORSHeaders;
             res_body := BNone |})
  else if negb (String.eqb (req_method request) "POST") then
    (env, createErrorResponse now 405 "Method not allowed")
  else
    match verifyUserAuthentication request with
    | None => (env, createErrorResponse now 401 "Authentication required for uploads")
    | Some user =>
        let quotaCheck := checkUserQuota env user in
        if negb (canUpload quotaCheck) then
          (env, createErrorResponse now 403
                  (JS.or_str (reason quotaCheck) "Upload quota exceeded"))
        else if String.eqb pathname "/api/upload/direct" then
          handleDirectUpload env request user
        else if String.eqb pathname "/api/upload/database" then
          handleDatabaseUpload env request user
        else (env, createErrorResponse now 404 "Upload endpoint not found")
    end.
End UploadEndpoint.

Definition sample_user : User :=
  {| user_id := "u1"; user_name := Some "Ann"; user_email := Some "ann@example.com";
     user_role := Some "user" |}.

(** The same user with a role that names an inherited member. *)
Definition constructor_user : User :=
  {| user_id := "u1"; user_name := Some "Ann"; user_email := Some "ann@example.com";
     user_role := Some "constructor" |}.

Definition sample_tracked (n : nat) : TrackedUpload :=
  {| tu_meta :=
       {| um_name := "note.txt"; um_path := "/prod/na/a/b/c/f/object/live.m3u8";
          um_storagePath := "/prod/na/a/b/c/f"; um_originalPath := None; um_size := 10;
          um_type := "text/plain"; um_uploadedAt := Z.of_nat n; um_userId := "u1";
          um_username := Some "ann" |};
     tu_createdAt := Z.of_nat n |}.

(** A store in which user [u1] has 100 tracked uploads of 10 bytes. *)
Definition env_100_files : Env :=
  set_CDN_METADATA
    (insert (user_uploads_key "u1") (MVUploads (sample_tracked <$> seq 0 100)))
    empty_env.

Definition post_request : Request :=
  {| req_method := "POST";
     req_url := {| url_protocol := "https:"; url_host := "cdn.example.com";
                   url_pathname := "/api/upload/direct"; url_search := ""; url_hash := "" |};
     req_headers := {[ "authorization" := "Bearer t" ]};
     req_body := [] |}.

End Quota.

(** ** Per-user upload tracking *)

Module Uploads.
Import Store.

Definition track_entry (fileMetadata : UploadMeta) : TrackedUpload :=
  {| tu_meta := fileMetadata; tu_createdAt := um_uploadedAt fileMetadata |}.

(** The list [trackUserUpload] writes back, lines 1188-1196. *)
Definition recentUploads (existingUploads : list TrackedUpload)
    (fileMetadata : UploadMeta) : list TrackedUpload :=
  JS.slice (JS.sort (JS.desc_by tu_createdAt) (existingUploads ++ [track_entry fileMetadata]))
           0 1000.

(** [trackUserUpload(userId, fileMetadata)], lines 1183-1202. *)
Definition trackUserUpload (env : Env) (userId : string) (fileMetadata : UploadMeta) : Env :=
  let userUploadsKey := user_uploads_key userId in
  let existingUploads := default [] (get_uploads env userUploadsKey) in
  set_CDN_METADATA
    (insert userUploadsKey (MVUploads (recentUploads existingUploads fileMetadata))) env.

(** [removeFromUserUploads(userId, fileId)], lines 1165-1178. *)
Definition removeFromUserUploads (env : Env) (userId fileId : string) : Env :=
  let userUploadsKey := user_uploads_key userId in
  let existingUploads := default [] (get_uploads env userUploadsKey) in
  let updatedUploads :=
    filter (fun u => um_storagePath (tu_meta u) <> fileId /\ um_path (tu_meta u) <> fileId)
           existingUploads in
  set_CDN_METADATA (insert userUploadsKey (MVUploads updatedUploads)) env.


Definition sample_upload (t : Z) : UploadMeta :=
  {| um_name := "note.txt"; um_path := "/prod/na/a/b/c/f/object/live.m3u8";
     um_storagePath := "/prod/na/a/b/c/f"; um_originalPath := None; um_size := 10;
     um_type := "text/plain"; um_uploadedAt := t; um_userId := "u1";
     um_username := Some "ann" |}.

End Uploads.

(** ** The path obfuscator *)

Module PathObfuscator.

(** The object built by [analyzeFileMetadata], lines 3656-3680.  The
    entropy level is a number with one decimal; it is kept as its number
    of tenths. *)
Record FileAnalysis := {
  nameComplexity : Z;
  sizeCategory : string;
  typeCategory : string;
  entropyTenths : Z;
  checksum : string;
  hasSpecialChars : bool;
  wordCount : Z;
  digitCount : Z;
  nameLength : Z;
  caseVariations : string
}.

(** The character class [[^a-zA-Z0-9.-]]. *)
Definition is_special (c : ascii) : bool :=
  negb (JS.is_alnum c || Ascii.eqb c "." || Ascii.eqb c "-").

Fixpoint count_string (p : ascii -> bool) (s : string) : Z :=
  match s with
  | EmptyString => 0
  | String c s' => (if p c then 1 else 0) + count_string p s'
  end.

(** [fileName.split(/[^a-zA-Z0-9]+/).filter(w => w.length > 0).length]:
    the number of maximal alphanumeric runs. *)
Fixpoint count_words (inWord : bool) (s : string) : Z :=
  match s with
  | EmptyString => 0
  | String c s' =>
      if JS.is_alnum c
      then (if inWord then 0 else 1) + count_words true s'
      else count_words false s'
  end.

(** [calculateNameComplexity], lines 3889-3899. *)
Definition calculateNameComplexity (fileName : string) : Z :=
  let len := Z.of_nat (String.length fileName) in
  let complexity :=
    (if len >? 20 then 3 else if len >? 10 then 2 else 1)
    + (if JS.exists_string JS.is_upper fileName then 1 else 0)
    + (if JS.exists_string JS.is_digit fileName then 1 else 0)
    + (if JS.exists_string is_special fileName then 2 else 0)
    + (if count_words false fileName >? 2 then 1 else 0) in
  Z.min complexity 8.

(** [categorizeSizeComplexity], lines 3904-3910. *)
Definition categorizeSizeComplexity (sizeBytes : Z) : string :=
  if sizeBytes <? 1024 then "tiny"
  else if sizeBytes <? 1024 * 100 then "small"
  else if sizeBytes <? 1024 * 1024 then "medium"
  else if sizeBytes <? 1024 * 1024 * 10 then "large"
  else "huge".

Definition in_list (x : string) (l : list string) : bool :=
  existsb (String.eqb x) l.

(** [categorizeFileType], lines 3915-3925. *)
Definition categorizeFileType (extension : string) : string :=
  let ext := JS.toLowerCase extension in
  if in_list ext ["jpg"; "jpeg"; "png"; "gif"; "webp"; "svg"; "mp4"; "mp3"; "wav"] then "media"
  else if in_list ext ["exe"; "dll"; "so"; "bin"; "dat"] then "binary"
  else if in_list ext ["js"; "ts"; "css"; "html"; "json"; "xml"] then "code"
  else if in_list ext ["pdf"; "doc"; "txt"; "md"] then "document"
  else if in_list ext ["zip"; "rar"; "tar"; "gz"] then "archive"
  else "unknown".

(** [analyzeCaseVariations], lines 3949-3957. *)
Definition analyzeCaseVariations (fileName : string) : string :=
  let hasUpper := JS.exists_string JS.is_upper fileName in
  let hasLower := JS.exists_string JS.is_lower fileName in
  if hasUpper && hasLower then "mixed"
  else if hasUpper then "upper"
  else if hasLower then "lower"
  else "none".

(** Conversion to a signed 32-bit integer, as done by [<<] and [&]. *)
Definition to_int32 (z : Z) : Z :=
  let m := z mod 2 ^ 32 in
  if m >=? 2 ^ 31 then m - 2 ^ 32 else m.

Fixpoint repeat_char (n : nat) (c : ascii) : string :=
  match n with
  | O => ""
  | S n' => String c (repeat_char n' c)
  end.

(** [s.padStart(n, c)] for a one-character pad. *)
Definition padStart (n : nat) (c : ascii) (s : string) : string :=
  repeat_char (n - String.length s) c +:+ s.

(** [generateFallbackChecksum], lines 3962-3970. *)
Fixpoint fallback_hash (hash : Z) (s : string) : Z :=
  match s with
  | EmptyString => hash
  | String c s' =>
      let h := (to_int32 (Z.shiftl hash 5) - hash) + JS.code c in
      fallback_hash (to_int32 h) s'
  end.

Definition generateFallbackChecksum (fileName : string) : string :=
  padStart 8 "0" (JS.toString_radix 16 (Z.abs (fallback_hash 0 fileName))).

(** [hashArray.map(b => b.toString(16).padStart(2, '0')).join('')] *)
Definition hex_byte (b : byte) : string :=
  let n := Z.of_N (Byte.to_N b) in
  String (JS.digit_char (n / 16)) (String (JS.digit_char (n mod 16)) "").

Fixpoint hex (bytes : list byte) : string :=
  match bytes with
  | [] => ""
  | b :: rest => hex_byte b +:+ hex rest
  end.

(** [new TextEncoder().encode(s)] on a Latin-1 string. *)
Definition byte_of_Z (z : Z) : byte := default x00 (Byte.of_N (Z.to_N z)).

Fixpoint utf8 (s : string) : list byte :=
  match s with
  | EmptyString => []
  | String c s' =>
      let n := JS.code c in
      if n <? 128 then byte_of_Z n :: utf8 s'
      else byte_of_Z (Z.lor 192 (Z.shiftr n 6)) :: byte_of_Z (Z.lor 128 (Z.land n 63)) :: utf8 s'
  end.

(** The rendering of an entropy level of [t] tenths in a template literal. *)
Definition entropy_string (t : Z) : string :=
  if t mod 10 =? 0 then JS.num (t / 10)
  else JS.num (t / 10) +:+ "." +:+ JS.num (t mod 10).

(** [calculateMetadataComplexity], lines 3685-3710. *)
Definition sizeFactor (category : string) : Z :=
  if String.eqb category "tiny" then 1
  else if String.eqb category "small" then 2
  else if String.eqb category "medium" then 3
  else if String.eqb category "large" then 4
  else if String.eqb category "huge" then 5
  else 2.

Definition typeFactor (category : string) : Z :=
  if String.eqb category "binary" then 3
  else if String.eqb category "media" then 4
  else if String.eqb category "document" then 2
  else if String.eqb category "code" then 3
  else if String.eqb category "archive" then 5
  else 2.

Definition calculateMetadataComplexity (metadata : FileAnalysis) : Z :=
  let complexity :=
    1 + Z.min (nameComplexity metadata) 5
    + sizeFactor (sizeCategory metadata)
    + typeFactor (typeCategory metadata)
    + (if hasSpecialChars metadata then 2 else 0)
    + (if wordCount metadata >? 3 then 1 else 0)
    + (if 10 * digitCount metadata >? 3 * nameLength metadata then 1 else 0)
    + (if entropyTenths metadata >? 30 then 2 else 0) in
  Z.min complexity 10.

(** [generateAdvancedObfuscatedDirectory], lines 4029-4042. *)
Definition prefixes : list string :=
  ["serix"; "sys"; "lib"; "bin"; "opt"; "var"; "tmp"; "usr"; "etc"; "proc"; "dev"; "mnt"; "srv"].
Definition suffixes : list string :=
  ["v2"; "v3"; "v4"; "cache"; "data"; "store"; "repo"; "arch"; "dist"; "build"; "core";
   "temp"; "meta"; "conf"; "log"].
Definition middle : list string :=
  ["x"; "z"; "q"; "k"; "j"; "w"; "v"; "f"; "g"; "h"; "p"; "r"; "s"; "e"; "i"].

(** [list[i]] printed in a template literal. *)
Definition pick (l : list string) (i : Z) : string :=
  default "undefined" (l !! Z.to_nat i).

Definition generateAdvancedObfuscatedDirectory (input hashSegment : string) : string :=
  let hash := JS.char_code_sum input in
  let base := JS.toString_radix 36 hash in
  let prefix := pick prefixes (Z.rem hash (Z.of_nat (length prefixes))) in
  let suffix := pick suffixes (Z.rem (hash * 7) (Z.of_nat (length suffixes))) in
  let mid := pick middle (Z.rem (hash * 13) (Z.of_nat (length middle))) in
  prefix +:+ hashSegment +:+ mid +:+ base +:+ suffix.

(** [s.substring(off, off + n)] where [off] is the result of a [%]. *)
Definition substr_at (off : option Z) (n : Z) (s : string) : string :=
  match off with
  | Some o => JS.substr o (o + n) s
  | None => ""
  end.

(** The loop of [generateMetadataDirectoryStructure], lines 3789-3797:
    [count] iterations starting at index [i]. *)
Fixpoint nested_directories (metadata : FileAnalysis) (primaryHash metadataHash : string)
    (i : Z) (count : nat) : list string :=
  match count with
  | O => []
  | S count' =>
      let hashOffset := JS.rem (i * 4) (Z.of_nat (String.length primaryHash) - 4) in
      let metaOffset := JS.rem (i * 3) (Z.of_nat (String.length metadataHash) - 3) in
      let dirSeed := entropy_string (entropyTenths metadata) +:+ JS.num i
                     +:+ JS.num (wordCount metadata) in
      let hashSegment := substr_at hashOffset 4 primaryHash in
      let metaSegment := substr_at metaOffset 3 metadataHash in
      generateAdvancedObfuscatedDirectory dirSeed (hashSegment +:+ metaSegment)
      :: nested_directories metadata primaryHash metadataHash (i + 1) count'
  end.

(** [generateMetadataDirectoryStructure], lines 3770-3800. *)
Definition generateMetadataDirectoryStructure (metadata : FileAnalysis)
    (primaryHash metadataHash : string) (pathComplexity : Z) (uploadType : string)
    : list string :=
  [ generateAdvancedObfuscatedDirectory (typeCategory metadata) (JS.substr 0 4 primaryHash);
    generateAdvancedObfuscatedDirectory uploadType (JS.substr 0 4 metadataHash);
    generateAdvancedObfuscatedDirectory (sizeCategory metadata) (JS.substr 8 12 primaryHash) ]
  ++ nested_directories metadata primaryHash metadataHash 3 (Z.to_nat (pathComplexity - 3)).

(** A path component: not empty and without a separator. *)
Definition is_slash (c : ascii) : bool := Ascii.eqb "/" c.

Definition no_slash (s : string) : bool := negb (JS.exists_string is_slash s).

Definition is_component (s : string) : Prop := s <> "" /\ no_slash s = true.

(** [detectContinent()], lines 3878-3884, as called without a request. *)
Definition detectContinent : string := "na".

Definition routing_suffix : string := "/object/live.m3u8".

Section Generator.
(** The platform: [crypto.subtle.digest], the clock, [Math.random] as
    consumed by line 3560, and the Shannon entropy of a name (a
    floating-point computation, lines 3930-3944) in tenths. *)
Variable digest : string -> list byte -> list byte.
Variable timestamp : Z.
Variable randomSeed : string.
Variable calculateNameEntropyTenths : string -> Z.

(** [generateCryptoHash], lines 3715-3721. *)
Definition generateCryptoHash (input algorithm : string) : string :=
  hex (digest algorithm (utf8 input)).

(** [analyzeFileMetadata], lines 3656-3680. *)
Definition analyzeFileMetadata (fileName : string) (fileBuffer : option (list byte))
    (extension : string) : FileAnalysis :=
  {| nameComplexity := calculateNameComplexity fileName;
     sizeCategory :=
       match fileBuffer with
       | Some b => categorizeSizeComplexity (Z.of_nat (length b))
       | None => "unknown"
       end;
     typeCategory := categorizeFileType extension;
     entropyTenths := calculateNameEntropyTenths fileName;
     checksum :=
       match fileBuffer with
       | Some b => JS.substr 0 16 (hex (digest "SHA-256" b))
       | None => generateFallbackChecksum fileName
       end;
     hasSpecialChars := JS.exists_string is_special fileName;
     wordCount := count_words false fileName;
     digitCount := count_string JS.is_digit fileName;
     nameLength := Z.of_nat (String.length fileName);
     caseVariations := analyzeCaseVariations fileName |}.

Definition pathComplexity_of (metadata : FileAnalysis) : Z :=
  Z.min (Z.max (calculateMetadataComplexity metadata) 3) 8.

Definition segmentCount_of (metadata : FileAnalysis) : Z :=
  Z.min (Z.max (nameComplexity metadata + 3) 6) 12.

Definition last_part (s : string) : string := default "" (last (JS.split "." s)).

(** The directories of the path that [generateComplexAssetPath] builds,
    lines 3555-3597. *)
Definition directories_of (originalFileName : string) (fileBuffer : option (list byte))
    (userPath : option string) (uploadType : string) : list string :=
  let fileExtension := JS.toLowerCase (last_part originalFileName) in
  let fileMetadata := analyzeFileMetadata originalFileName fileBuffer fileExtension in
  let primaryHashSource :=
    originalFileName +:+ JS.num timestamp +:+ randomSeed +:+ uploadType
    +:+ JS.or_str userPath "" in
  let metadataHashSource :=
    JS.num (nameComplexity fileMetadata) +:+ sizeCategory fileMetadata
    +:+ typeCategory fileMetadata +:+ entropy_string (entropyTenths fileMetadata) in
  generateMetadataDirectoryStructure fileMetadata
    (generateCryptoHash primaryHashSource "SHA-256")
    (generateCryptoHash metadataHashSource "SHA-1")
    (pathComplexity_of fileMetadata) uploadType.

End Generator.

(** A stand-in digest for running the generator: it repeats the length
    of its input. *)
Definition toy_digest (algorithm : string) (data : list byte) : list byte :=
  replicate (if String.eqb algorithm "SHA-1" then 20 else 32)
            (byte_of_Z (Z.of_nat (length data) mod 256)).

End PathObfuscator.

(** ** The layered cache resolver of the worker proxy *)

Module Proxy.
Import Store.

Inductive Layer := LayerKV | LayerEdge | LayerOrigin.

(** Work started without being awaited (the [.catch(console.error)] calls). *)
Inductive Task :=
| TaskStoreKV (cacheKey : string) (response : Response) (workerPath : string)
| TaskCachePut (cacheKey : string) (response : Response).

(** What a handler leaves behind besides its response: the cache layers
    it consulted, in order, and the tasks it started. *)
Record Log := { layers : list Layer; tasks : list Task }.

Definition Eff (A : Type) : Type := Log -> A * Log.

Definition eff_ret {A} (a : A) : Eff A := fun log => (a, log).
Definition eff_bind {A B} (m : Eff A) (k : A -> Eff B) : Eff B :=
  fun log => let '(a, log') := m log in k a log'.

#[export] Instance eff_mret : MRet Eff := @eff_ret.
#[export] Instance eff_mbind : MBind Eff := fun A B k m => eff_bind m k.

Definition consult {A} (layer : Layer) (result : A) : Eff A :=
  fun log => (result, {| layers := layers log ++ [layer]; tasks := tasks log |}).

Definition spawn (task : Task) : Eff unit :=
  fun log => (tt, {| layers := layers log; tasks := tasks log ++ [task] |}).

Definition run {A} (m : Eff A) : A * Log := m {| layers := []; tasks := [] |}.

(** A service binding: [fetch] answers or throws ([None]). *)
Definition Worker : Type := Request -> option Response.

(** [workerBindings], lines 182-189. *)
Definition workerBindings : gmap string string :=
  {[ "mts-stv0" := "MTS_STV0_WORKER";
     "emailworker" := "MTS_STV0_WORKER";
     "smpweb-2x-auth" := "SMPWEB_2X_AUTH_WORKER";
     "authworker" := "SMPWEB_2X_AUTH_WORKER";
     "auth" := "SMPWEB_2X_AUTH_WORKER";
     "serix" := "SMPWEB_2X_AUTH_WORKER" ]}.

Definition url_href (u : URL) : string :=
  url_protocol u +:+ "//" +:+ url_host u +:+ url_pathname u +:+ url_search u +:+ url_hash u.

Definition with_pathname (u : URL) (pathname : string) : URL :=
  {| url_protocol := url_protocol u; url_host := url_host u; url_pathname := pathname;
     url_search := url_search u; url_hash := url_hash u |}.

Definition set_headers (l : list (string * string)) (r : Response) : Response :=
  {| res_status := res_status r;
     res_headers := foldl (fun hs kv => JS.header_set kv.1 kv.2 hs) (res_headers r) l;
     res_body := res_body r |}.

(** [getWorkerCacheTTL], lines 2233-2245. *)
Definition getWorkerCacheTTL (workerPath : string) : Z :=
  if JS.includes "/attachments/" workerPath || JS.includes "/files/" workerPath then 3600
  else if JS.includes "/api/" workerPath then 300
  else if JS.includes "/static/" workerPath || JS.includes "/assets/" workerPath then 86400
  else 1800.

(** [isCacheExpired], lines 2351-2353. *)
Definition isCacheExpired (now expiresAt : Z) : bool := now >? expiresAt.

(** [getFromKVCache], lines 2274-2287. *)
Definition getFromKVCache (now : Z) (env : Env) (cacheKey : string) : option CachedData :=
  match get_cache_meta env cacheKey with
  | None => None
  | Some metadata =>
      if isCacheExpired now (cm_expires metadata) then None
      else get_cached_response env cacheKey
  end.

(** [addSecurityHeaders], lines 2102-2116. *)
Definition securityHeaders : list (string * string) :=
  [ ("X-Content-Type-Options", "nosniff");
    ("X-Frame-Options", "DENY");
    ("X-XSS-Protection", "1; mode=block");
    ("Referrer-Policy", "strict-origin-when-cross-origin");
    ("Access-Control-Expose-Headers",
       "Content-Length, Content-Range, ETag, Last-Modified, Accept-Ranges");
    ("Accept-Ranges", "bytes");
    ("Vary", "Accept-Encoding, Accept") ].

Definition dquote : string := String (ascii_of_nat 34) EmptyString.

Definition stats_key : string := "cdn:stats:daily".

(** The day a clock reading falls on. *)
Definition day_of (now : Z) : Z := now / 86400000.

(** Which writes of a background task go through. *)
Record WriteOracle := {
  cache_put_ok : bool;
  meta_put_ok : bool;
  stats_put_ok : bool;
  edge_put_ok : bool
}.

Definition all_writes_ok : WriteOracle :=
  {| cache_put_ok := true; meta_put_ok := true; stats_put_ok := true; edge_put_ok := true |}.

Definition no_write_ok : WriteOracle :=
  {| cache_put_ok := false; meta_put_ok := false; stats_put_ok := false;
     edge_put_ok := false |}.

Section Resolver.
(** The platform: SHA-256, the rendering of dates and of JSON bodies. *)
Variable sha256 : list byte -> list byte.
Variable toISOString : Z -> string.
Variable stringify : JVal -> list byte.

Definition body_bytes (b : Body) : list byte :=
  match b with
  | BNone => []
  | BBytes bytes => bytes
  | BText s => PathObfuscator.utf8 s
  | BJson j => stringify j
  end.

(** [generateETagFromBuffer], lines 2250-2255. *)
Definition generateETagFromBuffer (buffer : list byte) : string :=
  dquote +:+ JS.substr 0 16 (PathObfuscator.hex (sha256 buffer)) +:+ dquote.

(** [deserializeKVResponse], lines 2332-2346. *)
Definition deserializeKVResponse (now : Z) (cachedData : CachedData) : Response :=
  let age := (now - cd_timestamp cachedData) / 1000 in
  {| res_status := cd_status cachedData;
     res_headers :=
       JS.header_set "X-Cache-Timestamp" (toISOString (cd_timestamp cachedData))
         (JS.header_set "Age" (JS.num age) (cd_headers cachedData));
     res_body := BBytes (cd_body cachedData) |}.

(** [optimizeWorkerResponse], lines 2196-2228. *)
Definition optimizeWorkerResponse (response : Response) (workerName workerPath : string)
    (request : Request) : Response :=
  let body := body_bytes (res_body response) in
  let etag := generateETagFromBuffer body in
  let headers :=
    res_headers
      (set_headers
         (securityHeaders ++ getCORSHeaders
          ++ [("X-Proxy-Worker", workerName); ("X-Proxy-Path", workerPath);
              ("X-CDN-Proxy", "true"); ("ETag", etag)])
         response) in
  if decide (JS.header_get "If-None-Match" (req_headers request) = Some etag) then
    {| res_status := 304; res_headers := headers; res_body := BNone |}
  else
    {| res_status := res_status response; res_headers := headers; res_body := BBytes body |}.

Definition cache_stamp (status layer workerName : string) : list (string * string) :=
  [("X-Cache-Status", status); ("X-Cache-Layer", layer); ("X-Proxy-Worker", workerName)].

Definition is_ok (r : Response) : bool := (200 <=? res_status r) && (res_status r <=? 299).

(** The tail of [handleWorkerProxyRequest], lines 237-285: forward to
    the worker and cache a successful GET in both layers. *)
Definition forward (now : Z) (workerBinding : Worker) (request : Request)
    (workerName workerPath cacheKeyString : string) : Eff Response :=
  let workerRequest :=
    {| req_method := req_method request;
       req_url := with_pathname (req_url request) workerPath;
       req_headers := req_headers request;
       req_body := req_body request |} in
  workerResponse ← consult LayerOrigin (workerBinding workerRequest);
  match workerResponse with
  | None =>
      eff_ret (createErrorResponse now 500
                 ("Failed to proxy request to worker '" +:+ workerName +:+ "'"))
  | Some workerResponse =>
      if negb (is_ok workerResponse) then eff_ret workerResponse
      else
        let optimizedResponse :=
          optimizeWorkerResponse workerResponse workerName workerPath request in
        if String.eqb (req_method request) "GET" && (res_status optimizedResponse =? 200)
        then
          let cacheTTL := getWorkerCacheTTL workerPath in
          let stamped :=
            set_headers
              (("Cache-Control", "public, max-age=" +:+ JS.num cacheTTL)
               :: cache_stamp "MISS" "Origin" workerName)
              optimizedResponse in
          let cacheKey := url_href (req_url request) +:+ "-worker-proxy" in
          _ ← spawn (TaskCachePut cacheKey stamped);
          _ ← spawn (TaskStoreKV cacheKeyString stamped workerPath);
          eff_ret stamped
        else eff_ret optimizedResponse
  end.

Definition cache_key_string (request : Request) (workerName workerPath : string) : string :=
  "worker:" +:+ workerName +:+ ":" +:+ workerPath +:+ ":" +:+ RequestHash.hashRequest request.

Definition edge_cache_key (request : Request) : string :=
  url_href (req_url request) +:+ "-worker-proxy".

(** The [try] block of [handleWorkerProxyRequest], lines 201-291. *)
Definition resolve (now : Z) (env : Env) (cache : gmap string Response)
    (workerBinding : Worker) (request : Request) (workerName workerPath : string)
    : Eff Response :=
  let cacheKeyString := cache_key_string request workerName workerPath in
  if String.eqb (req_method request) "GET" then
    kvCachedData ← consult LayerKV (getFromKVCache now env cacheKeyString);
    match kvCachedData with
    | Some data =>
        eff_ret (set_headers (cache_stamp "KV-HIT" "KV" workerName)
                   (deserializeKVResponse now data))
    | None =>
        cachedResponse ← consult LayerEdge (cache !! edge_cache_key request);
        match cachedResponse with
        | Some cachedResponse =>
            let newResponse :=
              set_headers (cache_stamp "CACHE-HIT" "EdgeCache" workerName) cachedResponse in
            _ ← spawn (TaskStoreKV cacheKeyString newResponse workerPath);
            eff_ret newResponse
        | None => forward now workerBinding request workerName workerPath cacheKeyString
        end
    end
  else forward now workerBinding request workerName workerPath cacheKeyString.

Definition path_parts (pathname : string) : list string :=
  filter (fun part => part <> "") (JS.split "/" pathname).

(** The worker name and worker path a proxy path names (lines 172-179). *)
Definition route (pathname : string) : option (string * string) :=
  let pathParts := path_parts pathname in
  match pathParts !! 1%nat with
  | Some workerName => Some (workerName, "/" +:+ JS.join "/" (drop 2 pathParts))
  | None => None
  end.

(** [handleWorkerProxyRequest(request, pathname)], lines 171-291;
    [workers] holds the service bindings of the environment by name.  A
    worker name that is no entry of [workerBindings] but names a member
    the table inherits passes the test of line 192; the environment has
    no binding under the text of that member, so line 198 answers. *)
Definition handleWorkerProxyRequest (now : Z) (env : Env) (cache : gmap string Response)
    (workers : gmap string Worker) (request : Request) (pathname : string)
    : Eff Response :=
  match route pathname with
  | None =>
      eff_ret (createErrorResponse now 400
                 "Invalid proxy path. Use /worker/{worker-name}/{path}")
  | Some (workerName, workerPath) =>
      match workerBindings !! workerName with
      | None =>
          if JS.is_inherited workerName then
            eff_ret (createErrorResponse now 500
                       ("Worker binding '" +:+ JS.inherited_text workerName
                        +:+ "' not available"))
          else
            eff_ret (createErrorResponse now 404
                       ("Worker '" +:+ workerName +:+ "' not found or not configured"))
      | Some bindingName =>
          match workers !! bindingName with
          | None =>
              eff_ret (createErrorResponse now 500
                         ("Worker binding '" +:+ bindingName +:+ "' not available"))
          | Some workerBinding =>
              resolve now env cache workerBinding request workerName workerPath
          end
      end
  end.

(** [updateCacheStats], lines 2358-2375. *)
Definition updateCacheStats (now : Z) (ok : WriteOracle) (env : Env) (size : Z)
    : Env * list string :=
  let today := day_of now in
  let statsData := default ∅ (get_stats env stats_key) in
  let entry := default {| ds_requests := 0; ds_bandwidth := 0; ds_hits := 0 |}
                       (statsData !! today) in
  let entry' := {| ds_requests := ds_requests entry + 1;
                   ds_bandwidth := ds_bandwidth entry + size;
                   ds_hits := ds_hits entry |} in
  if stats_put_ok ok
  then (set_CDN_METADATA (insert stats_key (MVStats (<[today := entry']> statsData))) env, [])
  else (env, ["Stats update error:"]).

(** [storeInKVCache], lines 2292-2327: the two records are written side
    by side; a failed write is caught and logged. *)
Definition storeInKVCache (now : Z) (ok : WriteOracle) (env : Env) (cacheKey : string)
    (response : Response) (workerPath : string) : Env * list string :=
  let cacheTTL := getWorkerCacheTTL workerPath in
  let expiresAt := now + cacheTTL * 1000 in
  let body := body_bytes (res_body response) in
  let responseData :=
    {| cd_status := res_status response; cd_headers := res_headers response;
       cd_body := body; cd_timestamp := now |} in
  let metadata :=
    {| cm_expires := expiresAt; cm_size := Z.of_nat (length body);
       cm_workerPath := workerPath;
       cm_contentType := JS.or_str (JS.header_get "content-type" (res_headers response))
                                   "unknown" |} in
  let env1 := if cache_put_ok ok
              then set_CDN_CACHE (insert cacheKey (CVResponse responseData)) env else env in
  let env2 := if meta_put_ok ok
              then set_CDN_METADATA (insert cacheKey (MVCacheMeta metadata)) env1 else env1 in
  if cache_put_ok ok && meta_put_ok ok
  then updateCacheStats now ok env2 (Z.of_nat (length body))
  else (env2, ["KV cache write error:"]).

(** The stores once a started task has settled, with what it logged. *)
Definition settle_task (now : Z) (ok : WriteOracle)
    (st : Env * gmap string Response * list string) (task : Task)
    : Env * gmap string Response * list string :=
  let '(env, cache, logged) := st in
  match task with
  | TaskStoreKV cacheKey response workerPath =>
      let '(env', msgs) := storeInKVCache now ok env cacheKey response workerPath in
      (env', cache, logged ++ msgs)
  | TaskCachePut cacheKey response =>
      if edge_put_ok ok then (env, <[cacheKey := response]> cache, logged)
      else (env, cache, logged ++ ["cache.put rejected"])
  end.

(** One request from arrival to quiescence: the response is fixed when
    the handler returns; the started tasks settle afterwards. *)
Definition serve (now : Z) (ok : WriteOracle) (env : Env) (cache : gmap string Response)
    (workers : gmap string Worker) (request : Request) (pathname : string)
    : Response * (Env * gmap string Response * list string) :=
  let '(response, log) := run (handleWorkerProxyRequest now env cache workers request pathname) in
  (response, foldl (settle_task now ok) (env, cache, []) (tasks log)).
End Resolver.

Definition login_request : Request :=
  {| req_method := "GET";
     req_url := {| url_protocol := "https:"; url_host := "cdn.example.com";
                   url_pathname := "/worker/auth/v2/login"; url_search := ""; url_hash := "" |};
     req_headers := {[ "accept" := "application/json" ]};
     req_body := [] |}.

Definition login_response : Response :=
  {| res_status := 200;
     res_headers := {[ "content-type" := "application/json" ]};
     res_body := BBytes [x7b; x7d]%byte |}.

Definition auth_worker : Worker := fun _ => Some login_response.

Definition sample_workers : gmap string Worker :=
  {[ "SMPWEB_2X_AUTH_WORKER" := auth_worker ]}.

(** An edge cache that holds nothing. *)
Definition cold_edge_cache : gmap string Response := ∅.

(** An edge cache that holds the login response. *)
Definition warm_edge : gmap string Response :=
  {[ "https://cdn.example.com/worker/auth/v2/login-worker-proxy" := login_response ]}.

Definition toy_sha256 (data : list byte) : list byte := replicate 32 x2a%byte.
Definition toy_iso (t : Z) : string := JS.num t.
Definition toy_stringify (j : JVal) : list byte := [].

End Proxy.

(** ** The versioned file store *)

Module Versions.
Import Store.

(** [getFileMetadata(fileId)], lines 1309-1346: the relational row wins
    over the key-value record. *)
Definition metadata_of_row (fileId : string) (row : AssetRow) : FileMetadata :=
  {| fm_id := fileId;
     fm_name := r_name row;
     fm_originalName := r_original_name row;
     fm_path := r_path row;
     fm_mimeType := r_mime_type row;
     fm_size := r_size row;
     fm_owner := JS.or_str (r_user_name row) "Unknown";
     fm_ownerId := r_user_id row;
     fm_created := r_created_at row;
     fm_modified := default (r_created_at row) (r_updated_at row);
     fm_version := JS.or_num (r_version row) 1;
     fm_isPublic := default false (r_is_public row);
     fm_tags := default [] (r_tags row);
     fm_description := Some (JS.or_str (r_description row) "");
     fm_customFields := Some (default ∅ (r_custom_fields row)) |}.

Definition db_row (env : Env) (fileId : string) : option AssetRow :=
  match ASSETS_DB env with
  | Some db => db_assets db !! fileId
  | None => None
  end.

Definition getFileMetadata (env : Env) (fileId : string) : option FileMetadata :=
  match db_row env fileId with
  | Some dbResult => Some (metadata_of_row fileId dbResult)
  | None => get_file env (file_key fileId)
  end.

(** An [UPDATE assets SET .. WHERE id = ? AND user_id = ?]; a database
    that rejects the statement is left as it is (the caller logs). *)
Definition db_update (fileId userId : string) (f : AssetRow -> AssetRow) (env : Env) : Env :=
  set_ASSETS_DB
    (fun db =>
       if db_accepts_updates db then
         {| db_assets :=
              alter (fun row => if decide (r_user_id row = userId) then f row else row)
                    fileId (db_assets db);
            db_accepts_updates := true |}
       else db)
    env.

Definition row_set_metadata (m : FileMetadata) (now : Z) (row : AssetRow) : AssetRow :=
  {| r_name := fm_name m; r_original_name := r_original_name row; r_path := r_path row;
     r_mime_type := r_mime_type row; r_size := r_size row; r_file_size := r_file_size row;
     r_user_name := r_user_name row; r_user_id := r_user_id row;
     r_created_at := r_created_at row; r_updated_at := Some now;
     r_version := Some (fm_version m); r_is_public := r_is_public row;
     r_tags := Some (fm_tags m);
     r_description := Some (default "" (fm_description m));
     r_custom_fields := Some (default ∅ (fm_customFields m)) |}.

Definition row_set_content (newSize version now : Z) (row : AssetRow) : AssetRow :=
  {| r_name := r_name row; r_original_name := r_original_name row; r_path := r_path row;
     r_mime_type := r_mime_type row; r_size := newSize; r_file_size := newSize;
     r_user_name := r_user_name row; r_user_id := r_user_id row;
     r_created_at := r_created_at row; r_updated_at := Some now;
     r_version := Some version; r_is_public := r_is_public row;
     r_tags := r_tags row; r_description := r_description row;
     r_custom_fields := r_custom_fields row |}.

Definition MAX_VERSIONS : Z := 50.

Definition is_content_change (changeType : ChangeType) : bool :=
  match changeType with CTcontent | CTboth => true | CTmetadata => false end.

Definition is_metadata_change (changeType : ChangeType) : bool :=
  match changeType with CTmetadata | CTboth => true | CTcontent => false end.

(** The clean-up loop of [createFileVersion], lines 1755-1758. *)
Definition evict (fileId : string) (kv : gmap string VersionValue) (oldVersion : Z)
    : gmap string VersionValue :=
  delete (version_content_key fileId oldVersion) (delete (version_key fileId oldVersion) kv).

(** [versionIndex.includes(versionNumber)] *)
Definition index_includes (versionIndex : list Z) (versionNumber : Z) : bool :=
  existsb (Z.eqb versionNumber) versionIndex.

(** The index after [push] and [sort((a, b) => b - a)]. *)
Definition sorted_index (versionIndex : list Z) (versionNumber : Z) : list Z :=
  JS.sort (JS.desc_by id) (versionIndex ++ [versionNumber]).

(** [getFileVersions(fileId)], lines 1769-1787: the records of the index
    entries that still exist, newest timestamp first. *)
Definition getFileVersions (env : Env) (fileId : string) : list FileVersion :=
  let versionIndex := default [] (get_index env (versions_key fileId)) in
  let versions :=
    omap (fun versionNumber => get_record env (version_key fileId versionNumber))
         versionIndex in
  JS.sort (JS.desc_by fv_timestamp) versions.

(** [calculateFileVersionStorage], lines 1792-1802. *)
Definition calculateFileVersionStorage (env : Env) (fileId : string) : Z :=
  foldl (fun total version => total + fv_contentBytes version + fv_metadataBytes version)
        0 (getFileVersions env fileId).

(** [calculateUserVersionStorage], lines 1807-1825. *)
Definition calculateUserVersionStorage (env : Env) (userId : string) : Z :=
  let userUploads := default [] (get_uploads env (user_uploads_key userId)) in
  foldl (fun total upload =>
           let fileId := JS.or_str (Some (um_storagePath (tu_meta upload)))
                                   (um_path (tu_meta upload)) in
           if String.eqb fileId "" then total
           else total + calculateFileVersionStorage env fileId)
        0 userUploads.

Inductive UsageKind := UKfile | UKversion.

(** [updateUserStorageUsage], lines 1830-1854. *)
Definition updateUserStorageUsage (now : Z) (env : Env) (userId : string)
    (oldSize newSize : Z) (kind : UsageKind) : Env :=
  let storageKey := storage_usage_key userId in
  let currentUsage :=
    default {| su_files := 0; su_versions := 0; su_total := 0; su_lastUpdated := now |}
            (get_usage env storageKey) in
  let files' := match kind with
                | UKfile => su_files currentUsage + (newSize - oldSize)
                | UKversion => su_files currentUsage
                end in
  let versions' := match kind with
                   | UKversion => su_versions currentUsage + (newSize - oldSize)
                   | UKfile => su_versions currentUsage
                   end in
  set_CDN_METADATA
    (insert storageKey
       (MVUsage {| su_files := files'; su_versions := versions';
                   su_total := files' + versions'; su_lastUpdated := now |}))
    env.

(** The version numbers the clean-up loop goes through when [versionNumber]
    is recorded on top of [versionIndex]. *)
Definition evicted (versionIndex : list Z) (versionNumber : Z) : list Z :=
  if index_includes versionIndex versionNumber then []
  else drop (Z.to_nat MAX_VERSIONS) (sorted_index versionIndex versionNumber).

(** The index of every file is strictly descending and holds at most
    [MAX_VERSIONS] numbers. *)
Definition index_bounded (env : Env) : Prop :=
  forall fileId versionIndex,
    get_index env (versions_key fileId) = Some versionIndex ->
    (length versionIndex <= Z.to_nat MAX_VERSIONS)%nat /\ StronglySorted Z.gt versionIndex.

Section Operations.
(** The platform: the byte length of [JSON.stringify(metadata)] and SHA-256. *)
Variable jsonSize : FileMetadata -> Z.
Variable sha256 : list byte -> list byte.

(** [generateContentHash], lines 1859-1863. *)
Definition generateContentHash (content : list byte) : string :=
  PathObfuscator.hex (sha256 content).

(** The record [createFileVersion] writes. *)
Definition version_record (now : Z) (env : Env) (metadata : FileMetadata) (user : User)
    (changeType : ChangeType) (changes : Changes) : FileVersion :=
  {| fv_version := fm_version metadata;
     fv_timestamp := now;
     fv_author := match user_name user with
                  | Some (String c s) => Some (String c s)
                  | _ => user_email user
                  end;
     fv_authorId := user_id user;
     fv_changeType := changeType;
     fv_changes := changes;
     fv_contentBytes :=
       match (if is_content_change changeType
              then FILE_CONTENT env !! content_key (fm_id metadata) else None) with
       | Some c => Z.of_nat (length c)
       | None => 0
       end;
     fv_metadataBytes := jsonSize metadata |}.

(** [createFileVersion(metadata, user, changeType, changes)], lines
    1710-1764; [now] is the clock reading taken for [timestamp]. *)
Definition createFileVersion (now : Z) (env : Env) (metadata : FileMetadata) (user : User)
    (changeType : ChangeType) (changes : Changes) : Env :=
  let versionNumber := fm_version metadata in
  let fileId := fm_id metadata in
  let metadataSize := jsonSize metadata in
  let currentContent :=
    if is_content_change changeType then FILE_CONTENT env !! content_key fileId else None in
  let contentSize :=
    match currentContent with Some c => Z.of_nat (length c) | None => 0 end in
  let env1 :=
    match currentContent with
    | Some c =>
        set_FILE_VERSIONS (insert (version_content_key fileId versionNumber) (VVContent c)) env
    | None => env
    end in
  let versionData :=
    {| fv_version := versionNumber;
       fv_timestamp := now;
       fv_author := match user_name user with
                    | Some (String c s) => Some (String c s)
                    | _ => user_email user
                    end;
       fv_authorId := user_id user;
       fv_changeType := changeType;
       fv_changes := changes;
       fv_contentBytes := contentSize;
       fv_metadataBytes := metadataSize |} in
  let env2 :=
    set_FILE_VERSIONS (insert (version_key fileId versionNumber) (VVRecord versionData)) env1 in
  let versionIndex := default [] (get_index env2 (versions_key fileId)) in
  if index_includes versionIndex versionNumber then env2
  else
    let sorted := sorted_index versionIndex versionNumber in
    let trimmedIndex := JS.slice sorted 0 MAX_VERSIONS in
    let env3 := set_FILE_VERSIONS (insert (versions_key fileId) (VVIndex trimmedIndex)) env2 in
    set_FILE_VERSIONS
      (fun kv => foldl (evict fileId) kv
                       (JS.slice sorted MAX_VERSIONS (Z.of_nat (length sorted))))
      env3.

Definition asset_meta_of_update (existingMeta : option AssetMeta)
    (currentMetadata updatedMetadata : FileMetadata) (now : Z) : AssetMeta :=
  {| am_contentType :=
       Some (JS.or_str (existingMeta ≫= am_contentType) (fm_mimeType currentMetadata));
     am_size := Some (JS.or_str (existingMeta ≫= am_size) (JS.num (fm_size currentMetadata)));
     am_name := Some (fm_name updatedMetadata);
     am_description := fm_description updatedMetadata;
     am_tags := Some (fm_tags updatedMetadata);
     am_customFields := Some (default ∅ (fm_customFields updatedMetadata));
     am_lastModified := Some now;
     am_originalName := None |}.

(** [updateFileMetadata(fileId, user, request)], lines 1351-1440;
    [updateData] is the JSON object of the request body. *)
Definition updateFileMetadata (now : Z) (env : Env) (fileId : string) (user : User)
    (updateData : Patch) : Env * Response :=
  match getFileMetadata env fileId with
  | None => (env, createErrorResponse now 404 "File not found")
  | Some currentMetadata =>
      let env1 :=
        createFileVersion now env currentMetadata user CTmetadata
          {| ch_metadata := Some updateData; ch_contentSize := None;
             ch_contentHash := None |} in
      let updatedMetadata :=
        with_modified_version (spread currentMetadata updateData) now
          (fm_version currentMetadata + 1) in
      let env2 :=
        db_update fileId (user_id user) (row_set_metadata updatedMetadata now) env1 in
      let env3 := set_CDN_METADATA (insert (file_key fileId) (MVFile updatedMetadata)) env2 in
      let assetKey := asset_key (fm_path currentMetadata) in
      let env4 :=
        match get_asset env3 assetKey with
        | Some (value, existingMeta) =>
            if bool_decide (value = []) then env3
            else
              set_CDN_CACHE
                (insert assetKey
                   (CVAsset value
                      (Some (asset_meta_of_update existingMeta currentMetadata
                               updatedMetadata now))))
                env3
        | None => env3
        end in
      let metadataSize := jsonSize currentMetadata in
      let env5 := updateUserStorageUsage now env4 (user_id user) 0 metadataSize UKversion in
      (env5,
       json_response
         (JObj [("success", JBool true);
                ("message", JStr "File metadata updated successfully");
                ("fileId", JStr fileId);
                ("version", JNum (fm_version updatedMetadata));
                ("storage",
                 JObj [("versionStorage", JNum metadataSize);
                       ("totalStorage",
                        JNum (calculateUserVersionStorage env5 (user_id user)))])]))
  end.

(** [updateFileContent(fileId, user, request)], lines 1445-1538;
    [newContent] is the request body. *)
Definition updateFileContent (now : Z) (env : Env) (fileId : string) (user : User)
    (newContent : list byte) : Env * Response :=
  match getFileMetadata env fileId with
  | None => (env, createErrorResponse now 404 "File not found")
  | Some currentMetadata =>
      let currentContent := FILE_CONTENT env !! content_key fileId in
      let newSize := Z.of_nat (length newContent) in
      if newSize =? 0 then (env, createErrorResponse now 400 "Content cannot be empty")
      else
        let env1 :=
          match currentContent with
          | Some c =>
              createFileVersion now env currentMetadata user CTcontent
                {| ch_metadata := None;
                   ch_contentSize := Some (Z.of_nat (length c));
                   ch_contentHash := Some (generateContentHash c) |}
          | None => env
          end in
        let env2 := set_FILE_CONTENT (insert (content_key fileId) newContent) env1 in
        let env3 :=
          set_CDN_CACHE
            (insert (asset_key (fm_path currentMetadata))
               (CVAsset newContent
                  (Some {| am_contentType := Some (fm_mimeType currentMetadata);
                           am_size := Some (JS.num newSize);
                           am_name := None; am_description := None; am_tags := None;
                           am_customFields := None; am_lastModified := Some now;
                           am_originalName := None |})))
            env2 in
        let updatedMetadata :=
          with_modified_version (with_size currentMetadata newSize) now
            (fm_version currentMetadata + 1) in
        let env4 := set_CDN_METADATA (insert (file_key fileId) (MVFile updatedMetadata)) env3 in
        let env5 :=
          db_update fileId (user_id user)
            (row_set_content newSize (fm_version updatedMetadata) now) env4 in
        let oldContentSize :=
          match currentContent with Some c => Z.of_nat (length c) | None => 0 end in
        let env6 :=
          updateUserStorageUsage now env5 (user_id user) oldContentSize newSize UKversion in
        (env6,
         json_response
           (JObj [("success", JBool true);
                  ("message", JStr "File content updated successfully");
                  ("fileId", JStr fileId);
                  ("version", JNum (fm_version updatedMetadata));
                  ("size", JNum newSize);
                  ("storage",
                   JObj [("versionStorage", JNum oldContentSize);
                         ("totalStorage",
                          JNum (calculateUserVersionStorage env6 (user_id user)))])]))
  end.

(** [restoreFileVersion(fileId, version, user)], lines 1647-1705. *)
Definition restoreFileVersion (now : Z) (env : Env) (fileId : string) (version : Z)
    (user : User) : Env * Response :=
  match get_record env (version_key fileId version) with
  | None => (env, createErrorResponse now 404 "Version not found")
  | Some versionData =>
      match getFileMetadata env fileId with
      | None => (env, createErrorResponse now 404 "File not found")
      | Some currentMetadata =>
          let env1 :=
            createFileVersion now env currentMetadata user CTboth
              {| ch_metadata := Some (patch_of_metadata currentMetadata);
                 ch_contentSize := Some (fm_size currentMetadata);
                 ch_contentHash := None |} in
          let env2 :=
            if is_metadata_change (fv_changeType versionData) then
              match ch_metadata (fv_changes versionData) with
              | Some snapshot =>
                  let restoredMetadata :=
                    with_modified_version (spread currentMetadata snapshot) now
                      (fm_version currentMetadata + 1) in
                  set_CDN_METADATA (insert (file_key fileId) (MVFile restoredMetadata)) env1
              | None => env1
              end
            else env1 in
          let env3 :=
            if is_content_change (fv_changeType versionData) then
              match get_version_content env2 (version_content_key fileId version) with
              | Some versionContent =>
                  set_FILE_CONTENT (insert (content_key fileId) versionContent) env2
              | None => env2
              end
            else env2 in
          (env3,
           json_response
             (JObj [("success", JBool true);
                    ("message", JStr ("File restored to version " +:+ JS.num version));
                    ("fileId", JStr fileId);
                    ("restoredVersion", JNum version);
                    ("newVersion", JNum (fm_version currentMetadata + 1))]))
      end
  end.
(** The stores the service can be in: it starts without version history,
    the three editing operations are the only code that writes to the
    [FILE_VERSIONS] namespace, and everything else leaves it alone. *)
Inductive reachable : Env -> Prop :=
| reach_start env :
    FILE_VERSIONS env = ∅ -> reachable env
| reach_metadata env now fileId user updateData :
    reachable env -> reachable (updateFileMetadata now env fileId user updateData).1
| reach_content env now fileId user newContent :
    reachable env -> reachable (updateFileContent now env fileId user newContent).1
| reach_restore env now fileId version user :
    reachable env -> reachable (restoreFileVersion now env fileId version user).1
| reach_other env env' :
    reachable env -> FILE_VERSIONS env' = FILE_VERSIONS env -> reachable env'.
End Operations.

(** Sample data: a store without relational binding that holds files
    [f1] (a report with content) and [f2], both owned by user [u1]. *)
Definition toy_jsonSize (m : FileMetadata) : Z := 200.
Definition toy_sha256 (content : list byte) : list byte :=
  replicate 32 (PathObfuscator.byte_of_Z (Z.of_nat (length content))).

Definition sample_file (fileId name : string) (version : Z) : FileMetadata :=
  {| fm_id := fileId; fm_name := name; fm_originalName := name;
     fm_path := "/prod/na/a/b/c/" +:+ fileId; fm_mimeType := "text/plain";
     fm_size := 2; fm_owner := "Ann"; fm_ownerId := "u1"; fm_created := 1;
     fm_modified := 1; fm_version := version; fm_isPublic := false; fm_tags := [];
     fm_description := None; fm_customFields := None |}.

Definition ann : User :=
  {| user_id := "u1"; user_name := Some "Ann"; user_email := Some "ann@example.com";
     user_role := Some "user" |}.

Definition patch_rename (name : string) : Patch :=
  {| p_id := None; p_name := Some name; p_originalName := None; p_path := None;
     p_mimeType := None; p_size := None; p_owner := None; p_ownerId := None;
     p_created := None; p_modified := None; p_version := None; p_isPublic := None;
     p_tags := None; p_description := None; p_customFields := None |}.

Definition patch_id (newId : string) : Patch :=
  {| p_id := Some newId; p_name := None; p_originalName := None; p_path := None;
     p_mimeType := None; p_size := None; p_owner := None; p_ownerId := None;
     p_created := None; p_modified := None; p_version := None; p_isPublic := None;
     p_tags := None; p_description := None; p_customFields := None |}.

Definition env_with_files (files : list FileMetadata) : Env :=
  {| CDN_CACHE := ∅;
     CDN_METADATA := list_to_map ((fun m => (file_key (fm_id m), MVFile m)) <$> files);
     FILE_VERSIONS := ∅;
     FILE_CONTENT := list_to_map ((fun m => (content_key (fm_id m), [x09; x09]%byte)) <$> files);
     ASSETS_DB := None |}.

(** File [f1] at version 3. *)
Definition env_v3 : Env := env_with_files [sample_file "f1" "report.txt" 3].

(** Files [f1] and [f2] at version 1. *)
Definition env_two_files : Env :=
  env_with_files [sample_file "f1" "report.txt" 1; sample_file "f2" "notes.txt" 1].

Definition update_metadata (now : Z) (fileId : string) (patch : Patch) (env : Env) : Env :=
  (updateFileMetadata toy_jsonSize now env fileId ann patch).1.

Definition update_content (now : Z) (fileId : string) (content : list byte) (env : Env) : Env :=
  (updateFileContent toy_jsonSize toy_sha256 now env fileId ann content).1.

(** Three edits of [f2], then [f1] is given the id of [f2] and edited
    once more; the clock advances throughout. *)
Definition env_after_id_patch : Env :=
  update_metadata 50 "f1" empty_patch
    (update_metadata 40 "f1" (patch_id "f2")
       (update_metadata 30 "f2" empty_patch
          (update_metadata 20 "f2" empty_patch
             (update_metadata 10 "f2" empty_patch env_two_files)))).

(** Two edits of [f1] whose clock readings go backwards. *)
Definition env_after_clock_step_back : Env :=
  update_metadata 100 "f1" empty_patch (update_metadata 200 "f1" empty_patch env_two_files).

(** File [f1] served from the relational table, at version 1. *)
Definition sample_row (version : option Z) : AssetRow :=
  {| r_name := "report.txt"; r_original_name := "report.txt";
     r_path := "/prod/na/a/b/c/f1"; r_mime_type := "text/plain"; r_size := 2;
     r_file_size := 2; r_user_name := Some "Ann"; r_user_id := "u1"; r_created_at := 1;
     r_updated_at := None; r_version := version; r_is_public := None; r_tags := None;
     r_description := None; r_custom_fields := None |}.

Definition env_database (accepts_updates : bool) : Env :=
  {| CDN_CACHE := ∅; CDN_METADATA := ∅; FILE_VERSIONS := ∅; FILE_CONTENT := ∅;
     ASSETS_DB := Some {| db_assets := {[ "f1" := sample_row None ]};
                          db_accepts_updates := accepts_updates |} |}.

(** [n] content edits of [f1], at clock readings 1 to [n]. *)
Definition env_after_edits (n : nat) : Env :=
  foldl (fun env t => update_content (Z.of_nat t) "f1" [x01]%byte env) env_two_files (seq 1 n).

(** [f1] gets new content once: version 1 is kept as a content version. *)
Definition env_after_content_update : Env :=
  update_content 10 "f1" [x01; x02; x03]%byte env_two_files.

End Versions.

(** * Cache keys *)

Module CacheKeys.

(** The part of the text hashed by [hashRequest] that comes before the
    header values: [key + ':'] (lines 2262 and 2268). *)
Definition request_line (request : Request) : string :=
  let url := req_url request in
  req_method request +:+ ":" +:+ url_pathname url +:+ url_search url +:+ ":".

(** The longest prefix of whole three-character groups, the unit that
    [btoa] encodes independently of what follows. *)
Definition aligned_prefix (s : string) : string :=
  JS.take_string (3 * (String.length s / 3)) s.

(** The encoding of the whole groups of [s] alone has the 32 letters and
    digits that [hashRequest] keeps. *)
Definition saturated (s : string) : bool :=
  (32 <=? String.length
            (JS.filter_string JS.is_alnum (RequestHash.btoa (aligned_prefix s))))%nat.

Definition profile_url : URL :=
  {| url_protocol := "https:"; url_host := "cdn.example.com";
     url_pathname := "/worker/auth/v2/account/profile"; url_search := ""; url_hash := "" |}.

(** Two requests for the same path that differ in their credentials. *)
Definition request_of_alice : Request :=
  {| req_method := "GET"; req_url := profile_url;
     req_headers := {[ "authorization" := "Bearer alice-token" ]};
     req_body := [] |}.

Definition request_of_bob : Request :=
  {| req_method := "GET"; req_url := profile_url;
     req_headers := {[ "authorization" := "Bearer bob-token"; "accept" := "text/html" ]};
     req_body := [] |}.

(** Workers that fail: one answers 503, one throws. *)
Definition unavailable : Response :=
  {| res_status := 503; res_headers := ∅; res_body := BText "down" |}.

Definition failing_worker : Proxy.Worker := fun _ => Some unavailable.

(** An edge cache that holds nothing. *)
Definition cold_edge : gmap string Response := ∅.

Definition failing_workers : gmap string Proxy.Worker :=
  {[ "SMPWEB_2X_AUTH_WORKER" := failing_worker ]}.

(** The login request repeated with the ETag of the login response. *)
Definition login_revalidation : Request :=
  {| req_method := "GET";
     req_url := req_url Proxy.login_request;
     req_headers :=
       {[ "if-none-match" := Proxy.dquote +:+ "2a2a2a2a2a2a2a2a" +:+ Proxy.dquote ]};
     req_body := [] |}.

Definition login_post : Request :=
  {| req_method := "POST";
     req_url := req_url Proxy.login_request;
     req_headers := ∅;
     req_body := [x7b; x7d]%byte |}.

End CacheKeys.

(** * Listing the uploads of a user *)

Module UserUploads.
Import Store.

(** [getUserKVUploads(userId, offset, limit)], lines 786-804, for
    numeric [offset] and [limit]. *)
Definition getUserKVUploads (env : Env) (userId : string) (offset limit : Z)
    : list TrackedUpload :=
  match get_uploads env (user_uploads_key userId) with
  | None => []
  | Some uploadsData =>
      JS.slice (JS.sort (JS.desc_by tu_createdAt) uploadsData) offset (offset + limit)
  end.

(** The offset [getUserUploads] computes for a page (line 734). *)
Definition page_offset (page limit : Z) : Z := (page - 1) * limit.

(** Seven tracked uploads of user [u1], at instants 1 to 7. *)
Definition env_7_uploads : Env :=
  set_CDN_METADATA
    (insert (user_uploads_key "u1") (MVUploads (Quota.sample_tracked <$> seq 1 7)))
    empty_env.

(** A store that holds one tracked upload, made at instant 5. *)
Definition env_one_upload : Env :=
  set_CDN_METADATA
    (insert (user_uploads_key "u1")
            (MVUploads [Uploads.track_entry (Uploads.sample_upload 5)]))
    empty_env.

(** A later upload stored under another path. *)
Definition second_upload : UploadMeta :=
  {| um_name := "b.txt"; um_path := "/prod/eu/x/y/z/g/object/live.m3u8";
     um_storagePath := "/prod/eu/x/y/z/g"; um_originalPath := None; um_size := 7;
     um_type := "text/plain"; um_uploadedAt := 9; um_userId := "u1";
     um_username := Some "ann" |}.

End UserUploads.

(** * The file editor and version endpoints *)

Module Editor.
Import Store Versions.

(** [parseInt(s)] without radix: a [0x] prefix selects base 16. *)
Definition hex_value (c : ascii) : option Z :=
  if JS.is_digit c then Some (JS.code c - 48)
  else if JS.in_range "a" "f" c then Some (JS.code c - 87)
  else if JS.in_range "A" "F" c then Some (JS.code c - 55)
  else None.

Fixpoint hex_go (acc : option Z) (s : string) : option Z :=
  match s with
  | String c s' =>
      match hex_value c with
      | Some d => hex_go (Some (16 * default 0 acc + d)) s'
      | None => acc
      end
  | EmptyString => acc
  end.

Definition unsigned_auto (s : string) : option Z :=
  match s with
  | String "0" (String "x" r) | String "0" (String "X" r) => hex_go None r
  | _ => JS.digits_go None s
  end.

Definition parseInt_auto (s : string) : option Z :=
  match JS.skip_spaces s with
  | String "-" s' => Z.opp <$> unsigned_auto s'
  | String "+" s' => unsigned_auto s'
  | s' => unsigned_auto s'
  end.

(** A number in a template literal; [None] is [NaN]. *)
Definition number_text (n : option Z) : string :=
  match n with
  | Some n => JS.num n
  | None => "NaN"
  end.

Section Endpoints.
(** The identity service, the platform functions of the editing
    operations, the reading of request bodies ([None]: [request.json()]
    throws) and the rendering of records in responses. *)
Variable verifyUserAuthentication : Request -> option User.
Variable jsonSize : FileMetadata -> Z.
Variable sha256 : list byte -> list byte.
Variable metadataBody : list byte -> option Patch.
Variable restoreBody : list byte -> option Z.
Variable file_json : FileMetadata -> JVal.
Variable version_json : FileVersion -> JVal.

(** [updateFileMetadata(fileId, user, request)], lines 1351-1440, with
    the reading of the body (line 1353). *)
Definition updateFileMetadata (now : Z) (env : Env) (fileId : string) (user : User)
    (request : Request) : Env * Response :=
  match metadataBody (req_body request) with
  | None => (env, createErrorResponse now 500 "Failed to update file metadata")
  | Some updateData => Versions.updateFileMetadata jsonSize now env fileId user updateData
  end.

(** [getFileWithVersions(fileId, user)], lines 1543-1577. *)
Definition getFileWithVersions (now : Z) (env : Env) (fileId : string) : Response :=
  match getFileMetadata env fileId with
  | None => createErrorResponse now 404 "File not found"
  | Some metadata =>
      let versions := getFileVersions env fileId in
      let versionStorage := calculateFileVersionStorage env fileId in
      json_response
        (JObj [("success", JBool true);
               ("file", file_json metadata);
               ("versions", JArr (version_json <$> JS.slice versions 0 10));
               ("totalVersions", JNum (Z.of_nat (length versions)));
               ("storage",
                JObj [("currentSize", JNum (fm_size metadata));
                      ("versionStorage", JNum versionStorage);
                      ("totalSize", JNum (fm_size metadata + versionStorage))])])
  end.

(** [getFileVersionHistory(fileId, user)], lines 1582-1602. *)
Definition getFileVersionHistory (env : Env) (fileId : string) : Response :=
  let versions := getFileVersions env fileId in
  json_response
    (JObj [("success", JBool true);
           ("fileId", JStr fileId);
           ("versions", JArr (version_json <$> versions));
           ("totalVersions", JNum (Z.of_nat (length versions)))]).

(** [getFileVersion(fileId, version, user)], lines 1607-1642. *)
Definition getFileVersion (now : Z) (env : Env) (fileId : string) (version : option Z)
    : Response :=
  match get_record env ("version:" +:+ fileId +:+ ":" +:+ number_text version) with
  | None => createErrorResponse now 404 "Version not found"
  | Some versionData =>
      let content :=
        if is_content_change (fv_changeType versionData) then
          match get_version_content env
                  ("version_content:" +:+ fileId +:+ ":" +:+ number_text version) with
          | Some contentBuffer =>
              JObj (("size", JNum (Z.of_nat (length contentBuffer)))
                    :: match ch_contentHash (fv_changes versionData) with
                       | Some h => [("hash", JStr h)]
                       | None => []
                       end)
          | None => JNull
          end
        else JNull in
      json_response
        (JObj [("success", JBool true);
               ("version", version_json versionData);
               ("content", content)])
  end.

(** [handleFileEditorRequest(request, pathname)], lines 548-602. *)
Definition handleFileEditorRequest (now : Z) (env : Env) (request : Request)
    (pathname : string) : Env * Response :=
  match verifyUserAuthentication request with
  | None => (env, createErrorResponse now 401 "Authentication required")
  | Some user =>
      let pathParts := Proxy.path_parts pathname in
      match pathParts !! 2%nat with
      | None =>
          (env, createErrorResponse now 400
                  "Invalid file editor endpoint. Use /api/file-editor/{fileId}/{action}")
      | Some fileId =>
          let action := pathParts !! 3%nat in
          match getFileMetadata env fileId with
          | None => (env, createErrorResponse now 404 "File not found")
          | Some fileMetadata =>
              if negb (String.eqb (fm_ownerId fileMetadata) (user_id user)) then
                (env, createErrorResponse now 403
                        "Access denied. You can only edit your own files.")
              else
                let methodNotAllowed := (env, createErrorResponse now 405 "Method not allowed") in
                let invalidAction :=
                  (env, createErrorResponse now 400
                          "Invalid action. Use: metadata, content, or info") in
                match action with
                | None => invalidAction
                | Some action =>
                    if String.eqb action "metadata" then
                      if String.eqb (req_method request) "PUT"
                      then updateFileMetadata now env fileId user request
                      else methodNotAllowed
                    else if String.eqb action "content" then
                      if String.eqb (req_method request) "PUT"
                      then Versions.updateFileContent jsonSize sha256 now env fileId user
                             (req_body request)
                      else methodNotAllowed
                    else if String.eqb action "info" then
                      if String.eqb (req_method request) "GET"
                      then (env, getFileWithVersions now env fileId)
                      else methodNotAllowed
                    else invalidAction
                end
          end
      end
  end.

(** [handleVersionsRequest(request, pathname)], lines 607-658; the
    [version] field of a restore body is an integer. *)
Definition handleVersionsRequest (now : Z) (env : Env) (request : Request)
    (pathname : string) : Env * Response :=
  match verifyUserAuthentication request with
  | None => (env, createErrorResponse now 401 "Authentication required")
  | Some user =>
      let pathParts := Proxy.path_parts pathname in
      match pathParts !! 2%nat with
      | None =>
          (env, createErrorResponse now 400
                  "Invalid versions endpoint. Use /api/versions/{fileId}")
      | Some fileId =>
          let version := parseInt_auto <$> pathParts !! 3%nat in
          match getFileMetadata env fileId with
          | None => (env, createErrorResponse now 404 "File not found")
          | Some fileMetadata =>
              if negb (String.eqb (fm_ownerId fileMetadata) (user_id user)) then
                (env, createErrorResponse now 403
                        "Access denied. You can only access versions of your own files.")
              else if String.eqb (req_method request) "GET" then
                match version with
                | Some version => (env, getFileVersion now env fileId version)
                | None => (env, getFileVersionHistory env fileId)
                end
              else if String.eqb (req_method request) "POST"
                      && bool_decide (pathParts !! 3%nat = Some "restore") then
                match restoreBody (req_body request) with
                | None => (env, createErrorResponse now 500 "Version control service error")
                | Some restoreVersion =>
                    Versions.restoreFileVersion jsonSize now env fileId restoreVersion user
                end
              else (env, createErrorResponse now 405 "Method not allowed")
          end
      end
  end.
End Endpoints.

(** Sample collaborators: the bearer token is the user id, a metadata
    body names a new owner by its bytes, a restore body holds version 1. *)
Definition user_of (id : string) : User :=
  {| user_id := id; user_name := Some id; user_email := None; user_role := Some "user" |}.

Definition toy_verify (request : Request) : option User :=
  user_of <$> JS.header_get "authorization" (req_headers request).

Definition patch_owner (newOwner : string) : Patch :=
  {| p_id := None; p_name := None; p_originalName := None; p_path := None;
     p_mimeType := None; p_size := None; p_owner := None; p_ownerId := Some newOwner;
     p_created := None; p_modified := None; p_version := None; p_isPublic := None;
     p_tags := None; p_description := None; p_customFields := None |}.

Definition toy_metadataBody (body : list byte) : option Patch :=
  match body with
  | [] => None
  | _ => Some (patch_owner "u2")
  end.

Definition toy_restoreBody (body : list byte) : option Z :=
  match body with
  | [] => None
  | _ => Some 1
  end.

Definition toy_file_json (m : FileMetadata) : JVal := JStr (fm_id m).
Definition toy_version_json (v : FileVersion) : JVal := JNum (fv_version v).

Definition editor_request (method userId : string) (body : list byte) : Request :=
  {| req_method := method;
     req_url := {| url_protocol := "https:"; url_host := "cdn.example.com";
                   url_pathname := "/api/file-editor/f1/metadata"; url_search := "";
                   url_hash := "" |};
     req_headers := {[ "authorization" := userId ]};
     req_body := body |}.

End Editor.

(** * The file name of an obfuscated path *)

Module FileName.
Import PathObfuscator.

(** A digit of [n.toString(16)]. *)
Definition hex_digit (c : ascii) : bool := JS.is_digit c || JS.in_range "a" "f" c.

Fixpoint forall_string (p : ascii -> bool) (s : string) : bool :=
  match s with
  | EmptyString => true
  | String c s' => p c && forall_string p s'
  end.

Definition segment_chars : string :=
  "abcdefghijklmnopqrstuvwxyzABCDEFGHIJKLMNOPQRSTUVWXYZ0123456789".

(** [chars.charAt(i)] *)
Definition charAt (i : Z) (s : string) : string :=
  if i <? 0 then ""
  else match String.get (Z.to_nat i) s with
       | Some c => String c ""
       | None => ""
       end.

(** The loop of [generateInfluencedRandomSegment], lines 4018-4021. *)
Fixpoint influenced_go (seedHash : Z) (count : nat) : string :=
  match count with
  | O => ""
  | S count' =>
      let seedHash' := Z.rem (seedHash * 9301 + 49297) 233280 in
      charAt (Z.rem seedHash' (Z.of_nat (String.length segment_chars))) segment_chars
      +:+ influenced_go seedHash' count'
  end.

(** [generateInfluencedRandomSegment(seed, length)], lines 4013-4024. *)
Definition generateInfluencedRandomSegment (seed : string) (length : Z) : string :=
  influenced_go (JS.char_code_sum seed) (Z.to_nat length).

(** [rotateSegment(segment, rotateBy)], lines 4082-4092, for an integer
    [rotateBy]. *)
Definition rotateSegment (segment : string) (rotateBy : Z) : string :=
  if String.eqb segment "" then "default"
  else if rotateBy =? 0 then segment
  else
    let len := Z.of_nat (String.length segment) in
    let rotation := Z.rem rotateBy len in
    JS.substr rotation len segment +:+ JS.substr 0 rotation segment.

(** [segment.split('').map((char, i) => i % 2 === 0 ? char.toUpperCase()
    : char.toLowerCase()).join('')] *)
Fixpoint alternate_case (upper : bool) (s : string) : string :=
  match s with
  | EmptyString => EmptyString
  | String c s' =>
      String (if upper then JS.upper_char c else JS.lower_char c)
             (alternate_case (negb upper) s')
  end.

(** [applyCaseTransformation(segment, caseVariation)], lines 4066-4077;
    segments are texts of ASCII letters and digits. *)
Definition applyCaseTransformation (segment caseVariation : string) : string :=
  if String.eqb caseVariation "mixed" then alternate_case true segment
  else if String.eqb caseVariation "upper" then JS.toUpperCase segment
  else if String.eqb caseVariation "lower" then JS.toLowerCase segment
  else segment.

(** [generateChecksumSegments(checksum, combinedHash)], lines 4097-4116. *)
Definition generateChecksumSegments (checksum combinedHash : string) : list string :=
  let checksum := JS.or_str (Some checksum) "defaultchecksum" in
  let combinedHash := JS.or_str (Some combinedHash) "defaulthash123456789abcdef" in
  let bound := Z.min (Z.of_nat (String.length checksum)) 8 in
  let segments :=
    (fun i =>
       JS.substr i (i + 2) checksum
       +:+ JS.or_str (Some (JS.substr (i * 4) (i * 4 + 3) combinedHash)) "def")
      <$> filter (fun i => i < bound) [0; 2; 4; 6] in
  JS.slice segments 0 2.

Inductive Transform := Normal | Reverse | Case | Rotate.

(** The object [calculateSegmentArrangement] returns, lines 4047-4061.
    The entropy level is a number with one decimal, so [complexity] is
    kept in tenths, and so is [offset], the remainder [complexity % 7];
    [slice] truncates its end index. *)
Record Arrangement := { offsetTenths : Z; transforms : list Transform }.

Definition calculateSegmentArrangement (metadata : FileAnalysis) : Arrangement :=
  let nameComplexity := JS.or_num (Some (nameComplexity metadata)) 1 in
  let entropyLevel := JS.or_num (Some (entropyTenths metadata)) 10 in
  let complexity := 10 * nameComplexity + entropyLevel in
  {| offsetTenths := Z.rem complexity 70;
     transforms :=
       JS.slice [Normal; Reverse; Case; Rotate] 0 (Z.quot (Z.rem complexity 40 + 10) 10) |}.

(** [segments[(i + arrangement.offset) % segments.length]]: an index
    that is not a whole number, or is out of range, reads [undefined]. *)
Definition arranged_segment (segments : list string) (offset : Z) (i : Z) : option string :=
  let index := Z.rem (10 * i + offset) (10 * Z.of_nat (length segments)) in
  if (Z.rem index 10 =? 0) && (0 <=? index) then segments !! Z.to_nat (index / 10)
  else None.

(** One round of the loop of [assembleMetadataObfuscatedFilename],
    lines 3825-3845. *)
Definition arrange (segments : list string) (arrangement : Arrangement)
    (metadata : FileAnalysis) (i : Z) : string :=
  let segment :=
    JS.or_str (arranged_segment segments (offsetTenths arrangement) i) ("seg" +:+ JS.num i) in
  let transform :=
    match JS.rem i (Z.of_nat (length (transforms arrangement))) with
    | Some k => transforms arrangement !! Z.to_nat k
    | None => None
    end in
  match transform with
  | Some Reverse => String.rev segment
  | Some Case => applyCaseTransformation segment (caseVariations metadata)
  | Some Rotate => rotateSegment segment (nameComplexity metadata)
  | _ => segment
  end.

(** [assembleMetadataObfuscatedFilename(segments, metadata,
    combinedHash)], lines 3805-3852. *)
Definition assembleMetadataObfuscatedFilename (segments : list string)
    (metadata : FileAnalysis) (combinedHash : string) : string :=
  let segments := match segments with [] => ["fallback"; "segment"] | _ => segments end in
  let combinedHash := JS.or_str (Some combinedHash) "fallbackhash123456789abcdef" in
  let arrangement := calculateSegmentArrangement metadata in
  let arrangedSegments :=
    arrange segments arrangement metadata <$> (Z.of_nat <$> seq 0 (length segments)) in
  let checksumSegments :=
    generateChecksumSegments (JS.or_str (Some (checksum metadata)) "defaultchecksum")
      combinedHash in
  let middle := (length arrangedSegments / 2)%nat in
  JS.join "" (take middle arrangedSegments ++ checksumSegments ++ drop middle arrangedSegments).

(** A file whose name has an entropy of 3.2. *)
Definition sample_analysis : FileAnalysis :=
  {| nameComplexity := 2; sizeCategory := "tiny"; typeCategory := "document";
     entropyTenths := 32; checksum := "00c0ffee"; hasSpecialChars := false;
     wordCount := 2; digitCount := 0; nameLength := 8; caseVariations := "lower" |}.

End FileName.

(** * Content types and cache lifetimes of static assets *)

Module Serving.

(** [s.toLowerCase()] on a Latin-1 string: the letters [A-Z] and the
    accented capitals [U+00C0-U+00DE] (without the multiplication sign)
    have a lower-case form. *)
Definition lower_char (c : ascii) : ascii :=
  let n := JS.code c in
  if JS.is_upper c || ((192 <=? n) && (n <=? 222) && negb (n =? 215))
  then ascii_of_N (N_of_ascii c + 32) else c.

Definition toLowerCase : string -> string := JS.map_string lower_char.

(** [s.substring(s.lastIndexOf('.'))]: the text from the last dot on, and
    the whole text when there is no dot ([lastIndexOf] is -1 then). *)
Fixpoint from_last_dot (s : string) : option string :=
  match s with
  | EmptyString => None
  | String c s' =>
      match from_last_dot s' with
      | Some t => Some t
      | None => if Ascii.eqb c "." then Some s else None
      end
  end.

Definition extension (pathname : string) : string :=
  toLowerCase (default pathname (from_last_dot pathname)).

(** [MIME_TYPES], lines 54-95. *)
Definition mime_table : list (string * string) :=
  [ (".jpg", "image/jpeg"); (".jpeg", "image/jpeg"); (".png", "image/png");
    (".gif", "image/gif"); (".webp", "image/webp"); (".avif", "image/avif");
    (".svg", "image/svg+xml"); (".ico", "image/x-icon");
    (".woff", "font/woff"); (".woff2", "font/woff2"); (".ttf", "font/ttf");
    (".eot", "application/vnd.ms-fontobject"); (".otf", "font/otf");
    (".css", "text/css"); (".js", "application/javascript");
    (".mjs", "application/javascript"); (".json", "application/json");
    (".xml", "application/xml");
    (".html", "text/html"); (".htm", "text/html"); (".txt", "text/plain");
    (".pdf", "application/pdf");
    (".mp3", "audio/mpeg"); (".mp4", "video/mp4"); (".webm", "video/webm");
    (".ogg", "audio/ogg");
    (".zip", "application/zip"); (".gz", "application/gzip") ].

Fixpoint assoc (key : string) (table : list (string * string)) : option string :=
  match table with
  | [] => None
  | (k, v) :: rest => if String.eqb key k then Some v else assoc key rest
  end.

(** [CACHE_TTL], lines 98-106. *)
Definition STATIC_ASSETS : Z := 31536000.
Definition IMAGES : Z := 2592000.
Definition FONTS : Z := 31536000.
Definition STYLESHEETS : Z := 86400.
Definition SCRIPTS : Z := 86400.
Definition DOCUMENTS : Z := 3600.
Definition DEFAULT : Z := 3600.

(** [getCacheTTL(pathname)], lines 2069-2089. *)
Definition getCacheTTL (pathname : string) : Z :=
  let ext := extension pathname in
  if PathObfuscator.in_list ext
       [".jpg"; ".jpeg"; ".png"; ".gif"; ".webp"; ".avif"; ".svg"; ".ico"] then IMAGES
  else if PathObfuscator.in_list ext [".woff"; ".woff2"; ".ttf"; ".eot"; ".otf"] then FONTS
  else if PathObfuscator.in_list ext [".css"] then STYLESHEETS
  else if PathObfuscator.in_list ext [".js"; ".mjs"] then SCRIPTS
  else if PathObfuscator.in_list ext [".html"; ".htm"] then DOCUMENTS
  else DEFAULT.

(** What [MIME_TYPES[ext] || 'application/octet-stream'] evaluates to:
    a text, or -- for the two lower-case names that every object
    inherits -- the inherited object. *)
Inductive ContentType :=
| Mime (contentType : string)
| Inherited (property : string).

(** [getContentType(pathname)], lines 2094-2097. *)
Definition getContentType (pathname : string) : ContentType :=
  let ext := extension pathname in
  match assoc ext mime_table with
  | Some contentType => Mime contentType
  | None =>
      if PathObfuscator.in_list ext ["constructor"; "__proto__"] then Inherited ext
      else Mime "application/octet-stream"
  end.

End Serving.

(** * The obfuscated path of an uploaded file *)

Module AssetPath.
Import PathObfuscator FileName.

Definition serixPatterns : list string := ["sx"; "rx"; "ix"; "er"; "se"; "ri"].

(** [encodeSerixServiceSegment(identifier)], lines 3995-4008; [now] is
    the reading of [Date.now()] at line 4005. *)
Definition encodeSerixServiceSegment (now : Z) (identifier : string) : string :=
  let serviceHash := JS.char_code_sum identifier in
  let base36 := JS.toString_radix 36 serviceHash in
  let pattern := pick serixPatterns (Z.rem serviceHash (Z.of_nat (length serixPatterns))) in
  let timeSegment := JS.toString_radix 36 (Z.rem now 100000) in
  pattern +:+ base36 +:+ timeSegment.

(** The loop of [generateMetadataDrivenSegments], lines 3759-3762:
    [count] rounds starting at index [i]. *)
Fixpoint influenced_segments (randomSeed checksum : string) (i : Z) (count : nat)
    : list string :=
  match count with
  | O => []
  | S count' =>
      let offset := JS.rem i (Z.of_nat (String.length checksum)) in
      let influencedSeed := randomSeed +:+ substr_at offset 2 checksum in
      generateInfluencedRandomSegment influencedSeed (6 + Z.rem i 4)
      :: influenced_segments randomSeed checksum (i + 1) count'
  end.

Section Generator.
(** The platform: [crypto.subtle.digest], the clock reading of line 3559,
    [Math.random] as consumed by line 3560, and the Shannon entropy of a
    name (a floating-point computation, lines 3930-3944) in tenths. *)
Variable digest : string -> list byte -> list byte.
Variable timestamp : Z.
Variable randomSeed : string.
Variable calculateNameEntropyTenths : string -> Z.

(** The two segment builders that draw from [Math.random]:
    [encodeMetadataToSegment] (lines 3975-3990) shuffles its text with a
    random comparator and appends two random characters,
    [obfuscateTimestamp] (lines 3618-3625) appends four random digits. *)
Variable encodeMetadataToSegment : FileAnalysis -> string -> string.
Variable obfuscateTimestamp : Z -> string.

(** The clock reading inside [encodeSerixServiceSegment(identifier)]. *)
Variable serviceClock : string -> Z.

(** [x.toString(36)] for a product [x] that is no whole number, given by
    its integer factor and the tenths of the other factor; how many
    digits follow the point is left to the engine. *)
Variable fraction_toString36 : Z -> Z -> string.

(** [generateMetadataDrivenSegments], lines 3726-3765. *)
Definition generateMetadataDrivenSegments (metadata : FileAnalysis)
    (primaryHash metadataHash combinedHash : string) (timestamp : Z) (randomSeed : string)
    (segmentCount : Z) : list string :=
  let segments :=
    [ JS.substr 0 8 primaryHash;
      JS.substr 0 6 metadataHash;
      JS.substr 0 12 combinedHash;
      encodeMetadataToSegment metadata "nameComplexity";
      encodeSerixServiceSegment (serviceClock "v2024") "v2024";
      encodeMetadataToSegment metadata "sizeCategory";
      encodeSerixServiceSegment (serviceClock "serix") "serix";
      encodeMetadataToSegment metadata "typeCategory";
      obfuscateTimestamp timestamp;
      obfuscateTimestamp (timestamp + nameComplexity metadata * 1000);
      JS.substr 16 24 primaryHash;
      JS.substr 8 14 metadataHash;
      JS.substr 32 44 combinedHash ] in
  let first := Z.of_nat (length segments) in
  JS.slice
    (segments
     ++ influenced_segments randomSeed (checksum metadata) first
          (Z.to_nat (segmentCount - first)))
    0 segmentCount.

(** [(extHash * metaInfluence).toString(36)], line 3863, with
    [metaInfluence] in tenths: a whole [metaInfluence] gives an integer
    product, which is printed digit by digit. *)
Definition product_toString36 (extHash influenceTenths : Z) : string :=
  if Z.rem influenceTenths 10 =? 0
  then JS.toString_radix 36 (extHash * (influenceTenths / 10))
  else fraction_toString36 extHash influenceTenths.

(** [obfuscateFileExtension(extension, metadata)], lines 3857-3873. *)
Definition obfuscateFileExtension (extension : string) (metadata : FileAnalysis) : string :=
  if String.eqb extension "" then "dat"
  else
    let extHash := JS.char_code_sum extension in
    let metaInfluence := 10 * nameComplexity metadata + entropyTenths metadata in
    let obfuscatedBase := product_toString36 extHash metaInfluence in
    let parts :=
      [ JS.substr 0 2 obfuscatedBase;
        JS.substr 0 (Z.min (Z.of_nat (String.length extension)) 2) extension;
        JS.or_str (Some (JS.substr 2 4 obfuscatedBase)) "x" ] in
    Serving.toLowerCase (JS.join "" parts).

(** [originalFileName.split('.').pop()?.toLowerCase() || ''], line 3555. *)
Definition fileExtension_of (originalFileName : string) : string :=
  Serving.toLowerCase (last_part originalFileName).

Definition primaryHashSource_of (originalFileName : string) (userPath : option string)
    (uploadType : string) : string :=
  originalFileName +:+ JS.num timestamp +:+ randomSeed +:+ uploadType
  +:+ JS.or_str userPath "".

Definition metadataHashSource_of (fileMetadata : FileAnalysis) : string :=
  JS.num (nameComplexity fileMetadata) +:+ sizeCategory fileMetadata
  +:+ typeCategory fileMetadata +:+ entropy_string (entropyTenths fileMetadata).

(** [generateComplexAssetPath], lines 3553-3613. *)
Definition generateComplexAssetPath (originalFileName : string)
    (fileBuffer : option (list byte)) (userPath : option string) (uploadType : string)
    : string :=
  let fileExtension := fileExtension_of originalFileName in
  let fileMetadata :=
    analyzeFileMetadata digest calculateNameEntropyTenths originalFileName fileBuffer
      fileExtension in
  let metadataComplexity := calculateMetadataComplexity fileMetadata in
  let primaryHashSource := primaryHashSource_of originalFileName userPath uploadType in
  let metadataHashSource := metadataHashSource_of fileMetadata in
  let combinedHashSource :=
    primaryHashSource +:+ metadataHashSource +:+ checksum fileMetadata in
  let primaryHash := generateCryptoHash digest primaryHashSource "SHA-256" in
  let metadataHash := generateCryptoHash digest metadataHashSource "SHA-1" in
  let combinedHash := generateCryptoHash digest combinedHashSource "SHA-512" in
  let pathComplexity := Z.min (Z.max metadataComplexity 3) 8 in
  let segmentCount := Z.min (Z.max (nameComplexity fileMetadata + 3) 6) 12 in
  let segments :=
    generateMetadataDrivenSegments fileMetadata primaryHash metadataHash combinedHash
      timestamp randomSeed segmentCount in
  let directories :=
    generateMetadataDirectoryStructure fileMetadata primaryHash metadataHash
      pathComplexity uploadType in
  let obfuscatedName :=
    assembleMetadataObfuscatedFilename segments fileMetadata combinedHash in
  let continent := detectContinent in
  "/prod/" +:+ continent +:+ "/" +:+ JS.join "/" directories +:+ "/"
  +:+ obfuscatedName +:+ obfuscateFileExtension fileExtension fileMetadata
  +:+ routing_suffix.

(** The locals [fileMetadata], [directories] and [obfuscatedName] of
    [generateComplexAssetPath]. *)
Definition fileMetadata_of (originalFileName : string) (fileBuffer : option (list byte))
    : FileAnalysis :=
  analyzeFileMetadata digest calculateNameEntropyTenths originalFileName fileBuffer
    (fileExtension_of originalFileName).

Definition directories_of (originalFileName : string) (fileBuffer : option (list byte))
    (userPath : option string) (uploadType : string) : list string :=
  let fileMetadata := fileMetadata_of originalFileName fileBuffer in
  generateMetadataDirectoryStructure fileMetadata
    (generateCryptoHash digest (primaryHashSource_of originalFileName userPath uploadType)
       "SHA-256")
    (generateCryptoHash digest (metadataHashSource_of fileMetadata) "SHA-1")
    (pathComplexity_of fileMetadata) uploadType.

Definition obfuscatedName_of (originalFileName : string) (fileBuffer : option (list byte))
    (userPath : option string) (uploadType : string) : string :=
  let fileMetadata := fileMetadata_of originalFileName fileBuffer in
  let primaryHashSource := primaryHashSource_of originalFileName userPath uploadType in
  let metadataHashSource := metadataHashSource_of fileMetadata in
  let combinedHash :=
    generateCryptoHash digest
      (primaryHashSource +:+ metadataHashSource +:+ checksum fileMetadata) "SHA-512" in
  assembleMetadataObfuscatedFilename
    (generateMetadataDrivenSegments fileMetadata
       (generateCryptoHash digest primaryHashSource "SHA-256")
       (generateCryptoHash digest metadataHashSource "SHA-1")
       combinedHash timestamp randomSeed (segmentCount_of fileMetadata))
    fileMetadata combinedHash.
End Generator.

(** The path components between the continent and the routing suffix
    [object/live.m3u8]: the levels of the path. *)
Definition levels (path : string) : list string :=
  let parts := JS.split "/" path in
  take (length parts - 5) (drop 3 parts).

(** A stand-in platform for running the generator.  The entropy is that
    of a name of four different characters, 2.0. *)
Definition toy_encode (metadata : FileAnalysis) (key : string) : string := "0a1b" +:+ key.
Definition toy_obfuscateTimestamp (t : Z) : string := String.rev (JS.toString_radix 36 t) +:+ "k3x9".

Definition toy_path (name : string) (buffer : option (list byte)) : string :=
  generateComplexAssetPath toy_digest 1700000000000 "k3x9" (fun _ => 20)
    toy_encode toy_obfuscateTimestamp (fun _ => 1700000000001) (fun _ _ => "0.0")
    name buffer None "direct".

Definition toy_directories (name : string) (buffer : option (list byte)) : list string :=
  directories_of toy_digest 1700000000000 "k3x9" (fun _ => 20) name buffer None "direct".

(** A client-chosen file name whose last dot is followed by a slash. *)
Definition slash_name : string := "x./y".

End AssetPath.

(** * Searching the asset index *)

Module Search.

(** An entry of the search index, lines 2990-3000: the fields the search
    reads. *)
Record Asset := {
  a_name : string;
  a_path : string;
  a_category : string;
  a_type : string;
  a_searchTerms : list string
}.

(** [s.trim()] *)
Definition trim (s : string) : string :=
  String.rev (JS.skip_spaces (String.rev (JS.skip_spaces s))).

(** [s.split(/\s+/)]: [cur] is the word being read, in reverse;
    [inSeparator] tells that the last character was white space. *)
Fixpoint split_spaces_go (inSeparator : bool) (cur : string) (s : string) : list string :=
  match s with
  | EmptyString => [String.rev cur]
  | String c s' =>
      if JS.is_js_space c then
        if inSeparator then split_spaces_go true cur s'
        else String.rev cur :: split_spaces_go true EmptyString s'
      else split_spaces_go false (String c cur) s'
  end.

Definition split_spaces (s : string) : list string := split_spaces_go false EmptyString s.

(** The score a search term adds for a search word (lines 3093-3101). *)
Definition term_score (word term : string) : Z :=
  if String.eqb term word then 20
  else if JS.startsWith word term then 10
  else if JS.includes word term then 5
  else 0.

(** The score of an asset, lines 3074-3118. *)
Definition score (searchQuery : string) (searchWords : list string) (asset : Asset) : Z :=
  let name := Serving.toLowerCase (a_name asset) in
  (if String.eqb name searchQuery then 100 else 0)
  + (if JS.startsWith searchQuery name then 50 else 0)
  + (if JS.includes searchQuery name then 25 else 0)
  + foldl (fun total word =>
             foldl (fun total term => total + term_score word term) total
                   (a_searchTerms asset))
          0 searchWords
  + (if JS.includes searchQuery (Serving.toLowerCase (a_category asset)) then 15 else 0)
  + (if JS.includes searchQuery (Serving.toLowerCase (a_path asset)) then 10 else 0)
  + (if JS.includes searchQuery (Serving.toLowerCase (a_type asset)) then 8 else 0).

(** The assets with their scores, filtered and sorted (lines 3072-3124). *)
Definition ranked (assets : list Asset) (query : string) : list (Asset * Z) :=
  let searchQuery := trim (Serving.toLowerCase query) in
  let searchWords := split_spaces searchQuery in
  let scoredAssets := (fun asset => (asset, score searchQuery searchWords asset)) <$> assets in
  JS.sort (JS.desc_by snd) (filter (fun scored => 0 < scored.2) scoredAssets).

(** [performAssetSearch(assets, query, limit)], lines 3066-3128; a
    [limit] of [None] is [NaN]. *)
Definition performAssetSearch (assets : list Asset) (query : string) (limit : option Z)
    : list Asset :=
  match assets with
  | [] => []
  | _ => fst <$> JS.slice (ranked assets query) 0 (default 0 limit)
  end.

(** The limit [handleSearchRequest] computes from the [limit] parameter
    of the URL (line 2732). *)
Definition search_limit (limitParam : option string) : option Z :=
  (fun n => Z.min n 50) <$> Editor.parseInt_auto (JS.or_str limitParam "20").

(** The [results] of [handleSearchRequest] for a GET request, lines
    2729-2751, given the parameters [q] and [limit] of the URL and the
    search index. *)
Definition search_results (q limitParam : option string) (searchIndex : list Asset)
    : list Asset :=
  let query := JS.or_str q "" in
  if String.eqb (trim query) "" then []
  else performAssetSearch searchIndex (trim query) (search_limit limitParam).

(** An index of sixty icons whose names start with [icon]. *)
Definition icon (n : nat) : Asset :=
  {| a_name := "icon" +:+ JS.num (Z.of_nat n) +:+ ".png";
     a_path := "/assets/icons/icon" +:+ JS.num (Z.of_nat n) +:+ ".png";
     a_category := "icons"; a_type := "image";
     a_searchTerms := ["icon" +:+ JS.num (Z.of_nat n)] |}.

Definition sixty_icons : list Asset := icon <$> seq 0 60.

End Search.

(** * Properties *)

(** ** Request hashing *)

Section RequestHashFacts.
Import RequestHash.

Example btoa_Man : btoa "Man" = "TWFu".
Proof. reflexivity. Qed.

Example btoa_pad : btoa "light w" = "bGlnaHQgdw==" /\ btoa "light wo" = "bGlnaHQgd28=".
Proof. split; reflexivity. Qed.

Example hashRequest_sample :
  hashRequest sample_request = "R0VUOi93b3JrZXIvYXV0aC92Mi9sb2dp".
Proof. vm_compute. reflexivity. Qed.

(** C9. The cache key is a function of the request method, the URL path
    and query string, and the values of the authorization, accept and
    accept-language headers: two requests that agree on these get the same
    key, whatever their host, fragment, other headers or body. *)
Theorem hashRequest_depends_only_on_key_inputs (r1 r2 : Request) :
  req_method r1 = req_method r2 ->
  url_pathname (req_url r1) = url_pathname (req_url r2) ->
  url_search (req_url r1) = url_search (req_url r2) ->
  Forall (fun h => JS.header_get h (req_headers r1) = JS.header_get h (req_headers r2))
         relevantHeaders ->
  hashRequest r1 = hashRequest r2.
Proof.
  intros Hm Hp Hs Hh. unfold hashRequest.
  rewrite Hm, Hp, Hs.
  assert (Hmap : map (fun h => JS.or_str (JS.header_get h (req_headers r1)) "") relevantHeaders
               = map (fun h => JS.or_str (JS.header_get h (req_headers r2)) "") relevantHeaders).
  { induction Hh as [|h hs Hhd _ IH]; [reflexivity|].
    cbn [map]. rewrite Hhd, IH. reflexivity. }
  rewrite Hmap. reflexivity.
Qed.

Lemma hashRequest_depends_only_on_key_inputs_witness :
  sample_request <> sample_request' /\
  hashRequest sample_request = hashRequest sample_request'.
Proof.
  split; [intros H; discriminate (f_equal req_body H)|].
  apply hashRequest_depends_only_on_key_inputs;
    [reflexivity | reflexivity | reflexivity |].
  repeat constructor.
Defined.

(** The key is not constant: another method gives another key. *)
Example hashRequest_method_matters :
  hashRequest {| req_method := "HEAD"; req_url := sample_url;
                 req_headers := req_headers sample_request; req_body := [] |}
  <> hashRequest sample_request.
Proof. vm_compute. discriminate. Qed.

End RequestHashFacts.

(** ** JavaScript primitives *)

Section JSFacts.

Lemma header_get_set_eq h v hs : JS.header_get h (JS.header_set h v hs) = Some v.
Proof. unfold JS.header_get, JS.header_set. apply lookup_insert_eq. Qed.

Lemma header_get_set_ne h h' v hs :
  JS.toLowerCase h' <> JS.toLowerCase h ->
  JS.header_get h (JS.header_set h' v hs) = JS.header_get h hs.
Proof. intros Hne. unfold JS.header_get, JS.header_set. by apply lookup_insert_ne. Qed.

Lemma slice_inside {A} (l : list A) (b e : Z) :
  0 <= b <= e -> e <= Z.of_nat (length l) ->
  JS.slice l b e = take (Z.to_nat (e - b)) (drop (Z.to_nat b) l).
Proof.
  intros Hb He. unfold JS.slice, JS.clamp_index.
  destruct (Z.ltb_spec b 0); [lia|].
  destruct (Z.ltb_spec e 0); [lia|].
  rewrite !Z.min_l by lia. reflexivity.
Qed.

Lemma slice_inside_length {A} (l : list A) (b e : Z) :
  0 <= b <= e -> e <= Z.of_nat (length l) ->
  Z.of_nat (length (JS.slice l b e)) = e - b.
Proof.
  intros Hb He. rewrite slice_inside by assumption.
  rewrite length_take, length_drop. lia.
Qed.

Lemma slice_inside_lookup {A} (l : list A) (b e : Z) (i : nat) :
  0 <= b <= e -> e <= Z.of_nat (length l) -> Z.of_nat i < e - b ->
  JS.slice l b e !! i = l !! (Z.to_nat b + i)%nat.
Proof.
  intros Hb He Hi. rewrite slice_inside by assumption.
  rewrite lookup_take_lt by lia. apply lookup_drop.
Qed.

End JSFacts.

(** ** Range requests *)

Section RangeFacts.
Import RangeRequests.

Example range_2_5 :
  handleRangeRequest ten_bytes "bytes=2-5" ∅ "video/mp4"
  = {| res_status := 206;
       res_headers := {[ "content-range" := "bytes 2-5/10"; "content-length" := "4";
                         "content-type" := "video/mp4" ]};
       res_body := BBytes [x02; x03; x04; x05]%byte |}.
Proof. vm_compute. reflexivity. Qed.

(** What the handler does with its locals [start] and [end], the parsed
    numbers after the [||] defaults of lines 2175-2176: 416 with
    [Content-Range: bytes */fileSize] when one of them is not below
    [fileSize]; 206 with the bytes [start .. end] when
    [0 <= start <= end < fileSize]. *)
Lemma handleRangeRequest_effective_bounds (body : list byte) (rangeHeader : string)
    (headers : gmap string string) (contentType : string) :
  let fileSize := Z.of_nat (length body) in
  let start := range_start rangeHeader in
  let end_ := range_end rangeHeader fileSize in
  let r := handleRangeRequest body rangeHeader headers contentType in
  (start >= fileSize \/ end_ >= fileSize ->
     res_status r = 416 /\
     JS.header_get "Content-Range" (res_headers r) = Some ("bytes */" +:+ JS.num fileSize))
  /\
  (0 <= start <= end_ /\ end_ < fileSize ->
     res_status r = 206 /\
     JS.header_get "Content-Range" (res_headers r)
       = Some ("bytes " +:+ JS.num start +:+ "-" +:+ JS.num end_ +:+ "/" +:+ JS.num fileSize) /\
     JS.header_get "Content-Length" (res_headers r) = Some (JS.num (end_ - start + 1)) /\
     exists chunk : list byte,
       res_body r = BBytes chunk /\
       Z.of_nat (length chunk) = end_ - start + 1 /\
       chunk = take (Z.to_nat (end_ - start + 1)) (drop (Z.to_nat start) body) /\
       (forall i : nat, Z.of_nat i <= end_ - start ->
          chunk !! i = body !! (Z.to_nat start + i)%nat)).
Proof.
  intros fileSize start end_ r. subst r. unfold handleRangeRequest.
  fold fileSize. fold start. fold end_.
  split.
  - intros Hout.
    assert (Hc : (start >=? fileSize) || (end_ >=? fileSize) = true).
    { apply orb_true_iff. destruct Hout; [left|right]; apply Z.geb_le; lia. }
    rewrite Hc. cbn [res_status res_headers]. split; [reflexivity|].
    apply header_get_set_eq.
  - intros [Hse Hef].
    assert (Hc : (start >=? fileSize) || (end_ >=? fileSize) = false).
    { apply orb_false_iff. split; rewrite Z.geb_leb; apply Z.leb_gt; lia. }
    rewrite Hc. cbn [res_status res_headers res_body].
    split; [reflexivity|]. split.
    { rewrite !header_get_set_ne by (vm_compute; discriminate).
      apply header_get_set_eq. }
    split.
    { rewrite header_get_set_ne by (vm_compute; discriminate).
      apply header_get_set_eq. }
    eexists. split; [reflexivity|].
    split; [rewrite slice_inside_length; [lia | lia | unfold fileSize in *; lia]|].
    split.
    { rewrite slice_inside; [|lia|unfold fileSize in *; lia].
      do 2 f_equal. lia. }
    intros i Hi. apply slice_inside_lookup; [lia | unfold fileSize in *; lia | lia].
Qed.

(** C5. A range request for the first byte alone, [bytes=0-0], is fully
    inside the bounds of every non-empty body: both numbers parse to [0].
    It is not answered with that byte.  The end [0] is falsy, so the [||]
    of line 2176 replaces it by [fileSize - 1], and the response is 206
    with the whole body, [Content-Range: bytes 0-(fileSize-1)/fileSize]
    and [Content-Length: fileSize], where the range asked for has the
    [Content-Range] [bytes 0-0/fileSize] and the length 1.  The range
    [bytes=0-1] of the same body is answered as asked, with its two
    bytes. *)
Theorem range_0_0_is_answered_with_the_whole_body (body : list byte)
    (headers : gmap string string) (contentType : string) :
  let fileSize := Z.of_nat (length body) in
  let r := handleRangeRequest body "bytes=0-0" headers contentType in
  let r' := handleRangeRequest body "bytes=0-1" headers contentType in
  1 < fileSize ->
  JS.parseInt_opt (range_parts "bytes=0-0" !! 0%nat) = Some 0
  /\ JS.parseInt_opt (range_parts "bytes=0-0" !! 1%nat) = Some 0
  /\ res_status r = 206
  /\ res_body r = BBytes body
  /\ res_body r <> BBytes (take 1 body)
  /\ JS.header_get "Content-Range" (res_headers r)
     = Some ("bytes 0-" +:+ JS.num (fileSize - 1) +:+ "/" +:+ JS.num fileSize)
  /\ JS.header_get "Content-Length" (res_headers r) = Some (JS.num fileSize)
  /\ res_status r' = 206
  /\ res_body r' = BBytes (take 2 body)
  /\ JS.header_get "Content-Range" (res_headers r')
     = Some ("bytes 0-1/" +:+ JS.num fileSize)
  /\ JS.header_get "Content-Length" (res_headers r') = Some "2".
Proof.
  intros fileSize r r' Hsize.
  split; [reflexivity|]. split; [reflexivity|].
  subst r r'. unfold handleRangeRequest. fold fileSize.
  change (range_start "bytes=0-0") with 0.
  change (range_end "bytes=0-0" fileSize) with (fileSize - 1).
  change (range_start "bytes=0-1") with 0.
  change (range_end "bytes=0-1" fileSize) with 1.
  destruct (Z.geb_spec 0 fileSize); [lia|].
  destruct (Z.geb_spec (fileSize - 1) fileSize); [lia|].
  destruct (Z.geb_spec 1 fileSize); [lia|].
  cbn [orb res_status res_body res_headers].
  assert (Hslice : JS.slice body 0 (fileSize - 1 + 1) = body).
  { rewrite slice_inside by (unfold fileSize in *; lia).
    cbn [Z.to_nat drop]. apply take_ge. unfold fileSize. lia. }
  assert (Hslice' : JS.slice body 0 (1 + 1) = take 2 body).
  { rewrite slice_inside by (unfold fileSize in *; lia). reflexivity. }
  rewrite Hslice, Hslice'.
  split; [reflexivity|]. split; [reflexivity|]. split.
  { intros [= Hbody]. apply (f_equal length) in Hbody.
    rewrite length_take in Hbody. unfold fileSize in Hsize. lia. }
  split.
  { rewrite !header_get_set_ne by (vm_compute; discriminate).
    rewrite header_get_set_eq. reflexivity. }
  split.
  { rewrite header_get_set_ne by (vm_compute; discriminate).
    rewrite header_get_set_eq. do 2 f_equal. lia. }
  split; [reflexivity|]. split; [reflexivity|]. split.
  { rewrite !header_get_set_ne by (vm_compute; discriminate).
    rewrite header_get_set_eq. reflexivity. }
  rewrite header_get_set_ne by (vm_compute; discriminate).
  rewrite header_get_set_eq. reflexivity.
Qed.

Lemma range_0_0_is_answered_with_the_whole_body_witness :
  res_status (handleRangeRequest ten_bytes "bytes=0-0" ∅ "video/mp4") = 206
  /\ res_body (handleRangeRequest ten_bytes "bytes=0-0" ∅ "video/mp4") = BBytes ten_bytes
  /\ JS.header_get "Content-Range"
       (res_headers (handleRangeRequest ten_bytes "bytes=0-0" ∅ "video/mp4"))
     = Some "bytes 0-9/10"
  /\ JS.header_get "Content-Length"
       (res_headers (handleRangeRequest ten_bytes "bytes=0-0" ∅ "video/mp4"))
     = Some "10"
  /\ res_body (handleRangeRequest ten_bytes "bytes=0-1" ∅ "video/mp4")
     = BBytes [x00; x01]%byte.
Proof.
  destruct (range_0_0_is_answered_with_the_whole_body ten_bytes ∅ "video/mp4")
    as (_ & _ & Hstatus & Hbody & _ & Hrange & Hlength & _ & Hbody' & _).
  - vm_compute. reflexivity.
  - split; [exact Hstatus|]. split; [exact Hbody|]. split; [exact Hrange|].
    split; [exact Hlength | exact Hbody'].
Defined.

(** The same default serves the rest of the body for every range that
    ends at byte 0, and a range is honoured for media types only. *)
Example range_5_0_is_served_to_the_end :
  res_body (handleRangeRequest ten_bytes "bytes=5-0" ∅ "video/mp4")
  = BBytes [x05; x06; x07; x08; x09]%byte.
Proof. vm_compute. reflexivity. Qed.

Example range_ignored_for_text :
  serveBuffered ten_bytes (Some "bytes=2-5") ∅ "text/plain"
  = {| res_status := 200; res_headers := ∅; res_body := BBytes ten_bytes |}.
Proof. reflexivity. Qed.

End RangeFacts.

(** ** Sorting and slicing *)

Section SortFacts.
Context {A : Type}.

Lemma insert_sorted_perm (cmp : A -> A -> Z) x l : JS.insert_sorted cmp x l ≡ₚ x :: l.
Proof.
  induction l as [|y l IH]; [reflexivity|]. cbn.
  destruct (cmp y x <=? 0); [|reflexivity].
  rewrite IH. apply Permutation_swap.
Qed.

Lemma sort_perm (cmp : A -> A -> Z) l : JS.sort cmp l ≡ₚ l.
Proof.
  unfold JS.sort.
  enough (H : forall acc, foldl (fun acc x => JS.insert_sorted cmp x acc) acc l ≡ₚ acc ++ l)
    by apply (H []).
  induction l as [|x l IH]; intros acc; cbn.
  - by rewrite app_nil_r.
  - rewrite IH, insert_sorted_perm. apply Permutation_middle.
Qed.

Variable f : A -> Z.

Local Abbreviation desc_rel := (JS.desc_rel f).

Lemma insert_sorted_desc x l :
  StronglySorted desc_rel l -> StronglySorted desc_rel (JS.insert_sorted (JS.desc_by f) x l).
Proof.
  induction 1 as [|y l Hl IH Hy]; cbn.
  - repeat constructor.
  - unfold JS.desc_by at 1. destruct (Z.leb_spec (f x - f y) 0) as [Hle|Hgt].
    + constructor; [exact IH|].
      rewrite insert_sorted_perm. constructor; [unfold JS.desc_rel; lia | exact Hy].
    + constructor; [by constructor|].
      constructor; [unfold JS.desc_rel; lia|].
      eapply Forall_impl; [exact Hy|]. unfold JS.desc_rel. intros; lia.
Qed.

Lemma sort_desc l : StronglySorted desc_rel (JS.sort (JS.desc_by f) l).
Proof.
  unfold JS.sort.
  enough (H : forall acc, StronglySorted desc_rel acc ->
            StronglySorted desc_rel
              (foldl (fun acc x => JS.insert_sorted (JS.desc_by f) x acc) acc l))
    by (apply H; constructor).
  induction l as [|x l IH]; intros acc Hacc; cbn; [exact Hacc|].
  apply IH, insert_sorted_desc, Hacc.
Qed.

Lemma slice_prefix (l : list A) (n : Z) :
  0 <= n -> JS.slice l 0 n = take (Z.to_nat n) l.
Proof.
  intros Hn. unfold JS.slice, JS.clamp_index.
  destruct (Z.ltb_spec n 0); [lia|]. cbn [Z.ltb Z.compare].
  rewrite (Z.min_l 0) by lia. rewrite Z.sub_0_r.
  change (Z.to_nat 0) with 0%nat. rewrite drop_0.
  destruct (Z.le_ge_cases n (Z.of_nat (length l))).
  - by rewrite Z.min_l.
  - rewrite Z.min_r by lia. rewrite Nat2Z.id.
    rewrite firstn_all. symmetry. apply take_ge. lia.
Qed.

Lemma slice_suffix (l : list A) (n : Z) :
  0 <= n -> JS.slice l n (Z.of_nat (length l)) = drop (Z.to_nat n) l.
Proof.
  intros Hn. unfold JS.slice, JS.clamp_index.
  destruct (Z.ltb_spec n 0); [lia|].
  destruct (Z.ltb_spec (Z.of_nat (length l)) 0); [lia|].
  rewrite Z.min_id.
  destruct (Z.le_ge_cases n (Z.of_nat (length l))).
  - rewrite Z.min_l by lia. apply take_ge. rewrite length_drop. lia.
  - rewrite Z.min_r by lia. rewrite Z.sub_diag, Nat2Z.id. cbn [Z.to_nat take].
    symmetry. apply drop_ge. lia.
Qed.

Lemma sorted_take_dominates (l : list A) (n : nat) k d :
  StronglySorted desc_rel l -> k ∈ take n l -> d ∈ drop n l -> f d <= f k.
Proof.
  intros Hs Hk Hd. rewrite <- (take_drop n l) in Hs.
  exact (StronglySorted_app_1_elem_of _ _ _ _ _ Hs Hk Hd).
Qed.

Lemma sorted_take (l : list A) (n : nat) :
  StronglySorted desc_rel l -> StronglySorted desc_rel (take n l).
Proof.
  intros Hs. rewrite <- (take_drop n l) in Hs.
  exact (StronglySorted_app_1_l _ _ _ Hs).
Qed.
End SortFacts.

(** ** Quota accounting *)

Section QuotaFacts.
Import Store Quota.

Lemma quota_of_role_user user :
  user_role user = Some "user" -> quota_of user = Limits quota_user.
Proof. intros H. unfold quota_of. rewrite H. reflexivity. Qed.

Lemma quota_of_role_admin user :
  user_role user = Some "admin" -> quota_of user = Limits quota_admin.
Proof. intros H. unfold quota_of. rewrite H. reflexivity. Qed.

(** The quota of a role the table does not inherit: its entry, and the
    [user] entry for a role without entry. *)
Lemma quota_of_plain_role user :
  let userRole := JS.or_str (user_role user) "user" in
  JS.is_inherited userRole = false ->
  quota_of user = Limits (default quota_user (quotas !! userRole)).
Proof.
  intros userRole Hplain. unfold quota_of. fold userRole.
  destruct (quotas !! userRole); [reflexivity|]. by rewrite Hplain.
Qed.

Lemma quota_of_inherited_role user :
  let userRole := JS.or_str (user_role user) "user" in
  JS.is_inherited userRole = true ->
  quota_of user = InheritedMember userRole.
Proof.
  intros userRole Hinherited. unfold quota_of. fold userRole.
  clearbody userRole.
  destruct (quotas !! userRole) as [quota|] eqn:Hq; [|by rewrite Hinherited].
  exfalso. unfold quotas in Hq.
  apply lookup_insert_Some in Hq as [[<- _]|[_ Hq]]; [discriminate Hinherited|].
  apply lookup_insert_Some in Hq as [[<- _]|[_ Hq]]; [discriminate Hinherited|].
  apply lookup_singleton_Some in Hq as [<- _]. discriminate Hinherited.
Qed.

Example usage_of_100_files :
  calculateUserUsage env_100_files "u1" = {| files := 100; storage := 1000 |}.
Proof. vm_compute. reflexivity. Qed.

(** C6. (1) A user with role [user] whose computed usage is 100 files
    gets [{canUpload: false, reason: "File limit exceeded (100/100)"}]
    from [checkUserQuota], and an authenticated POST to the upload endpoint
    is answered 403 with that reason and without touching the stores.
    (2) In general -- for every role with limits, which is every role but
    the names an object inherits, with the limits of its entry in the
    table or of the [user] entry -- the file-count limit is checked
    first: when it is violated its reason is returned whatever the storage
    usage is; the storage limit is looked at only otherwise; with neither
    violated the upload is allowed.  (3) The admin sentinel [-1] skips all
    checks.  (4) A role that names an inherited member has no limit to
    violate: the upload is allowed whatever the usage is. *)
Theorem checkUserQuota_limits :
  (forall env user,
     user_role user = Some "user" ->
     files (calculateUserUsage env (user_id user)) = 100 ->
     checkUserQuota env user
       = {| canUpload := false; reason := Some "File limit exceeded (100/100)" |}
     /\ forall auth direct database now request pathname,
          req_method request = "POST" ->
          auth request = Some user ->
          handleUploadRequest auth direct database now env request pathname
          = (env, createErrorResponse now 403 "File limit exceeded (100/100)"))
  /\
  (forall env user,
     let userRole := JS.or_str (user_role user) "user" in
     let quota := default quota_user (quotas !! userRole) in
     let usage := calculateUserUsage env (user_id user) in
     JS.is_inherited userRole = false ->
     quota_of user = Limits quota
     /\ (~ (maxFiles quota = -1 /\ maxStorage quota = -1) ->
         (maxFiles quota > 0 /\ files usage >= maxFiles quota ->
            checkUserQuota env user
            = {| canUpload := false;
                 reason := Some (file_limit_reason (files usage) (maxFiles quota)) |})
         /\
         (~ (maxFiles quota > 0 /\ files usage >= maxFiles quota) ->
            (maxStorage quota > 0 /\ storage usage >= maxStorage quota ->
               checkUserQuota env user
               = {| canUpload := false;
                    reason := Some (storage_limit_reason (storage usage)
                                      (maxStorage quota)) |})
            /\
            (~ (maxStorage quota > 0 /\ storage usage >= maxStorage quota) ->
               checkUserQuota env user = {| canUpload := true; reason := None |}))))
  /\
  (forall env user,
     user_role user = Some "admin" ->
     checkUserQuota env user = {| canUpload := true; reason := None |})
  /\
  (forall env user,
     JS.is_inherited (JS.or_str (user_role user) "user") = true ->
     checkUserQuota env user = {| canUpload := true; reason := None |}).
Proof.
  split; [|split; [|split]].
  - intros env user Hrole Hfiles.
    assert (Hq : checkUserQuota env user
                 = {| canUpload := false; reason := Some "File limit exceeded (100/100)" |}).
    { unfold checkUserQuota. rewrite (quota_of_role_user _ Hrole). cbn.
      unfold check_limits. rewrite Hfiles. reflexivity. }
    split; [exact Hq|].
    intros auth direct database now request pathname Hm Hauth.
    unfold handleUploadRequest. rewrite Hm, Hauth, Hq. reflexivity.
  - intros env user userRole quota usage Hplain.
    pose proof (quota_of_plain_role user Hplain) as Hquota.
    fold userRole in Hquota. fold quota in Hquota.
    split; [exact Hquota|]. intros Hna.
    unfold checkUserQuota. rewrite Hquota. fold usage.
    assert (Hsent : (maxFiles quota =? -1) && (maxStorage quota =? -1) = false).
    { apply not_true_is_false. rewrite andb_true_iff, !Z.eqb_eq. exact Hna. }
    rewrite Hsent. unfold check_limits. split.
    + intros [Hpos Hge].
      assert (Hc : (maxFiles quota >? 0) && (files usage >=? maxFiles quota) = true).
      { apply andb_true_iff. split; [apply Z.gtb_lt | apply Z.geb_le]; lia. }
      rewrite Hc. reflexivity.
    + intros Hnf.
      assert (Hc : (maxFiles quota >? 0) && (files usage >=? maxFiles quota) = false).
      { apply not_true_is_false. rewrite andb_true_iff, Z.gtb_lt, Z.geb_le.
        intros [? ?]. apply Hnf. lia. }
      rewrite Hc. split.
      * intros [Hpos Hge].
        assert (Hs : (maxStorage quota >? 0) && (storage usage >=? maxStorage quota) = true).
        { apply andb_true_iff. split; [apply Z.gtb_lt | apply Z.geb_le]; lia. }
        rewrite Hs. reflexivity.
      * intros Hns.
        assert (Hs : (maxStorage quota >? 0) && (storage usage >=? maxStorage quota) = false).
        { apply not_true_is_false. rewrite andb_true_iff, Z.gtb_lt, Z.geb_le.
          intros [? ?]. apply Hns. lia. }
        rewrite Hs. reflexivity.
  - intros env user Hrole. unfold checkUserQuota.
    rewrite (quota_of_role_admin _ Hrole). reflexivity.
  - intros env user Hinherited. unfold checkUserQuota.
    by rewrite (quota_of_inherited_role user Hinherited).
Qed.

Lemma checkUserQuota_limits_witness :
  checkUserQuota env_100_files sample_user
  = {| canUpload := false; reason := Some "File limit exceeded (100/100)" |}
  /\ res_status
       (handleUploadRequest (fun _ => Some sample_user)
          (fun env _ _ => (env, json_response JNull))
          (fun env _ _ => (env, json_response JNull))
          0 env_100_files post_request "/api/upload/direct").2 = 403
  /\ checkUserQuota env_100_files constructor_user
     = {| canUpload := true; reason := None |}.
Proof.
  destruct checkUserQuota_limits as (H & _ & _ & Hinherited).
  destruct (H env_100_files sample_user) as [Hq Hup].
  - reflexivity.
  - vm_compute. reflexivity.
  - split; [exact Hq|]. split.
    + rewrite (Hup (fun _ => Some sample_user) (fun env _ _ => (env, json_response JNull))
                   (fun env _ _ => (env, json_response JNull)) 0 post_request
                   "/api/upload/direct"); reflexivity.
    + apply Hinherited. reflexivity.
Defined.

(** The file-count reason wins when both limits are exceeded. *)
Example file_limit_reported_first :
  check_limits quota_user {| files := 150; storage := 2 * GiB |}
  = {| canUpload := false; reason := Some "File limit exceeded (150/100)" |}.
Proof. vm_compute. reflexivity. Qed.

Example storage_limit_reported_second :
  check_limits quota_user {| files := 3; storage := 2 * GiB |}
  = {| canUpload := false; reason := Some "Storage limit exceeded (2048MB/1024MB)" |}.
Proof. vm_compute. reflexivity. Qed.

End QuotaFacts.

(** ** Upload tracking *)

Section UploadFacts.
Import Store Uploads.

Lemma recentUploads_take existing fileMetadata :
  recentUploads existing fileMetadata
  = take 1000 (JS.sort (JS.desc_by tu_createdAt) (existing ++ [track_entry fileMetadata])).
Proof. unfold recentUploads. by rewrite slice_prefix. Qed.

Lemma trackUserUpload_stored env userId fileMetadata :
  get_uploads (trackUserUpload env userId fileMetadata) (user_uploads_key userId)
  = Some (recentUploads (default [] (get_uploads env (user_uploads_key userId))) fileMetadata).
Proof.
  unfold trackUserUpload, get_uploads at 1. cbn. by rewrite lookup_insert_eq.
Qed.

(** C10. After [trackUserUpload] the list stored under
    [user_uploads:{userId}] has at most 1000 entries; it is sorted newest
    first by [createdAt]; together with the entries that were cut off it
    is a rearrangement of the previous list plus the new entry; and no
    entry that was cut off is more recent than an entry that was kept. *)
Theorem trackUserUpload_keeps_most_recent (env : Env) (userId : string)
    (fileMetadata : UploadMeta) :
  let existing := default [] (get_uploads env (user_uploads_key userId)) in
  exists kept dropped : list TrackedUpload,
    get_uploads (trackUserUpload env userId fileMetadata) (user_uploads_key userId)
      = Some kept /\
    (length kept <= 1000)%nat /\
    length kept = Nat.min 1000 (length existing + 1) /\
    kept ++ dropped ≡ₚ existing ++ [track_entry fileMetadata] /\
    StronglySorted (fun a b => tu_createdAt b <= tu_createdAt a) kept /\
    (forall k d, k ∈ kept -> d ∈ dropped -> tu_createdAt d <= tu_createdAt k).
Proof.
  intros existing.
  set (sorted := JS.sort (JS.desc_by tu_createdAt) (existing ++ [track_entry fileMetadata])).
  exists (take 1000 sorted), (drop 1000 sorted).
  assert (Hs : StronglySorted (JS.desc_rel tu_createdAt) sorted) by apply sort_desc.
  assert (Hlen : length sorted = (length existing + 1)%nat).
  { unfold sorted. rewrite (Permutation_length (sort_perm _ _)).
    rewrite length_app. reflexivity. }
  split; [rewrite trackUserUpload_stored; apply f_equal, recentUploads_take|].
  split; [rewrite length_take; lia|].
  split; [rewrite length_take; lia|].
  split; [rewrite take_drop; apply sort_perm|].
  split; [exact (sorted_take _ _ _ Hs)|].
  intros k d Hk Hd. exact (sorted_take_dominates _ _ _ _ _ Hs Hk Hd).
Qed.

Example trackUserUpload_newest_first :
  map tu_createdAt
    <$> get_uploads
          (trackUserUpload
             (trackUserUpload (trackUserUpload empty_env "u1" (sample_upload 20))
                "u1" (sample_upload 30))
             "u1" (sample_upload 10))
          (user_uploads_key "u1")
  = Some [30; 20; 10].
Proof. vm_compute. reflexivity. Qed.

End UploadFacts.

(** ** The path obfuscator *)

Section PathFacts.
Import PathObfuscator.

Lemma string_append_assoc (a b c : string) : (a +:+ b) +:+ c = a +:+ b +:+ c.
Proof.
  induction a as [|x a IH]; [reflexivity|].
  change (String x (a +:+ b) +:+ c = String x (a +:+ b +:+ c)). by rewrite <- IH.
Qed.

Lemma no_slash_cons c s : no_slash (String c s) = negb (is_slash c) && no_slash s.
Proof.
  unfold no_slash.
  change (JS.exists_string is_slash (String c s))
    with (is_slash c || JS.exists_string is_slash s).
  apply negb_orb.
Qed.

Lemma no_slash_app a b : no_slash (a +:+ b) = no_slash a && no_slash b.
Proof.
  induction a as [|c a IH]; [reflexivity|].
  change (String c a +:+ b) with (String c (a +:+ b)).
  rewrite !no_slash_cons, IH. apply andb_assoc.
Qed.

Lemma no_slash_take n s : no_slash s = true -> no_slash (JS.take_string n s) = true.
Proof.
  revert s. induction n as [|n IH]; intros [|c s]; cbn [JS.take_string]; try reflexivity.
  rewrite !no_slash_cons, !andb_true_iff. intros [? ?]. auto.
Qed.

Lemma no_slash_drop n s : no_slash s = true -> no_slash (JS.drop_string n s) = true.
Proof.
  revert s. induction n as [|n IH]; intros [|c s]; cbn [JS.drop_string]; try done.
  rewrite no_slash_cons, andb_true_iff. intros [? ?]. auto.
Qed.

Lemma no_slash_substr a b s : no_slash s = true -> no_slash (JS.substr a b s) = true.
Proof. intros H. unfold JS.substr, JS.substring. by apply no_slash_take, no_slash_drop. Qed.

Lemma no_slash_substr_at off n s : no_slash s = true -> no_slash (substr_at off n s) = true.
Proof. intros H. destruct off; cbn; [by apply no_slash_substr | reflexivity]. Qed.

Lemma no_slash_get s n c : no_slash s = true -> String.get n s = Some c -> c <> "/"%char.
Proof.
  revert n. induction s as [|c' s IH]; intros n; cbn [String.get]; [discriminate|].
  rewrite no_slash_cons, andb_true_iff, negb_true_iff. intros [Hc Hs].
  destruct n as [|n]; [|by apply IH].
  intros [= <-] ->. unfold is_slash in Hc. by rewrite Ascii.eqb_refl in Hc.
Qed.

Lemma digit_char_no_slash d : is_slash (JS.digit_char d) = false.
Proof.
  unfold JS.digit_char.
  destruct (String.get _ _) as [c|] eqn:Hg; [|reflexivity].
  apply Ascii.eqb_neq. intros Heq. eapply no_slash_get; [|exact Hg|by symmetry].
  reflexivity.
Qed.

Lemma no_slash_radix_go fuel base n acc :
  no_slash acc = true -> no_slash (JS.radix_go fuel base n acc) = true.
Proof.
  revert n acc. induction fuel as [|fuel IH]; intros n acc Hacc; cbn [JS.radix_go]; [exact Hacc|].
  destruct (n <? base).
  - by rewrite no_slash_cons, digit_char_no_slash.
  - apply IH. by rewrite no_slash_cons, digit_char_no_slash.
Qed.

Lemma no_slash_toString_radix base n : no_slash (JS.toString_radix base n) = true.
Proof. by apply no_slash_radix_go. Qed.

Lemma no_slash_hex bytes : no_slash (hex bytes) = true.
Proof.
  induction bytes as [|b bytes IH]; [reflexivity|].
  cbn [hex]. rewrite no_slash_app, IH, andb_true_r.
  unfold hex_byte. by rewrite !no_slash_cons, !digit_char_no_slash.
Qed.

Lemma pick_component l i : Forall is_component l -> is_component (pick l i).
Proof.
  intros Hl. unfold pick. destruct (l !! Z.to_nat i) as [x|] eqn:Hx; cbn.
  - eapply Forall_lookup_1; eauto.
  - by split.
Qed.

Lemma word_lists_are_components :
  Forall is_component prefixes /\ Forall is_component suffixes /\ Forall is_component middle.
Proof. repeat split; repeat constructor; done. Qed.

Lemma directory_is_component input hashSegment :
  no_slash hashSegment = true ->
  is_component (generateAdvancedObfuscatedDirectory input hashSegment).
Proof.
  intros Hh. unfold generateAdvancedObfuscatedDirectory.
  destruct word_lists_are_components as (Hp & Hs & Hm).
  destruct (pick_component prefixes (Z.rem (JS.char_code_sum input) (Z.of_nat (length prefixes))) Hp)
    as [Hne Hps].
  destruct (pick_component suffixes (Z.rem (JS.char_code_sum input * 7) (Z.of_nat (length suffixes))) Hs)
    as [_ Hss].
  destruct (pick_component middle (Z.rem (JS.char_code_sum input * 13) (Z.of_nat (length middle))) Hm)
    as [_ Hms].
  split.
  - destruct (pick prefixes _); [done | discriminate].
  - rewrite !no_slash_app, Hps, Hh, Hms, Hss, no_slash_toString_radix. reflexivity.
Qed.

Lemma nested_directories_length metadata ph mh i count :
  length (nested_directories metadata ph mh i count) = count.
Proof. revert i. induction count as [|count IH]; intros i; cbn; [reflexivity|]. by rewrite IH. Qed.

Lemma nested_directories_components metadata ph mh i count :
  no_slash ph = true -> no_slash mh = true ->
  Forall is_component (nested_directories metadata ph mh i count).
Proof.
  intros Hp Hm. revert i. induction count as [|count IH]; intros i; cbn; constructor.
  - apply directory_is_component.
    rewrite no_slash_app. by rewrite !no_slash_substr_at.
  - apply IH.
Qed.

Lemma calculateNameComplexity_pos fileName : 1 <= calculateNameComplexity fileName.
Proof.
  unfold calculateNameComplexity.
  repeat match goal with |- context [if ?b then _ else _] => destruct b end; lia.
Qed.

End PathFacts.

(** ** The worker-proxy cache resolver *)

Section ProxyFacts.
Import Store Proxy.

Variable sha256 : list byte -> list byte.
Variable toISOString : Z -> string.
Variable stringify : JVal -> list byte.

Local Abbreviation forward := (forward sha256 stringify).
Local Abbreviation resolve := (resolve sha256 toISOString stringify).
Local Abbreviation handleWorkerProxyRequest := (handleWorkerProxyRequest sha256 toISOString stringify).
Local Abbreviation serve := (serve sha256 toISOString stringify).

Lemma forward_layers now w request workerName workerPath key log :
  layers (forward now w request workerName workerPath key log).2
  = layers log ++ [LayerOrigin].
Proof.
  unfold Proxy.forward, mbind, eff_mbind, eff_bind, consult, spawn, eff_ret.
  destruct (w _) as [r|]; [|reflexivity].
  destruct (negb (is_ok r)); [reflexivity|].
  destruct (_ && _); reflexivity.
Qed.

Lemma cache_key_string_ne_stats_key request workerName workerPath :
  cache_key_string request workerName workerPath <> stats_key.
Proof. unfold cache_key_string, stats_key. cbn. discriminate. Qed.

(** What [storeInKVCache] logs: one line when one of its two writes is
    rejected, one line when the statistics cannot be written, nothing
    otherwise. *)
Lemma storeInKVCache_logged now ok env key response workerPath :
  (storeInKVCache stringify now ok env key response workerPath).2
  = if cache_put_ok ok && meta_put_ok ok
    then if stats_put_ok ok then [] else ["Stats update error:"]
    else ["KV cache write error:"].
Proof.
  unfold storeInKVCache, updateCacheStats.
  destruct (cache_put_ok ok), (meta_put_ok ok), (stats_put_ok ok); reflexivity.
Qed.

(** What [storeInKVCache] stores when its two writes go through, whether
    or not the statistics can be written. *)
Lemma storeInKVCache_stored now ok env key response workerPath :
  cache_put_ok ok = true -> meta_put_ok ok = true -> key <> stats_key ->
  let env' := (storeInKVCache stringify now ok env key response workerPath).1 in
  get_cached_response env' key
    = Some {| cd_status := res_status response; cd_headers := res_headers response;
              cd_body := body_bytes stringify (res_body response); cd_timestamp := now |}
  /\ get_cache_meta env' key
    = Some {| cm_expires := now + getWorkerCacheTTL workerPath * 1000;
              cm_size := Z.of_nat (length (body_bytes stringify (res_body response)));
              cm_workerPath := workerPath;
              cm_contentType :=
                JS.or_str (JS.header_get "content-type" (res_headers response)) "unknown" |}.
Proof.
  intros Hcache Hmeta Hkey env'. subst env'.
  unfold storeInKVCache, updateCacheStats, get_cache_meta, get_cached_response.
  rewrite Hcache, Hmeta. cbn [andb].
  destruct (stats_put_ok ok);
    cbn [fst CDN_METADATA CDN_CACHE set_CDN_METADATA set_CDN_CACHE].
  - split; [by rewrite lookup_insert_eq|].
    rewrite lookup_insert_ne by (intros H; by symmetry in H).
    by rewrite lookup_insert_eq.
  - split; by rewrite lookup_insert_eq.
Qed.

(** C3. For a GET request the resolver consults the cache layers in the
    fixed order persistent KV, edge cache, origin, and stops at the first
    one that answers: the layers consulted are a prefix of that sequence.
    For a request routed to a configured worker: a KV hit consults the KV
    only; the edge cache is consulted exactly when the KV misses, and the
    origin exactly when both miss.  On an edge-cache hit the cached
    response, stamped with the cache headers, is the response, and the
    only thing started is the backfill of the KV under the same cache
    key.  Whatever becomes of the writes of the backfill, the response is
    the same and the edge cache is left as it is.  When its two writes go
    through, the KV holds the response as it was sent -- status, headers,
    body, stamped with the clock reading -- and its expiry record, so
    that the same key hits the KV at every clock reading up to the
    expiry.  Every rejected write leaves one line in the log: of the
    cache write when one of the two records is rejected, of the
    statistics when only their update is; nothing is logged otherwise. *)
Theorem worker_proxy_layer_order (now : Z) (env : Env) (cache : gmap string Response)
    (workers : gmap string Worker) (request : Request) (pathname : string) :
  req_method request = "GET" ->
  let out := run (handleWorkerProxyRequest now env cache workers request pathname) in
  let consulted := layers out.2 in
  (consulted = [] \/ consulted = [LayerKV] \/ consulted = [LayerKV; LayerEdge]
   \/ consulted = [LayerKV; LayerEdge; LayerOrigin])
  /\
  (forall workerName workerPath bindingName workerBinding,
     route pathname = Some (workerName, workerPath) ->
     workerBindings !! workerName = Some bindingName ->
     workers !! bindingName = Some workerBinding ->
     let key := cache_key_string request workerName workerPath in
     (forall data, getFromKVCache now env key = Some data ->
        consulted = [LayerKV] /\ tasks out.2 = [] /\
        out.1 = set_headers (cache_stamp "KV-HIT" "KV" workerName)
                  (deserializeKVResponse toISOString now data))
     /\
     (getFromKVCache now env key = None ->
        (forall cachedResponse, cache !! edge_cache_key request = Some cachedResponse ->
           consulted = [LayerKV; LayerEdge] /\
           out.1 = set_headers (cache_stamp "CACHE-HIT" "EdgeCache" workerName) cachedResponse /\
           tasks out.2 = [TaskStoreKV key out.1 workerPath] /\
           forall ok,
             let settled := serve now ok env cache workers request pathname in
             let env' := settled.2.1.1 in
             let logged := settled.2.2 in
             let stored :=
               {| cd_status := res_status out.1; cd_headers := res_headers out.1;
                  cd_body := body_bytes stringify (res_body out.1);
                  cd_timestamp := now |} in
             settled.1 = out.1
             /\ settled.2.1.2 = cache
             /\ (cache_put_ok ok = true -> meta_put_ok ok = true ->
                   get_cached_response env' key = Some stored
                   /\ (cm_expires <$> get_cache_meta env' key)
                      = Some (now + getWorkerCacheTTL workerPath * 1000)
                   /\ forall t, t <= now + getWorkerCacheTTL workerPath * 1000 ->
                        getFromKVCache t env' key = Some stored)
             /\ (cache_put_ok ok = false \/ meta_put_ok ok = false ->
                   logged = ["KV cache write error:"])
             /\ (cache_put_ok ok = true -> meta_put_ok ok = true ->
                   logged = if stats_put_ok ok then [] else ["Stats update error:"]))
        /\
        (cache !! edge_cache_key request = None ->
           consulted = [LayerKV; LayerEdge; LayerOrigin]))).
Proof.
  intros Hget out consulted. subst consulted out.
  unfold Proxy.serve, Proxy.handleWorkerProxyRequest, Proxy.resolve, run.
  rewrite Hget. cbn [String.eqb Ascii.eqb Bool.eqb].
  unfold mbind, eff_mbind, eff_bind, consult, spawn, eff_ret.
  split.
  - destruct (route pathname) as [[workerName workerPath]|]; [|by left].
    destruct (workerBindings !! workerName) as [bindingName|];
      [|by destruct (JS.is_inherited workerName); left].
    destruct (workers !! bindingName) as [workerBinding|]; [|by left].
    cbn [layers tasks app].
    destruct (getFromKVCache now env _) as [data|]; [by right; left|].
    destruct (cache !! edge_cache_key request) as [cachedResponse|]; [by right; right; left|].
    right; right; right. rewrite forward_layers. reflexivity.
  - intros workerName workerPath bindingName workerBinding Hroute Hbinding Hworker.
    rewrite Hroute, Hbinding, Hworker.
    set (key := cache_key_string request workerName workerPath).
    cbn [layers tasks app]. split.
    + intros data Hkv. rewrite Hkv. cbn. by repeat split.
    + intros Hkv. rewrite Hkv. split.
      * intros cachedResponse Hedge. rewrite Hedge. cbn [fst snd layers tasks app foldl].
        split; [reflexivity|]. split; [reflexivity|]. split; [reflexivity|].
        intros ok. unfold settle_task.
        set (newResponse :=
               set_headers (cache_stamp "CACHE-HIT" "EdgeCache" workerName) cachedResponse).
        pose proof (storeInKVCache_logged now ok env key newResponse workerPath) as Hlogged.
        pose proof (storeInKVCache_stored now ok env key newResponse workerPath) as Hstored.
        destruct (storeInKVCache stringify now ok env key newResponse workerPath)
          as [env' msgs].
        cbn [fst snd app] in *.
        split; [reflexivity|]. split; [reflexivity|]. split; [|split].
        -- intros Hcache Hmeta.
           destruct (Hstored Hcache Hmeta (cache_key_string_ne_stats_key _ _ _))
             as [Hdata Hexpiry].
           split; [exact Hdata|]. split; [by rewrite Hexpiry|].
           intros t Ht. unfold getFromKVCache. rewrite Hexpiry, Hdata.
           cbn [cm_expires]. unfold isCacheExpired.
           destruct (Z.gtb_spec t (now + getWorkerCacheTTL workerPath * 1000));
             [lia | reflexivity].
        -- intros Hfail. rewrite Hlogged.
           destruct Hfail as [-> | ->]; [reflexivity | by rewrite andb_false_r].
        -- intros Hcache Hmeta. by rewrite Hlogged, Hcache, Hmeta.
      * intros Hedge. rewrite Hedge. rewrite forward_layers. reflexivity.
Qed.

(** A worker name that the table of bindings inherits is answered 500,
    a name it does not know 404. *)
Example worker_named_constructor :
  res_status (run (Proxy.handleWorkerProxyRequest toy_sha256 toy_iso toy_stringify
                     1000 empty_env warm_edge sample_workers login_request
                     "/worker/constructor/v2/login")).1 = 500
  /\ res_status (run (Proxy.handleWorkerProxyRequest toy_sha256 toy_iso toy_stringify
                        1000 empty_env warm_edge sample_workers login_request
                        "/worker/mailer/v2/login")).1 = 404.
Proof. split; reflexivity. Qed.

Example edge_hit_backfills_kv :
  let out := run (Proxy.handleWorkerProxyRequest toy_sha256 toy_iso toy_stringify
                    1000 empty_env warm_edge sample_workers login_request
                    "/worker/auth/v2/login") in
  res_status out.1 = 200
  /\ JS.header_get "X-Cache-Layer" (res_headers out.1) = Some "EdgeCache"
  /\ layers out.2 = [LayerKV; LayerEdge]
  /\ length (tasks out.2) = 1%nat.
Proof. vm_compute. repeat split; reflexivity. Qed.

End ProxyFacts.

Lemma worker_proxy_layer_order_witness :
  Proxy.layers (Proxy.run (Proxy.handleWorkerProxyRequest Proxy.toy_sha256 Proxy.toy_iso
                       Proxy.toy_stringify 1000 Store.empty_env Proxy.warm_edge
                       Proxy.sample_workers Proxy.login_request "/worker/auth/v2/login")).2
  = [Proxy.LayerKV; Proxy.LayerEdge]
  /\ (Store.cd_body
        <$> Proxy.getFromKVCache 1801000
              (Proxy.serve Proxy.toy_sha256 Proxy.toy_iso Proxy.toy_stringify 1000
                 Proxy.all_writes_ok Store.empty_env Proxy.warm_edge Proxy.sample_workers
                 Proxy.login_request "/worker/auth/v2/login").2.1.1
              (Proxy.cache_key_string Proxy.login_request "auth" "/v2/login"))
     = Some [x7b; x7d]%byte
  /\ (Proxy.serve Proxy.toy_sha256 Proxy.toy_iso Proxy.toy_stringify 1000
        Proxy.no_write_ok Store.empty_env Proxy.warm_edge Proxy.sample_workers
        Proxy.login_request "/worker/auth/v2/login").2.2
     = ["KV cache write error:"]
  /\ Proxy.layers (Proxy.run (Proxy.handleWorkerProxyRequest Proxy.toy_sha256 Proxy.toy_iso
                       Proxy.toy_stringify 1000 Store.empty_env Proxy.cold_edge_cache
                       Proxy.sample_workers Proxy.login_request "/worker/auth/v2/login")).2
  = [Proxy.LayerKV; Proxy.LayerEdge; Proxy.LayerOrigin].
Proof.
  pose proof (worker_proxy_layer_order Proxy.toy_sha256 Proxy.toy_iso Proxy.toy_stringify
                1000 Store.empty_env Proxy.warm_edge Proxy.sample_workers
                Proxy.login_request "/worker/auth/v2/login" eq_refl) as [_ Hwarm].
  destruct (Hwarm "auth" "/v2/login" "SMPWEB_2X_AUTH_WORKER" Proxy.auth_worker
              eq_refl eq_refl eq_refl) as [_ Hmiss].
  destruct (Hmiss eq_refl) as [Hhit _].
  destruct (Hhit Proxy.login_response eq_refl) as (Hlayers & _ & _ & Hsettled).
  split; [exact Hlayers|]. split; [|split].
  - destruct (Hsettled Proxy.all_writes_ok) as (_ & _ & Hstored & _).
    destruct (Hstored eq_refl eq_refl) as (_ & _ & Hlater).
    rewrite (Hlater 1801000) by (vm_compute; discriminate). reflexivity.
  - destruct (Hsettled Proxy.no_write_ok) as (_ & _ & _ & Hfailed & _).
    apply Hfailed. left. reflexivity.
  - pose proof (worker_proxy_layer_order Proxy.toy_sha256 Proxy.toy_iso Proxy.toy_stringify
                  1000 Store.empty_env Proxy.cold_edge_cache Proxy.sample_workers
                  Proxy.login_request "/worker/auth/v2/login" eq_refl) as [_ Hcold].
    destruct (Hcold "auth" "/v2/login" "SMPWEB_2X_AUTH_WORKER" Proxy.auth_worker
                eq_refl eq_refl eq_refl) as [_ Hnone].
    destruct (Hnone eq_refl) as [_ Horigin]. exact (Horigin eq_refl).
Defined.

(** ** The versioned file store *)

Section VersionFacts.
Import Store Versions.

Example listing_after_id_patch :
  fv_version <$> getFileVersions env_after_id_patch "f2" = [2; 3; 1].
Proof. vm_compute. reflexivity. Qed.

Example listing_after_clock_step_back :
  fv_version <$> getFileVersions env_after_clock_step_back "f1" = [1; 2].
Proof. vm_compute. reflexivity. Qed.

(** *** Keys of the version namespace *)

Lemma version_key_ne_versions_key fileId n fileId' :
  version_key fileId n <> versions_key fileId'.
Proof. unfold version_key, versions_key. cbn. discriminate. Qed.

Lemma version_content_key_ne_versions_key fileId n fileId' :
  version_content_key fileId n <> versions_key fileId'.
Proof. unfold version_content_key, versions_key. cbn. discriminate. Qed.

Lemma version_key_ne_version_content_key fileId n fileId' n' :
  version_key fileId n <> version_content_key fileId' n'.
Proof. unfold version_key, version_content_key. cbn. discriminate. Qed.

Lemma versions_key_inj fileId fileId' :
  versions_key fileId = versions_key fileId' -> fileId = fileId'.
Proof. unfold versions_key. apply String.app_inj. Qed.

Lemma version_key_inj fileId n n' :
  version_key fileId n = version_key fileId n' -> n = n'.
Proof.
  unfold version_key, JS.num. intros H.
  do 3 apply String.app_inj in H. by apply pretty_Z_inj in H.
Qed.

(** *** The clean-up loop *)

Lemma evict_lookup_other fileId kv old k :
  k <> version_key fileId old -> k <> version_content_key fileId old ->
  evict fileId kv old !! k = kv !! k.
Proof. intros H1 H2. unfold evict. by rewrite !lookup_delete_ne. Qed.

Lemma foldl_evict_lookup_other fileId l kv k :
  (forall old, old ∈ l -> k <> version_key fileId old /\ k <> version_content_key fileId old) ->
  foldl (evict fileId) kv l !! k = kv !! k.
Proof.
  revert kv. induction l as [|x l IH]; intros kv Hk; [reflexivity|].
  cbn [foldl]. rewrite IH by (intros old Hold; apply Hk; by right).
  destruct (Hk x) as [H1 H2]; [by left|]. by apply evict_lookup_other.
Qed.

Lemma foldl_evict_none fileId l kv k :
  kv !! k = None -> foldl (evict fileId) kv l !! k = None.
Proof.
  revert kv. induction l as [|x l IH]; intros kv Hk; [exact Hk|].
  cbn [foldl]. apply IH. unfold evict.
  rewrite !lookup_delete. repeat case_decide; done.
Qed.

Lemma foldl_evict_deleted fileId l kv old :
  old ∈ l ->
  foldl (evict fileId) kv l !! version_key fileId old = None /\
  foldl (evict fileId) kv l !! version_content_key fileId old = None.
Proof.
  revert kv. induction l as [|x l IH]; intros kv Hin; [by apply elem_of_nil in Hin|].
  cbn [foldl]. apply elem_of_cons in Hin as [->|Hin]; [|by apply IH].
  split; apply foldl_evict_none; unfold evict.
  - rewrite lookup_delete_ne
      by (intros H; symmetry in H; by apply version_key_ne_version_content_key in H).
    apply lookup_delete_eq.
  - apply lookup_delete_eq.
Qed.

Lemma versions_key_survives_eviction fileId fileId' l kv :
  foldl (evict fileId) kv l !! versions_key fileId' = kv !! versions_key fileId'.
Proof.
  apply foldl_evict_lookup_other. intros old _. split; intros H; symmetry in H.
  - by apply version_key_ne_versions_key in H.
  - by apply version_content_key_ne_versions_key in H.
Qed.

(** *** Sorted indices *)

Lemma sorted_index_perm versionIndex v : sorted_index versionIndex v ≡ₚ versionIndex ++ [v].
Proof. apply sort_perm. Qed.

Lemma index_includes_spec versionIndex v :
  index_includes versionIndex v = true <-> v ∈ versionIndex.
Proof.
  unfold index_includes. rewrite existsb_exists. split.
  - intros (x & Hx & Heq). apply Z.eqb_eq in Heq. subst. by apply list_elem_of_In.
  - intros Hin. exists v. split; [by apply list_elem_of_In | apply Z.eqb_refl].
Qed.

Lemma strictly_descending_NoDup (l : list Z) : StronglySorted Z.gt l -> NoDup l.
Proof.
  induction 1 as [|x l Hl IH Hx]; constructor; [|exact IH].
  intros Hin. rewrite Forall_forall in Hx. specialize (Hx x Hin). lia.
Qed.

Lemma descending_NoDup_strict (l : list Z) :
  StronglySorted (JS.desc_rel id) l -> NoDup l -> StronglySorted Z.gt l.
Proof.
  induction 1 as [|x l Hl IH Hx]; intros Hnd; constructor.
  - apply IH. by apply NoDup_cons in Hnd as [_ ?].
  - apply NoDup_cons in Hnd as [Hnin _].
    rewrite Forall_forall in *. intros y Hy. specialize (Hx y Hy).
    unfold JS.desc_rel, id in Hx. assert (x <> y) by (intros ->; done). lia.
Qed.

Lemma sorted_index_strict versionIndex v :
  StronglySorted Z.gt versionIndex -> index_includes versionIndex v = false ->
  StronglySorted Z.gt (sorted_index versionIndex v).
Proof.
  intros Hs Hn. apply descending_NoDup_strict; [apply sort_desc|].
  rewrite sorted_index_perm. apply NoDup_app. split; [by apply strictly_descending_NoDup|].
  split; [|apply NoDup_singleton].
  intros x Hx ->%list_elem_of_singleton.
  apply index_includes_spec in Hx. congruence.
Qed.

Lemma trimmed_index_bounded versionIndex v :
  StronglySorted Z.gt versionIndex -> index_includes versionIndex v = false ->
  let trimmed := JS.slice (sorted_index versionIndex v) 0 MAX_VERSIONS in
  (length trimmed <= Z.to_nat MAX_VERSIONS)%nat /\ StronglySorted Z.gt trimmed.
Proof.
  intros Hs Hn trimmed. subst trimmed. rewrite slice_prefix by done. split.
  - rewrite length_take. lia.
  - pose proof (sorted_index_strict _ _ Hs Hn) as Hst.
    rewrite <- (take_drop (Z.to_nat MAX_VERSIONS) (sorted_index versionIndex v)) in Hst.
    exact (StronglySorted_app_1_l _ _ _ Hst).
Qed.

Lemma length_take_drop_sorted versionIndex v :
  JS.slice (sorted_index versionIndex v) MAX_VERSIONS
           (Z.of_nat (length (sorted_index versionIndex v)))
  = drop (Z.to_nat MAX_VERSIONS) (sorted_index versionIndex v).
Proof. by apply slice_suffix. Qed.

(** *** [createFileVersion] *)

Section CreateVersion.
Variable jsonSize : FileMetadata -> Z.
Variable sha256 : list byte -> list byte.

Local Abbreviation createFileVersion := (Versions.createFileVersion jsonSize).
Local Abbreviation updateFileMetadata := (Versions.updateFileMetadata jsonSize).
Local Abbreviation updateFileContent := (Versions.updateFileContent jsonSize sha256).
Local Abbreviation restoreFileVersion := (Versions.restoreFileVersion jsonSize).
Local Abbreviation reachable := (Versions.reachable jsonSize sha256).

Local Abbreviation version_record := (Versions.version_record jsonSize).

(** The two record writes leave every index alone. *)
Lemma index_after_record_writes (env : Env) fileId v (content : option (list byte))
    (record : FileVersion) fileId' :
  get_index
    (set_FILE_VERSIONS (insert (version_key fileId v) (VVRecord record))
       match content with
       | Some c => set_FILE_VERSIONS (insert (version_content_key fileId v) (VVContent c)) env
       | None => env
       end)
    (versions_key fileId')
  = get_index env (versions_key fileId').
Proof.
  unfold get_index. destruct content; cbn [FILE_VERSIONS set_FILE_VERSIONS].
  - rewrite !lookup_insert_ne;
      [done | apply version_content_key_ne_versions_key | apply version_key_ne_versions_key].
  - rewrite lookup_insert_ne; [done | apply version_key_ne_versions_key].
Qed.

Lemma createFileVersion_index now env metadata user changeType changes :
  let versionIndex := default [] (get_index env (versions_key (fm_id metadata))) in
  get_index (createFileVersion now env metadata user changeType changes)
            (versions_key (fm_id metadata))
  = if index_includes versionIndex (fm_version metadata)
    then get_index env (versions_key (fm_id metadata))
    else Some (take (Z.to_nat MAX_VERSIONS) (sorted_index versionIndex (fm_version metadata))).
Proof.
  intros versionIndex. unfold Versions.createFileVersion.
  rewrite index_after_record_writes. fold versionIndex.
  destruct (index_includes versionIndex (fm_version metadata)).
  - apply index_after_record_writes.
  - unfold get_index. cbn [FILE_VERSIONS set_FILE_VERSIONS].
    rewrite versions_key_survives_eviction, lookup_insert_eq.
    by rewrite slice_prefix.
Qed.

Lemma createFileVersion_index_other now env metadata user changeType changes fileId :
  fileId <> fm_id metadata ->
  get_index (createFileVersion now env metadata user changeType changes) (versions_key fileId)
  = get_index env (versions_key fileId).
Proof.
  intros Hne. unfold Versions.createFileVersion.
  rewrite index_after_record_writes.
  destruct (index_includes _ _).
  - apply index_after_record_writes.
  - rewrite <- (index_after_record_writes env (fm_id metadata) (fm_version metadata)
                 (if is_content_change changeType
                  then FILE_CONTENT env !! content_key (fm_id metadata) else None)
                 (version_record now env metadata user changeType changes) fileId).
    unfold get_index at 1. cbn [FILE_VERSIONS set_FILE_VERSIONS].
    rewrite versions_key_survives_eviction.
    rewrite lookup_insert_ne; [reflexivity|].
    intros H. apply versions_key_inj in H. congruence.
Qed.

Lemma createFileVersion_evicts now env metadata user changeType changes :
  let versionIndex := default [] (get_index env (versions_key (fm_id metadata))) in
  forall old, old ∈ evicted versionIndex (fm_version metadata) ->
    FILE_VERSIONS (createFileVersion now env metadata user changeType changes)
      !! version_key (fm_id metadata) old = None /\
    FILE_VERSIONS (createFileVersion now env metadata user changeType changes)
      !! version_content_key (fm_id metadata) old = None.
Proof.
  intros versionIndex old. unfold evicted, Versions.createFileVersion.
  rewrite index_after_record_writes. fold versionIndex.
  destruct (index_includes versionIndex (fm_version metadata)).
  - intros Hin. by apply elem_of_nil in Hin.
  - intros Hin. cbn [FILE_VERSIONS set_FILE_VERSIONS].
    apply foldl_evict_deleted.
    rewrite <- (length_take_drop_sorted versionIndex (fm_version metadata)) in Hin.
    exact Hin.
Qed.

Lemma createFileVersion_record now env metadata user changeType changes :
  let versionIndex := default [] (get_index env (versions_key (fm_id metadata))) in
  fm_version metadata ∉ evicted versionIndex (fm_version metadata) ->
  get_record (createFileVersion now env metadata user changeType changes)
             (version_key (fm_id metadata) (fm_version metadata))
  = Some (version_record now env metadata user changeType changes).
Proof.
  intros versionIndex. unfold evicted, Versions.createFileVersion.
  rewrite index_after_record_writes. fold versionIndex.
  destruct (index_includes versionIndex (fm_version metadata)); intros Hkeep;
    unfold get_record; cbn [FILE_VERSIONS set_FILE_VERSIONS].
  - by rewrite lookup_insert_eq.
  - rewrite foldl_evict_lookup_other.
    + rewrite lookup_insert_ne
        by (intros H; symmetry in H; by apply version_key_ne_versions_key in H).
      by rewrite lookup_insert_eq.
    + intros old Hold. split.
      * intros H. apply version_key_inj in H. subst old.
        apply Hkeep. by rewrite <- length_take_drop_sorted.
      * apply version_key_ne_version_content_key.
Qed.

Lemma createFileVersion_preserves_bounded now env metadata user changeType changes :
  index_bounded env ->
  index_bounded (createFileVersion now env metadata user changeType changes).
Proof.
  intros Hinv fileId versionIndex.
  destruct (decide (fileId = fm_id metadata)) as [->|Hne].
  - rewrite createFileVersion_index.
    destruct (index_includes _ _) eqn:Hinc; [apply Hinv|].
    intros [= <-].
    assert (Hs : StronglySorted Z.gt
                   (default [] (get_index env (versions_key (fm_id metadata))))).
    { destruct (get_index env (versions_key (fm_id metadata))) as [idx|] eqn:Hidx;
        [apply (Hinv _ _ Hidx) | constructor]. }
    rewrite <- slice_prefix by done. by apply trimmed_index_bounded.
  - rewrite createFileVersion_index_other by done. apply Hinv.
Qed.

(** *** The editing operations and the version namespace *)

Lemma index_bounded_ext env env' :
  FILE_VERSIONS env' = FILE_VERSIONS env -> index_bounded env -> index_bounded env'.
Proof.
  intros Heq Hinv fileId versionIndex. unfold get_index. rewrite Heq. apply Hinv.
Qed.

Lemma updateFileMetadata_versions now env fileId user updateData currentMetadata :
  getFileMetadata env fileId = Some currentMetadata ->
  FILE_VERSIONS (updateFileMetadata now env fileId user updateData).1
  = FILE_VERSIONS
      (createFileVersion now env currentMetadata user CTmetadata
         {| ch_metadata := Some updateData; ch_contentSize := None; ch_contentHash := None |}).
Proof.
  intros Hm. unfold Versions.updateFileMetadata. rewrite Hm. cbn [fst].
  destruct (get_asset _ _) as [[value existingMeta]|]; [|reflexivity].
  destruct (bool_decide _); reflexivity.
Qed.

Lemma updateFileContent_versions now env fileId user newContent currentMetadata :
  getFileMetadata env fileId = Some currentMetadata ->
  newContent <> [] ->
  FILE_VERSIONS (updateFileContent now env fileId user newContent).1
  = match FILE_CONTENT env !! content_key fileId with
    | Some c =>
        FILE_VERSIONS
          (createFileVersion now env currentMetadata user CTcontent
             {| ch_metadata := None;
                ch_contentSize := Some (Z.of_nat (length c));
                ch_contentHash := Some (generateContentHash sha256 c) |})
    | None => FILE_VERSIONS env
    end.
Proof.
  intros Hm Hne. unfold Versions.updateFileContent. rewrite Hm.
  destruct (Z.eqb_spec (Z.of_nat (length newContent)) 0) as [Hz|_].
  - destruct newContent; [done | cbn in Hz; lia].
  - cbn [fst]. destruct (FILE_CONTENT env !! content_key fileId); reflexivity.
Qed.

Lemma restoreFileVersion_versions now env fileId version user versionData currentMetadata :
  get_record env (version_key fileId version) = Some versionData ->
  getFileMetadata env fileId = Some currentMetadata ->
  FILE_VERSIONS (restoreFileVersion now env fileId version user).1
  = FILE_VERSIONS
      (createFileVersion now env currentMetadata user CTboth
         {| ch_metadata := Some (patch_of_metadata currentMetadata);
            ch_contentSize := Some (fm_size currentMetadata);
            ch_contentHash := None |}).
Proof.
  intros Hv Hm. unfold Versions.restoreFileVersion. rewrite Hv, Hm. cbn [fst].
  destruct (is_content_change _); destruct (is_metadata_change _);
    repeat match goal with
           | |- context [match ?x with Some _ => _ | None => _ end] => destruct x
           end; reflexivity.
Qed.

Lemma updateFileMetadata_preserves_bounded now env fileId user updateData :
  index_bounded env -> index_bounded (updateFileMetadata now env fileId user updateData).1.
Proof.
  intros Hinv. destruct (getFileMetadata env fileId) as [m|] eqn:Hm.
  - eapply index_bounded_ext; [by apply updateFileMetadata_versions|].
    by apply createFileVersion_preserves_bounded.
  - unfold Versions.updateFileMetadata. by rewrite Hm.
Qed.

Lemma updateFileContent_preserves_bounded now env fileId user newContent :
  index_bounded env -> index_bounded (updateFileContent now env fileId user newContent).1.
Proof.
  intros Hinv. destruct (getFileMetadata env fileId) as [m|] eqn:Hm.
  - destruct (decide (newContent = [])) as [->|Hne].
    + unfold Versions.updateFileContent. by rewrite Hm.
    + pose proof (updateFileContent_versions now env fileId user newContent m Hm Hne) as Heq.
      destruct (FILE_CONTENT env !! content_key fileId);
        (eapply index_bounded_ext; [exact Heq|]).
      * by apply createFileVersion_preserves_bounded.
      * exact Hinv.
  - unfold Versions.updateFileContent. by rewrite Hm.
Qed.

Lemma restoreFileVersion_preserves_bounded now env fileId version user :
  index_bounded env -> index_bounded (restoreFileVersion now env fileId version user).1.
Proof.
  intros Hinv. unfold Versions.restoreFileVersion.
  destruct (get_record env (version_key fileId version)) as [versionData|] eqn:Hv;
    [|exact Hinv].
  destruct (getFileMetadata env fileId) as [m|] eqn:Hm; [|exact Hinv].
  eapply index_bounded_ext.
  - rewrite <- (restoreFileVersion_versions now env fileId version user _ _ Hv Hm).
    unfold Versions.restoreFileVersion. rewrite Hv, Hm. reflexivity.
  - by apply createFileVersion_preserves_bounded.
Qed.

Lemma reachable_index_bounded env : reachable env -> index_bounded env.
Proof.
  induction 1 as [env Hempty| | | |env env' _ IH Heq].
  - intros fileId versionIndex. unfold get_index. rewrite Hempty, lookup_empty. discriminate.
  - by apply updateFileMetadata_preserves_bounded.
  - by apply updateFileContent_preserves_bounded.
  - by apply restoreFileVersion_preserves_bounded.
  - by eapply index_bounded_ext.
Qed.

(** *** The listing *)

Lemma length_omap_le {A B} (g : A -> option B) (l : list A) :
  (length (omap g l) <= length l)%nat.
Proof.
  induction l as [|x l IH]; [done|]. cbn. destruct (g x); cbn; lia.
Qed.

Lemma getFileVersions_length env fileId :
  (length (getFileVersions env fileId)
   <= length (default [] (get_index env (versions_key fileId))))%nat.
Proof.
  unfold getFileVersions. rewrite (Permutation_length (sort_perm _ _)).
  apply length_omap_le.
Qed.

Lemma getFileVersions_newest_first env fileId :
  StronglySorted (JS.desc_rel fv_timestamp) (getFileVersions env fileId).
Proof. apply sort_desc. Qed.

Lemma getFileVersions_from_index env fileId record :
  record ∈ getFileVersions env fileId ->
  exists n, n ∈ default [] (get_index env (versions_key fileId))
            /\ get_record env (version_key fileId n) = Some record.
Proof.
  unfold getFileVersions. rewrite sort_perm. by rewrite list_elem_of_omap.
Qed.

(** *** Metadata updates *)

Lemma file_key_ne_storage_usage_key fileId userId :
  storage_usage_key userId <> file_key fileId.
Proof. unfold storage_usage_key, file_key. cbn. discriminate. Qed.

Lemma updateFileMetadata_live_version now env fileId user updateData currentMetadata :
  getFileMetadata env fileId = Some currentMetadata ->
  fm_version <$> get_file (updateFileMetadata now env fileId user updateData).1 (file_key fileId)
  = Some (fm_version currentMetadata + 1).
Proof.
  intros Hm. unfold Versions.updateFileMetadata. rewrite Hm. cbn [fst].
  unfold get_file, updateUserStorageUsage. cbn [CDN_METADATA set_CDN_METADATA].
  rewrite lookup_insert_ne by apply file_key_ne_storage_usage_key.
  destruct (get_asset _ _) as [[value existingMeta]|];
    [destruct (bool_decide _)|]; cbn [CDN_METADATA set_CDN_METADATA set_CDN_CACHE];
    by rewrite lookup_insert_eq.
Qed.

(** Whatever the file and the update are, the version record that a
    metadata update writes carries the incoming update, not the metadata
    it replaces. *)
Lemma updateFileMetadata_records_update now env fileId user updateData currentMetadata :
  getFileMetadata env fileId = Some currentMetadata ->
  fm_version currentMetadata
    ∉ evicted (default [] (get_index env (versions_key (fm_id currentMetadata))))
              (fm_version currentMetadata) ->
  exists record,
    get_record (updateFileMetadata now env fileId user updateData).1
               (version_key (fm_id currentMetadata) (fm_version currentMetadata))
    = Some record
    /\ fv_version record = fm_version currentMetadata
    /\ fv_changeType record = CTmetadata
    /\ ch_metadata (fv_changes record) = Some updateData.
Proof.
  intros Hm Hkeep.
  exists (version_record now env currentMetadata user CTmetadata
            {| ch_metadata := Some updateData; ch_contentSize := None;
               ch_contentHash := None |}).
  split; [|by repeat split].
  unfold get_record. rewrite (updateFileMetadata_versions _ _ _ _ _ _ Hm).
  by apply createFileVersion_record.
Qed.

End CreateVersion.

(** C1. A metadata update of file [f1], whose current version is 3 and
    whose name is [report.txt], with the body [{name: "final.txt"}]: a
    version record numbered 3 with change type [metadata] is written and
    the live version becomes 4, but the [metadata] entry of the record is
    the incoming update, not the snapshot of the metadata before it. *)
Theorem updateFileMetadata_v3_record_holds_update (jsonSize : FileMetadata -> Z) :
  let current := sample_file "f1" "report.txt" 3 in
  let env' := (Versions.updateFileMetadata jsonSize 1000 env_v3 "f1" ann
                 (patch_rename "final.txt")).1 in
  getFileMetadata env_v3 "f1" = Some current
  /\ (exists record,
        get_record env' (version_key "f1" 3) = Some record
        /\ fv_version record = 3
        /\ fv_changeType record = CTmetadata
        /\ ch_metadata (fv_changes record) = Some (patch_rename "final.txt")
        /\ ch_metadata (fv_changes record) <> Some (patch_of_metadata current))
  /\ fm_version <$> getFileMetadata env' "f1" = Some 4.
Proof.
  split; [reflexivity|]. split; [|by vm_compute].
  eexists. split; [by vm_compute|]. by repeat split.
Qed.

(** C2. File [f1] gets new content once, which keeps version 1 as a
    content version and makes the live version 2.  Restoring version 1
    puts the old content back and answers [newVersion: 3], but the stored
    live version is still 2. *)
Theorem restore_content_version_keeps_live_version (jsonSize : FileMetadata -> Z) :
  let restored := Versions.restoreFileVersion jsonSize 20 env_after_content_update
                    "f1" 1 ann in
  fv_changeType <$> get_record env_after_content_update (version_key "f1" 1) = Some CTcontent
  /\ fm_version <$> getFileMetadata env_after_content_update "f1" = Some 2
  /\ res_body restored.2
     = BJson (JObj [("success", JBool true);
                    ("message", JStr "File restored to version 1");
                    ("fileId", JStr "f1");
                    ("restoredVersion", JNum 1);
                    ("newVersion", JNum 3)])
  /\ FILE_CONTENT restored.1 !! content_key "f1" = Some [x09; x09]%byte
  /\ fm_version <$> getFileMetadata restored.1 "f1" = Some 2.
Proof. repeat split; by vm_compute. Qed.

(** The same for every file and every content version: the metadata
    that [getFileMetadata] returns is the one from before the restore. *)
Lemma createFileVersion_keeps_metadata jsonSize now env metadata user changeType changes
    fileId :
  getFileMetadata (Versions.createFileVersion jsonSize now env metadata user changeType changes)
                  fileId
  = getFileMetadata env fileId.
Proof.
  unfold Versions.createFileVersion.
  destruct (index_includes _ _);
    destruct (if is_content_change changeType then _ else _); reflexivity.
Qed.

Lemma restore_content_version_metadata_unchanged jsonSize now env fileId version user
    versionData :
  get_record env (version_key fileId version) = Some versionData ->
  fv_changeType versionData = CTcontent ->
  getFileMetadata (Versions.restoreFileVersion jsonSize now env fileId version user).1 fileId
  = getFileMetadata env fileId.
Proof.
  intros Hv Hct. unfold Versions.restoreFileVersion. rewrite Hv.
  destruct (getFileMetadata env fileId) as [m|] eqn:Hm; [|exact Hm].
  rewrite Hct. cbn [is_metadata_change is_content_change fst].
  destruct (get_version_content _ _);
    [change (getFileMetadata (set_FILE_CONTENT ?f ?e) fileId) with (getFileMetadata e fileId)|];
    by rewrite createFileVersion_keeps_metadata.
Qed.

(** A metadata version is restored with a new number, for comparison. *)
Example restore_metadata_version_increments :
  let env1 := update_metadata 10 "f1" (patch_rename "final.txt") env_two_files in
  fm_version <$> getFileMetadata env1 "f1" = Some 2
  /\ fm_version
       <$> getFileMetadata (Versions.restoreFileVersion toy_jsonSize 20 env1 "f1" 1 ann).1 "f1"
     = Some 3.
Proof. split; by vm_compute. Qed.

(** A file served from the relational table: a metadata update moves the
    row to version 2 when the table takes the [UPDATE], and leaves the
    live version at 1 when it does not; a restore never touches the row. *)
Example database_file_versions :
  let edited := update_metadata 10 "f1" (patch_rename "final.txt") (env_database true) in
  fm_version <$> getFileMetadata edited "f1" = Some 2
  /\ fm_version
       <$> getFileMetadata (update_metadata 10 "f1" (patch_rename "final.txt")
                              (env_database false)) "f1" = Some 1
  /\ fm_version
       <$> getFileMetadata (Versions.restoreFileVersion toy_jsonSize 20 edited "f1" 1 ann).1 "f1"
     = Some 2.
Proof. repeat split; by vm_compute. Qed.

(** C7. On an existing file, a content update whose body is empty is
    answered 400 and returns the stores as they were: no version
    snapshot, no change of content, serving cache, metadata or version
    number.  With a non-empty body the version namespace is left alone
    when the file had no stored content, and otherwise it is what
    [createFileVersion] makes of it for a [content] change that carries
    the size and the hash of the prior content. *)
Theorem updateFileContent_empty_body_rejected (jsonSize : FileMetadata -> Z)
    (sha256 : list byte -> list byte) (now : Z) (env : Env) (fileId : string) (user : User)
    (currentMetadata : FileMetadata) :
  getFileMetadata env fileId = Some currentMetadata ->
  Versions.updateFileContent jsonSize sha256 now env fileId user []
  = (env, createErrorResponse now 400 "Content cannot be empty")
  /\
  (forall newContent, newContent <> [] ->
     let env' := (Versions.updateFileContent jsonSize sha256 now env fileId user newContent).1 in
     (FILE_CONTENT env !! content_key fileId = None ->
        FILE_VERSIONS env' = FILE_VERSIONS env)
     /\
     (forall priorContent, FILE_CONTENT env !! content_key fileId = Some priorContent ->
        FILE_VERSIONS env'
        = FILE_VERSIONS
            (Versions.createFileVersion jsonSize now env currentMetadata user CTcontent
               {| ch_metadata := None;
                  ch_contentSize := Some (Z.of_nat (length priorContent));
                  ch_contentHash := Some (generateContentHash sha256 priorContent) |}))).
Proof.
  intros Hm. split.
  - unfold Versions.updateFileContent. rewrite Hm. reflexivity.
  - intros newContent Hne env'. subst env'.
    rewrite (updateFileContent_versions jsonSize sha256 now env fileId user newContent
               currentMetadata Hm Hne).
    split.
    + intros Hnone. by rewrite Hnone.
    + intros priorContent Hsome. by rewrite Hsome.
Qed.

(** Without the assumption that the file exists: the stores are returned
    as they were, and the answer is 404 for a missing file, 400 otherwise. *)
Lemma updateFileContent_empty_body_no_mutation jsonSize sha256 now env fileId user :
  Versions.updateFileContent jsonSize sha256 now env fileId user []
  = (env, createErrorResponse now
            (match getFileMetadata env fileId with Some _ => 400 | None => 404 end)
            (match getFileMetadata env fileId with
             | Some _ => "Content cannot be empty"
             | None => "File not found"
             end)).
Proof.
  unfold Versions.updateFileContent. by destruct (getFileMetadata env fileId).
Qed.

Lemma updateFileContent_empty_body_rejected_witness :
  Versions.updateFileContent toy_jsonSize toy_sha256 20 env_after_content_update "f1" ann []
  = (env_after_content_update, createErrorResponse 20 400 "Content cannot be empty").
Proof.
  exact (proj1 (updateFileContent_empty_body_rejected toy_jsonSize toy_sha256 20
                  env_after_content_update "f1" ann
                  (with_modified_version
                     (with_size (sample_file "f1" "report.txt" 1) 3) 10 2)
                  eq_refl)).
Defined.

(** The content snapshot as a record: size and hash of the prior content. *)
Example content_update_snapshot :
  (fun r => (fv_version r, fv_changeType r, ch_contentSize (fv_changes r),
             ch_contentHash (fv_changes r)))
    <$> get_record env_after_content_update (version_key "f1" 1)
  = Some (1, CTcontent, Some 2,
          Some "0202020202020202020202020202020202020202020202020202020202020202").
Proof. by vm_compute. Qed.

(** Against C4: a store that the editing operations produce while the
    clock advances.  [f2] is edited three times, [f1] is given the id of
    [f2] by a metadata update and edited again; the listing of [f2] is then
    ordered 2, 3, 1, which is not descending by version number. *)
Lemma version_listing_not_descending_by_number :
  Versions.reachable toy_jsonSize toy_sha256 env_after_id_patch
  /\ fv_version <$> getFileVersions env_after_id_patch "f2" = [2; 3; 1]
  /\ ~ StronglySorted Z.gt (fv_version <$> getFileVersions env_after_id_patch "f2").
Proof.
  split; [|split].
  - unfold env_after_id_patch, update_metadata.
    do 5 apply reach_metadata. by apply reach_start.
  - exact listing_after_id_patch.
  - rewrite listing_after_id_patch. intros H.
    apply StronglySorted_inv in H as [_ H].
    apply Forall_inv in H. lia.
Qed.

(** C4, as the code has it.  In every store the service can reach, the
    version listing of a file has at most 50 entries and is ordered newest
    first by the timestamp of the records; the stored version index has at
    most 50 numbers and is strictly descending.  When a version number
    that is not yet in the index is recorded, the index becomes the 50
    largest numbers in descending order, and every number beyond them has
    lost both its version record and its content blob when
    [createFileVersion] returns. *)
Theorem version_listing_bounded_newest_first (jsonSize : FileMetadata -> Z)
    (sha256 : list byte -> list byte) :
  (forall env fileId,
     Versions.reachable jsonSize sha256 env ->
     (length (getFileVersions env fileId) <= 50)%nat
     /\ StronglySorted (fun a b => fv_timestamp b <= fv_timestamp a)
                       (getFileVersions env fileId)
     /\ (forall versionIndex,
           get_index env (versions_key fileId) = Some versionIndex ->
           (length versionIndex <= 50)%nat /\ StronglySorted Z.gt versionIndex))
  /\
  (forall now env metadata user changeType changes,
     let versionIndex := default [] (get_index env (versions_key (fm_id metadata))) in
     let sorted := sorted_index versionIndex (fm_version metadata) in
     let env' := Versions.createFileVersion jsonSize now env metadata user changeType changes in
     index_includes versionIndex (fm_version metadata) = false ->
     get_index env' (versions_key (fm_id metadata)) = Some (take 50 sorted)
     /\ forall old, old ∈ drop 50 sorted ->
          FILE_VERSIONS env' !! version_key (fm_id metadata) old = None
          /\ FILE_VERSIONS env' !! version_content_key (fm_id metadata) old = None).
Proof.
  split.
  - intros env fileId Hreach.
    pose proof (reachable_index_bounded _ _ _ Hreach) as Hinv.
    split; [|split].
    + etrans; [apply getFileVersions_length|].
      destruct (get_index env (versions_key fileId)) as [idx|] eqn:Hidx; cbn; [|lia].
      apply (Hinv _ _ Hidx).
    + apply getFileVersions_newest_first.
    + intros versionIndex Hidx. apply (Hinv _ _ Hidx).
  - intros now env metadata user changeType changes versionIndex sorted env' Hinc.
    split.
    + subst env'. rewrite createFileVersion_index. fold versionIndex. by rewrite Hinc.
    + intros old Hold. apply createFileVersion_evicts.
      fold versionIndex. unfold evicted. by rewrite Hinc.
Qed.

(** Fifty edits keep fifty versions; the fifty-first drops version 1 with
    its content blob. *)
Example fifty_first_version_evicts_oldest :
  get_index (env_after_edits 50) (versions_key "f1") = Some (Z.of_nat <$> reverse (seq 1 50))
  /\ is_Some (FILE_VERSIONS (env_after_edits 50) !! version_content_key "f1" 1)
  /\ get_index (env_after_edits 51) (versions_key "f1") = Some (Z.of_nat <$> reverse (seq 2 50))
  /\ FILE_VERSIONS (env_after_edits 51) !! version_key "f1" 1 = None
  /\ FILE_VERSIONS (env_after_edits 51) !! version_content_key "f1" 1 = None
  /\ length (getFileVersions (env_after_edits 51) "f1") = 50%nat.
Proof. repeat split; try by vm_compute. vm_compute. eauto. Qed.

Lemma version_listing_bounded_newest_first_witness :
  (length (getFileVersions env_after_id_patch "f2") <= 50)%nat
  /\ get_index (update_metadata 10 "f2" empty_patch env_two_files) (versions_key "f2")
     = Some [1].
Proof.
  destruct (version_listing_bounded_newest_first toy_jsonSize toy_sha256) as [Hlist Hevict].
  split.
  - refine (proj1 (Hlist env_after_id_patch "f2" _)).
    unfold env_after_id_patch, update_metadata.
    do 5 apply reach_metadata. by apply reach_start.
  - exact (proj1 (Hevict 10 env_two_files (sample_file "f2" "notes.txt" 1) ann CTmetadata
                    {| ch_metadata := Some empty_patch; ch_contentSize := None;
                       ch_contentHash := None |} eq_refl)).
Defined.

End VersionFacts.

(** * Further properties of the service *)

(** ** The persistent cache of the proxy *)

Section KVCacheFacts.
Import Store Proxy.

Variable sha256 : list byte -> list byte.
Variable toISOString : Z -> string.
Variable stringify : JVal -> list byte.

Local Abbreviation storeInKVCache := (Proxy.storeInKVCache stringify).
Local Abbreviation body_bytes := (Proxy.body_bytes stringify).
Local Abbreviation deserializeKVResponse := (Proxy.deserializeKVResponse toISOString).
Local Abbreviation optimizeWorkerResponse := (Proxy.optimizeWorkerResponse sha256 stringify).
Local Abbreviation forward := (Proxy.forward sha256 stringify).
Local Abbreviation handleWorkerProxyRequest :=
  (Proxy.handleWorkerProxyRequest sha256 toISOString stringify).
Local Abbreviation serve := (Proxy.serve sha256 toISOString stringify).

(** The record [storeInKVCache] keeps for a response. *)
Local Abbreviation cached_form now response :=
  {| cd_status := res_status response; cd_headers := res_headers response;
     cd_body := body_bytes (res_body response); cd_timestamp := now |}.

Lemma getWorkerCacheTTL_positive workerPath : 300 <= getWorkerCacheTTL workerPath <= 86400.
Proof.
  unfold getWorkerCacheTTL.
  repeat match goal with |- context [if ?b then _ else _] => destruct b end; lia.
Qed.

Lemma stored_entry_lookup now env key response workerPath :
  key <> stats_key ->
  let env' := (storeInKVCache now all_writes_ok env key response workerPath).1 in
  get_cache_meta env' key
    = Some {| cm_expires := now + getWorkerCacheTTL workerPath * 1000;
              cm_size := Z.of_nat (length (body_bytes (res_body response)));
              cm_workerPath := workerPath;
              cm_contentType :=
                JS.or_str (JS.header_get "content-type" (res_headers response)) "unknown" |}
  /\ get_cached_response env' key = Some (cached_form now response).
Proof.
  intros Hkey env'. subst env'.
  unfold Proxy.storeInKVCache, updateCacheStats, get_cache_meta, get_cached_response.
  cbn [cache_put_ok meta_put_ok stats_put_ok all_writes_ok andb fst
       CDN_METADATA CDN_CACHE set_CDN_METADATA set_CDN_CACHE].
  split.
  - rewrite lookup_insert_ne by (intros H; by symmetry in H).
    by rewrite lookup_insert_eq.
  - by rewrite lookup_insert_eq.
Qed.

Lemma getFromKVCache_fresh now t env key response workerPath :
  key <> stats_key ->
  t <= now + getWorkerCacheTTL workerPath * 1000 ->
  getFromKVCache t (storeInKVCache now all_writes_ok env key response workerPath).1 key
  = Some (cached_form now response).
Proof.
  intros Hkey Ht.
  destruct (stored_entry_lookup now env key response workerPath Hkey) as [Hmeta Hdata].
  unfold getFromKVCache. rewrite Hmeta, Hdata. cbn [cm_expires]. unfold isCacheExpired.
  destruct (Z.gtb_spec t (now + getWorkerCacheTTL workerPath * 1000)); [lia | reflexivity].
Qed.

(** X1. A response written to the persistent cache under a cache key is
    found again at every clock reading up to its expiry, [now] plus the
    TTL of the worker path, with the status, headers and body it was stored
    with; deserialized, it has that status and body and an [Age] header of
    the whole seconds elapsed.  After the expiry the lookup misses. *)
Theorem kv_cache_round_trip (now t : Z) (env : Env) (key : string) (response : Response)
    (workerPath : string) :
  key <> stats_key ->
  let env' := (storeInKVCache now all_writes_ok env key response workerPath).1 in
  let expires := now + getWorkerCacheTTL workerPath * 1000 in
  (t <= expires ->
     getFromKVCache t env' key = Some (cached_form now response)
     /\ forall data, getFromKVCache t env' key = Some data ->
          res_status (deserializeKVResponse t data) = res_status response
          /\ res_body (deserializeKVResponse t data)
             = BBytes (body_bytes (res_body response))
          /\ JS.header_get "Age" (res_headers (deserializeKVResponse t data))
             = Some (JS.num ((t - now) / 1000)))
  /\ (expires < t -> getFromKVCache t env' key = None).
Proof.
  intros Hkey env' expires.
  destruct (stored_entry_lookup now env key response workerPath Hkey) as [Hmeta Hdata].
  fold env' in Hmeta, Hdata.
  unfold getFromKVCache. rewrite Hmeta, Hdata. cbn [cm_expires]. fold expires.
  unfold isCacheExpired. split.
  - intros Hle. destruct (Z.gtb_spec t expires) as [?|_]; [lia|].
    split; [reflexivity|]. intros data [= <-].
    cbn [Proxy.deserializeKVResponse res_status res_body res_headers
         cd_status cd_body cd_timestamp cd_headers].
    repeat split.
    rewrite header_get_set_ne by (vm_compute; discriminate).
    apply header_get_set_eq.
  - intros Hgt. destruct (Z.gtb_spec t expires) as [_|?]; [reflexivity | lia].
Qed.

(** X2. The two records of an entry are written side by side; when the
    write of the expiry record fails for a key that has none, the entry is
    never served, at any clock reading, although its body may be stored. *)
Theorem kv_cache_entry_without_expiry_record_misses (now t : Z) (ok : WriteOracle)
    (env : Env) (key : string) (response : Response) (workerPath : string) :
  meta_put_ok ok = false ->
  get_cache_meta env key = None ->
  getFromKVCache t (storeInKVCache now ok env key response workerPath).1 key = None.
Proof.
  intros Hfail Hnone.
  unfold getFromKVCache, Proxy.storeInKVCache. rewrite Hfail, andb_false_r. cbn [fst].
  replace (get_cache_meta _ key) with (get_cache_meta env key); [by rewrite Hnone|].
  unfold get_cache_meta. by destruct (cache_put_ok ok).
Qed.

Lemma header_get_set_headers_last h v l response :
  JS.header_get h (res_headers (set_headers (l ++ [(h, v)]) response)) = Some v.
Proof.
  unfold set_headers. cbn [res_headers]. rewrite foldl_app. cbn [foldl fst snd].
  apply header_get_set_eq.
Qed.

Lemma optimizeWorkerResponse_etag response workerName workerPath request :
  JS.header_get "ETag"
    (res_headers (optimizeWorkerResponse response workerName workerPath request))
  = Some (generateETagFromBuffer sha256 (body_bytes (res_body response))).
Proof.
  unfold Proxy.optimizeWorkerResponse.
  pose proof (header_get_set_headers_last "ETag"
                (generateETagFromBuffer sha256 (body_bytes (res_body response)))
                (securityHeaders ++ getCORSHeaders
                 ++ [("X-Proxy-Worker", workerName); ("X-Proxy-Path", workerPath);
                     ("X-CDN-Proxy", "true")]) response) as H.
  rewrite <- !app_assoc in H. cbn [app] in H.
  destruct (decide _); exact H.
Qed.

(** X3. Conditional requests: whatever the worker answered, the optimized
    response carries the ETag of its body, and a request that presents
    that ETag in [If-None-Match] is answered 304 without a body and with
    the same ETag. *)
Theorem etag_revalidation (response : Response) (workerName workerPath : string)
    (request request' : Request) :
  forall etag,
    JS.header_get "ETag"
      (res_headers (optimizeWorkerResponse response workerName workerPath request))
    = Some etag ->
    JS.header_get "If-None-Match" (req_headers request') = Some etag ->
    let revalidated := optimizeWorkerResponse response workerName workerPath request' in
    res_status revalidated = 304
    /\ res_body revalidated = BNone
    /\ JS.header_get "ETag" (res_headers revalidated) = Some etag.
Proof.
  intros etag Hetag Hmatch revalidated.
  rewrite optimizeWorkerResponse_etag in Hetag. injection Hetag as <-.
  split; [|split]; [| |apply optimizeWorkerResponse_etag].
  - unfold revalidated, Proxy.optimizeWorkerResponse.
    destruct (decide _) as [_|Hne]; [reflexivity | by destruct Hne].
  - unfold revalidated, Proxy.optimizeWorkerResponse.
    destruct (decide _) as [_|Hne]; [reflexivity | by destruct Hne].
Qed.



(** X5. A request with another method than GET is always forwarded: no
    cache layer is consulted before the origin, and nothing is written to
    a cache afterwards, whatever the worker answers. *)
Theorem non_get_requests_bypass_the_caches (now : Z) (env : Env)
    (cache : gmap string Response) (workers : gmap string Worker) (request : Request)
    (pathname workerName workerPath bindingName : string) (workerBinding : Worker) :
  req_method request <> "GET" ->
  route pathname = Some (workerName, workerPath) ->
  workerBindings !! workerName = Some bindingName ->
  workers !! bindingName = Some workerBinding ->
  let out := run (handleWorkerProxyRequest now env cache workers request pathname) in
  layers out.2 = [LayerOrigin] /\ tasks out.2 = [].
Proof.
  intros Hne Hroute Hbinding Hworker out. subst out.
  unfold Proxy.handleWorkerProxyRequest, Proxy.resolve, run.
  rewrite Hroute, Hbinding, Hworker.
  destruct (String.eqb_spec (req_method request) "GET") as [?|_]; [done|].
  unfold Proxy.forward, mbind, eff_mbind, eff_bind, consult, spawn, eff_ret.
  destruct (workerBinding _) as [r|]; [|done].
  destruct (negb (is_ok r)); [done|].
  destruct (String.eqb_spec (req_method request) "GET") as [?|_]; [done|].
  done.
Qed.

Lemma header_get_cache_stamp status layer workerName response :
  JS.header_get "X-Cache-Status"
    (res_headers (set_headers (cache_stamp status layer workerName) response))
  = Some status.
Proof.
  unfold set_headers, cache_stamp. cbn [res_headers foldl fst snd].
  rewrite !header_get_set_ne by (vm_compute; discriminate).
  apply header_get_set_eq.
Qed.

(** X6. A first GET that misses both cache layers and is answered 200 by
    the worker fills the persistent cache once its background writes have
    gone through: a GET for the same path with the same request hash, at
    any clock reading up to the expiry, is answered from the persistent
    layer alone -- with the worker's status and body, marked KV-HIT,
    without consulting the edge cache or the origin and without starting
    any background work -- whatever the worker would answer by then. *)
Theorem miss_then_kv_hit (now t : Z) (env : Env) (cache : gmap string Response)
    (workers workers' : gmap string Worker) (request request' : Request)
    (pathname workerName workerPath bindingName : string)
    (workerBinding workerBinding' : Worker) (workerResponse : Response) :
  req_method request = "GET" ->
  route pathname = Some (workerName, workerPath) ->
  workerBindings !! workerName = Some bindingName ->
  workers !! bindingName = Some workerBinding ->
  workers' !! bindingName = Some workerBinding' ->
  getFromKVCache now env (cache_key_string request workerName workerPath) = None ->
  cache !! edge_cache_key request = None ->
  workerBinding
    {| req_method := req_method request;
       req_url := with_pathname (req_url request) workerPath;
       req_headers := req_headers request;
       req_body := req_body request |} = Some workerResponse ->
  res_status workerResponse = 200 ->
  JS.header_get "If-None-Match" (req_headers request)
    <> Some (generateETagFromBuffer sha256 (body_bytes (res_body workerResponse))) ->
  req_method request' = "GET" ->
  RequestHash.hashRequest request' = RequestHash.hashRequest request ->
  t <= now + getWorkerCacheTTL workerPath * 1000 ->
  let first := serve now all_writes_ok env cache workers request pathname in
  let second :=
    run (handleWorkerProxyRequest t first.2.1.1 first.2.1.2 workers' request' pathname) in
  layers second.2 = [LayerKV]
  /\ tasks second.2 = []
  /\ res_status second.1 = 200
  /\ res_body second.1 = BBytes (body_bytes (res_body workerResponse))
  /\ JS.header_get "X-Cache-Status" (res_headers second.1) = Some "KV-HIT"
  /\ JS.header_get "X-Cache-Status" (res_headers first.1) = Some "MISS".
Proof.
  intros Hget Hroute Hbinding Hworker Hworker' Hkv Hedge Hfetch Hstatus Hinm Hget' Hhash Ht
    first second.
  set (optimized := optimizeWorkerResponse workerResponse workerName workerPath request).
  set (stamped :=
         set_headers
           (("Cache-Control", "public, max-age=" +:+ JS.num (getWorkerCacheTTL workerPath))
            :: cache_stamp "MISS" "Origin" workerName) optimized).
  assert (Hopt : res_status optimized = 200
                 /\ res_body optimized = BBytes (body_bytes (res_body workerResponse))).
  { unfold optimized, Proxy.optimizeWorkerResponse.
    destruct (decide _) as [?|_]; [done|]. by split. }
  destruct Hopt as [Hopt_status Hopt_body].
  assert (Hforward : forall log,
             forward now workerBinding request workerName workerPath
               (cache_key_string request workerName workerPath) log
             = (stamped,
                {| layers := layers log ++ [LayerOrigin];
                   tasks := (tasks log ++ [TaskCachePut (edge_cache_key request) stamped])
                            ++ [TaskStoreKV (cache_key_string request workerName workerPath)
                                  stamped workerPath] |})).
  { intros log.
    unfold Proxy.forward, mbind, eff_mbind, eff_bind, consult, spawn, eff_ret.
    rewrite Hfetch. unfold is_ok. rewrite Hstatus. cbn [Z.leb Z.compare Pos.compare
      Pos.compare_cont andb negb].
    fold optimized. rewrite Hopt_status, Hget. reflexivity. }
  assert (Hfirst :
             first.1 = stamped
             /\ res_status stamped = 200
             /\ body_bytes (res_body stamped) = body_bytes (res_body workerResponse)
             /\ JS.header_get "X-Cache-Status" (res_headers stamped) = Some "MISS"
             /\ first.2.1.1
                = (storeInKVCache now all_writes_ok env
                     (cache_key_string request workerName workerPath) stamped workerPath).1).
  { subst first. unfold Proxy.serve, Proxy.handleWorkerProxyRequest, Proxy.resolve, run.
    rewrite Hroute, Hbinding, Hworker, Hget. cbn [String.eqb Ascii.eqb Bool.eqb].
    unfold mbind, eff_mbind, eff_bind, consult. rewrite Hkv, Hedge, Hforward.
    cbn [tasks app foldl settle_task edge_put_ok all_writes_ok fst snd].
    split; [reflexivity|]. split; [exact Hopt_status|].
    split; [unfold stamped; cbn [set_headers res_body]; by rewrite Hopt_body|].
    split; [|by destruct (storeInKVCache _ _ _ _ _ _)].
    unfold stamped.
    change (("Cache-Control", "public, max-age=" +:+ JS.num (getWorkerCacheTTL workerPath))
            :: cache_stamp "MISS" "Origin" workerName)
      with ([("Cache-Control", "public, max-age=" +:+ JS.num (getWorkerCacheTTL workerPath))]
            ++ cache_stamp "MISS" "Origin" workerName).
    unfold set_headers at 1. cbn [res_headers]. rewrite foldl_app.
    apply (header_get_cache_stamp "MISS" "Origin" workerName
             {| res_status := 0; res_headers := _; res_body := BNone |}). }
  clearbody stamped.
  destruct Hfirst as (Hresp & Hst & Hbody & Hmiss & Henv).
  pose proof (getFromKVCache_fresh now t env (cache_key_string request workerName workerPath)
                stamped workerPath (cache_key_string_ne_stats_key _ _ _) Ht) as Hlookup.
  rewrite <- Henv in Hlookup.
  assert (Hkey : cache_key_string request' workerName workerPath
                 = cache_key_string request workerName workerPath)
    by (unfold cache_key_string; by rewrite Hhash).
  subst second. unfold Proxy.handleWorkerProxyRequest, Proxy.resolve, run.
  rewrite Hroute, Hbinding, Hworker', Hget', Hkey. cbn [String.eqb Ascii.eqb Bool.eqb].
  unfold mbind, eff_mbind, eff_bind, consult, eff_ret. rewrite Hlookup.
  cbn [fst snd layers tasks app res_status res_body set_headers
       Proxy.deserializeKVResponse cd_status cd_body].
  rewrite Hst, Hbody, Hresp, Hmiss.
  repeat split.
  apply (header_get_cache_stamp "KV-HIT" "KV" workerName
           {| res_status := 0; res_headers := _; res_body := BNone |}).
Qed.

End KVCacheFacts.

Lemma kv_cache_round_trip_witness :
  Proxy.getFromKVCache 2000
    (Proxy.storeInKVCache Proxy.toy_stringify 1000 Proxy.all_writes_ok Store.empty_env
       "worker:auth:/v2/login:R0VU" Proxy.login_response "/v2/login").1
    "worker:auth:/v2/login:R0VU"
  = Some {| Store.cd_status := 200;
            Store.cd_headers := {[ "content-type" := "application/json" ]};
            Store.cd_body := [x7b; x7d]%byte;
            Store.cd_timestamp := 1000 |}.
Proof.
  refine (proj1 (proj1 (kv_cache_round_trip Proxy.toy_iso Proxy.toy_stringify 1000 2000
                          Store.empty_env "worker:auth:/v2/login:R0VU" Proxy.login_response
                          "/v2/login" _) _)).
  - discriminate.
  - vm_compute. discriminate.
Defined.

Lemma kv_cache_entry_without_expiry_record_misses_witness :
  Proxy.getFromKVCache 2000
    (Proxy.storeInKVCache Proxy.toy_stringify 1000
       {| Proxy.cache_put_ok := true; Proxy.meta_put_ok := false;
          Proxy.stats_put_ok := true; Proxy.edge_put_ok := true |}
       Store.empty_env "worker:auth:/v2/login:R0VU" Proxy.login_response "/v2/login").1
    "worker:auth:/v2/login:R0VU"
  = None.
Proof.
  apply kv_cache_entry_without_expiry_record_misses; reflexivity.
Defined.

Lemma etag_revalidation_witness :
  res_status (Proxy.optimizeWorkerResponse Proxy.toy_sha256 Proxy.toy_stringify
                Proxy.login_response "auth" "/v2/login" CacheKeys.login_revalidation) = 304.
Proof.
  refine (proj1 (etag_revalidation Proxy.toy_sha256 Proxy.toy_stringify Proxy.login_response
                   "auth" "/v2/login" Proxy.login_request CacheKeys.login_revalidation
                   (Proxy.dquote +:+ "2a2a2a2a2a2a2a2a" +:+ Proxy.dquote) _ _));
    vm_compute; reflexivity.
Defined.


Lemma non_get_requests_bypass_the_caches_witness :
  Proxy.layers
    (Proxy.run (Proxy.handleWorkerProxyRequest Proxy.toy_sha256 Proxy.toy_iso
                  Proxy.toy_stringify 1000 Store.empty_env Proxy.warm_edge
                  Proxy.sample_workers CacheKeys.login_post "/worker/auth/v2/login")).2
  = [Proxy.LayerOrigin].
Proof.
  refine (proj1 (non_get_requests_bypass_the_caches Proxy.toy_sha256 Proxy.toy_iso
                   Proxy.toy_stringify 1000 Store.empty_env Proxy.warm_edge
                   Proxy.sample_workers CacheKeys.login_post "/worker/auth/v2/login"
                   "auth" "/v2/login" "SMPWEB_2X_AUTH_WORKER" Proxy.auth_worker
                   _ eq_refl eq_refl eq_refl)).
  discriminate.
Defined.

(** The request of one client fills the cache; the request of another
    client for the same path, with other credentials, is answered from
    it. *)
Lemma miss_then_kv_hit_witness :
  let first :=
    Proxy.serve Proxy.toy_sha256 Proxy.toy_iso Proxy.toy_stringify 1000
      Proxy.all_writes_ok Store.empty_env CacheKeys.cold_edge Proxy.sample_workers
      CacheKeys.request_of_alice "/worker/auth/v2/account/profile" in
  let second :=
    Proxy.run (Proxy.handleWorkerProxyRequest Proxy.toy_sha256 Proxy.toy_iso
                 Proxy.toy_stringify 5000 first.2.1.1 first.2.1.2
                 CacheKeys.failing_workers
                 CacheKeys.request_of_bob "/worker/auth/v2/account/profile") in
  Proxy.layers second.2 = [Proxy.LayerKV] /\ res_status second.1 = 200.
Proof.
  intros first second.
  destruct (miss_then_kv_hit Proxy.toy_sha256 Proxy.toy_iso Proxy.toy_stringify 1000 5000
              Store.empty_env CacheKeys.cold_edge Proxy.sample_workers
              CacheKeys.failing_workers
              CacheKeys.request_of_alice CacheKeys.request_of_bob
              "/worker/auth/v2/account/profile" "auth" "/v2/account/profile"
              "SMPWEB_2X_AUTH_WORKER" Proxy.auth_worker CacheKeys.failing_worker
              Proxy.login_response
              eq_refl eq_refl eq_refl eq_refl eq_refl eq_refl eq_refl eq_refl
              eq_refl ltac:(vm_compute; discriminate) eq_refl ltac:(vm_compute; reflexivity)
              ltac:(vm_compute; discriminate))
    as (Hlayers & _ & Hstatus & _).
  split; [exact Hlayers | exact Hstatus].
Defined.

(** ** Request hashes *)

Section CacheKeyFacts.
Import RequestHash CacheKeys.

Lemma append_cons c (a b : string) : String c a +:+ b = String c (a +:+ b).
Proof. reflexivity. Qed.

Lemma filter_string_app p a b :
  JS.filter_string p (a +:+ b) = JS.filter_string p a +:+ JS.filter_string p b.
Proof.
  induction a as [|c a IH]; [reflexivity|].
  change (String c a +:+ b) with (String c (a +:+ b)). cbn [JS.filter_string].
  destruct (p c); [|exact IH].
  change (String c (JS.filter_string p a) +:+ JS.filter_string p b)
    with (String c (JS.filter_string p a +:+ JS.filter_string p b)).
  by rewrite IH.
Qed.

Lemma filter_string_idem p s : JS.filter_string p (JS.filter_string p s) = JS.filter_string p s.
Proof.
  induction s as [|c s IH]; cbn; [reflexivity|].
  destruct (p c) eqn:Hc; cbn; [rewrite Hc; by rewrite IH | exact IH].
Qed.

Lemma filter_string_take p n s :
  JS.filter_string p s = s -> JS.filter_string p (JS.take_string n s) = JS.take_string n s.
Proof.
  revert n. induction s as [|c s IH]; intros [|n] Hs; cbn; try reflexivity.
  cbn in Hs. destruct (p c) eqn:Hc.
  - injection Hs as Hs. by rewrite IH.
  - exfalso. assert (Hlen : (String.length (JS.filter_string p s) <= String.length s)%nat).
    { clear. induction s as [|d s IH]; cbn; [lia|]. destruct (p d); cbn; lia. }
    rewrite Hs in Hlen. cbn in Hlen. lia.
Qed.

Lemma length_take_string n s : (String.length (JS.take_string n s) <= n)%nat.
Proof. revert s. induction n as [|n IH]; intros [|c s]; cbn; try lia. specialize (IH s). lia. Qed.

Lemma take_string_app n a b :
  (n <= String.length a)%nat -> JS.take_string n (a +:+ b) = JS.take_string n a.
Proof.
  revert a. induction n as [|n IH]; intros [|c a] Hn; simpl in *; try reflexivity; try lia.
  rewrite IH by lia. reflexivity.
Qed.

Lemma take_drop_string n s : JS.take_string n s +:+ JS.drop_string n s = s.
Proof.
  revert s. induction n as [|n IH]; intros [|c s]; simpl; try reflexivity.
  by rewrite append_cons, IH.
Qed.

Lemma length_take_string_le n s :
  (n <= String.length s)%nat -> String.length (JS.take_string n s) = n.
Proof.
  revert s. induction n as [|n IH]; intros [|c s] Hn; cbn in *; try reflexivity; try lia.
  rewrite IH by lia. reflexivity.
Qed.

(** [btoa] encodes whole groups of three characters independently of
    what follows them. *)
Lemma btoa_app_groups k p rest :
  String.length p = (3 * k)%nat -> btoa (p +:+ rest) = btoa p +:+ btoa rest.
Proof.
  revert p. induction k as [|k IH]; intros p Hlen.
  - destruct p; [reflexivity | cbn in Hlen; lia].
  - destruct p as [|a [|b [|c p]]]; cbn in Hlen; try lia.
    change (btoa (String a (String b (String c (p +:+ rest))))
            = btoa (String a (String b (String c p))) +:+ btoa rest).
    cbn [btoa]. rewrite (IH p) by lia. reflexivity.
Qed.

Lemma hashed_text request :
  hashRequest request
  = JS.take_string 32
      (JS.filter_string JS.is_alnum
         (btoa (request_line request
                +:+ JS.join ":" (map (fun h => JS.or_str (JS.header_get h (req_headers request)) "")
                                     relevantHeaders)))).
Proof.
  unfold hashRequest, request_line, JS.substring. cbn [JS.drop_string Nat.sub].
  rewrite !string_append_assoc. reflexivity.
Qed.

(** X7. The hash of a request is made of at most 32 characters, all of
    them letters or digits: none of [+], [/] and [=] of the base-64 text
    survives. *)
Theorem hashRequest_shape (request : Request) :
  (String.length (hashRequest request) <= 32)%nat
  /\ JS.filter_string JS.is_alnum (hashRequest request) = hashRequest request
  /\ JS.exists_string (fun c => negb (JS.is_alnum c)) (hashRequest request) = false.
Proof.
  rewrite hashed_text. split; [apply length_take_string|].
  assert (H : forall n s, let h := JS.take_string n (JS.filter_string JS.is_alnum s) in
              JS.filter_string JS.is_alnum h = h).
  { intros n s h. apply filter_string_take, filter_string_idem. }
  split; [apply H|].
  specialize (H 32%nat (btoa (request_line request
                +:+ JS.join ":" (map (fun h => JS.or_str (JS.header_get h (req_headers request)) "")
                                     relevantHeaders)))).
  cbv zeta in H. revert H. generalize (JS.take_string 32 (JS.filter_string JS.is_alnum
    (btoa (request_line request
           +:+ JS.join ":" (map (fun h => JS.or_str (JS.header_get h (req_headers request)) "")
                                relevantHeaders))))).
  intros h. induction h as [|c h IH]; cbn; [reflexivity|].
  destruct (JS.is_alnum c) eqn:Hc; intros Hh.
  - injection Hh as Hh. cbn. by apply IH.
  - exfalso. assert (Hlen : (String.length (JS.filter_string JS.is_alnum h)
                              <= String.length h)%nat).
    { clear. induction h as [|d h IH]; cbn; [lia|]. destruct (JS.is_alnum d); cbn; lia. }
    rewrite Hh in Hlen. cbn in Hlen. lia.
Qed.

(** X8. Only the first 32 letters and digits of the base-64 text are kept,
    and base 64 encodes a text group by group: when the whole groups of
    [method:path+query:] alone yield 32 letters and digits, the hash is
    fixed by the method, the path and the query.  Two such requests have
    the same hash whatever their [Authorization], [Accept] and
    [Accept-Language] headers are. *)
Theorem hashRequest_saturated_by_request_line (r1 r2 : Request) :
  request_line r1 = request_line r2 ->
  saturated (request_line r1) = true ->
  hashRequest r1 = hashRequest r2.
Proof.
  intros Hline Hsat.
  assert (H : forall line values,
             saturated line = true ->
             JS.take_string 32 (JS.filter_string JS.is_alnum (btoa (line +:+ values)))
             = JS.take_string 32 (JS.filter_string JS.is_alnum (btoa (aligned_prefix line)))).
  { intros line values Hs. unfold saturated in Hs. apply Nat.leb_le in Hs.
    rewrite <- (take_drop_string (3 * (String.length line / 3)) line) at 1.
    fold (aligned_prefix line). rewrite string_append_assoc.
    rewrite (btoa_app_groups (String.length line / 3) (aligned_prefix line)).
    - rewrite filter_string_app. by apply take_string_app.
    - unfold aligned_prefix. apply length_take_string_le.
      pose proof (Nat.div_mod_eq (String.length line) 3). lia. }
  rewrite !hashed_text, <- Hline. rewrite !H by exact Hsat. reflexivity.
Qed.

End CacheKeyFacts.

Lemma hashRequest_saturated_by_request_line_witness :
  RequestHash.hashRequest CacheKeys.request_of_alice
  = RequestHash.hashRequest CacheKeys.request_of_bob.
Proof.
  apply hashRequest_saturated_by_request_line; vm_compute; reflexivity.
Defined.

(** ** Range requests, continued *)

Section RangeParsing.
Import RangeRequests.

Local Abbreviation is_dash := (fun c : ascii => Ascii.eqb c "-").

Lemma exists_string_rev_app p a b :
  JS.exists_string p (String.rev_app a b) = JS.exists_string p a || JS.exists_string p b.
Proof.
  revert b. induction a as [|c a IH]; intros b; [reflexivity|].
  change (String.rev_app (String c a) b) with (String.rev_app a (String c b)).
  rewrite IH. change (JS.exists_string p (String c b)) with (p c || JS.exists_string p b).
  change (JS.exists_string p (String c a)) with (p c || JS.exists_string p a).
  destruct (p c), (JS.exists_string p a), (JS.exists_string p b); reflexivity.
Qed.

(** No part that [split] returns holds the separator. *)
Lemma split_go_parts sep cur s :
  JS.exists_string (fun c => Ascii.eqb c sep) cur = false ->
  Forall (fun part => JS.exists_string (fun c => Ascii.eqb c sep) part = false)
         (JS.split_go sep cur s).
Proof.
  revert cur. induction s as [|c s IH]; intros cur Hcur.
  - constructor; [|constructor]. unfold String.rev.
    by rewrite exists_string_rev_app, Hcur.
  - change (JS.split_go sep cur (String c s))
      with (if Ascii.eqb c sep then String.rev cur :: JS.split_go sep EmptyString s
            else JS.split_go sep (String c cur) s).
    destruct (Ascii.eqb c sep) eqn:Hc.
    + constructor; [|by apply IH]. unfold String.rev.
      by rewrite exists_string_rev_app, Hcur.
    + apply IH. change (JS.exists_string (fun c => Ascii.eqb c sep) (String c cur))
        with (Ascii.eqb c sep || JS.exists_string (fun c => Ascii.eqb c sep) cur).
      by rewrite Hc, Hcur.
Qed.

Lemma split_parts sep s i part :
  JS.split sep s !! i = Some part ->
  JS.exists_string (fun c => Ascii.eqb c sep) part = false.
Proof.
  intros Hi. pose proof (split_go_parts sep EmptyString s eq_refl) as H.
  rewrite Forall_lookup in H. exact (H i part Hi).
Qed.

(** A text without separator is its own single part. *)
Lemma split_go_whole sep cur s :
  JS.exists_string (fun c => Ascii.eqb c sep) s = false ->
  JS.split_go sep cur s = [String.rev_app cur s].
Proof.
  revert cur. induction s as [|c s IH]; intros cur Hs; [reflexivity|].
  change (JS.exists_string (fun c => Ascii.eqb c sep) (String c s))
    with (Ascii.eqb c sep || JS.exists_string (fun c => Ascii.eqb c sep) s) in Hs.
  apply orb_false_elim in Hs as [Hc Hs].
  change (JS.split_go sep cur (String c s))
    with (if Ascii.eqb c sep then String.rev cur :: JS.split_go sep EmptyString s
          else JS.split_go sep (String c cur) s).
  rewrite Hc. rewrite IH by exact Hs. reflexivity.
Qed.

Lemma digits_go_nonneg acc s n :
  (forall a, acc = Some a -> 0 <= a) -> JS.digits_go acc s = Some n -> 0 <= n.
Proof.
  revert acc. induction s as [|c s IH]; intros acc Hacc Hn.
  - exact (Hacc n Hn).
  - change (JS.digits_go acc (String c s))
      with (if JS.is_digit c
            then JS.digits_go (Some (10 * default 0 acc + (JS.code c - 48))) s
            else acc) in Hn.
    destruct (JS.is_digit c) eqn:Hc; [|exact (Hacc n Hn)].
    refine (IH _ _ Hn). intros a [= <-].
    unfold JS.is_digit, JS.in_range in Hc. apply andb_prop in Hc as [Hlo _].
    apply Z.leb_le in Hlo. change (JS.code "0") with 48 in Hlo.
    assert (0 <= default 0 acc) by (destruct acc as [a|]; [by apply Hacc | done]).
    lia.
Qed.

Lemma skip_spaces_no_dash s :
  JS.exists_string is_dash s = false -> JS.exists_string is_dash (JS.skip_spaces s) = false.
Proof.
  induction s as [|c s IH]; intros Hs; [exact Hs|].
  change (JS.skip_spaces (String c s))
    with (if JS.is_js_space c then JS.skip_spaces s else String c s).
  destruct (JS.is_js_space c); [|exact Hs].
  apply IH. change (JS.exists_string is_dash (String c s))
    with (Ascii.eqb c "-" || JS.exists_string is_dash s) in Hs.
  by apply orb_false_elim in Hs as [_ Hs].
Qed.

Lemma parseInt_cases s :
  JS.parseInt s
  = match JS.skip_spaces s with
    | String c s' =>
        if Ascii.eqb c "-" then Z.opp <$> JS.digits_go None s'
        else if Ascii.eqb c "+" then JS.digits_go None s'
        else JS.digits_go None (String c s')
    | EmptyString => JS.digits_go None EmptyString
    end.
Proof.
  unfold JS.parseInt. destruct (JS.skip_spaces s) as [|c s']; [reflexivity|].
  destruct c as [[] [] [] [] [] [] [] []]; reflexivity.
Qed.

(** A text without minus sign never parses to a negative number. *)
Lemma parseInt_no_dash s n :
  JS.exists_string is_dash s = false -> JS.parseInt s = Some n -> 0 <= n.
Proof.
  intros Hs Hn. rewrite parseInt_cases in Hn. apply skip_spaces_no_dash in Hs.
  destruct (JS.skip_spaces s) as [|c s']; [discriminate|].
  change (JS.exists_string is_dash (String c s'))
    with (Ascii.eqb c "-" || JS.exists_string is_dash s') in Hs.
  apply orb_false_elim in Hs as [Hc _]. rewrite Hc in Hn.
  destruct (Ascii.eqb c "+"); by eapply digits_go_nonneg; [|exact Hn].
Qed.

Lemma range_part_nonneg rangeHeader i d :
  0 <= d -> 0 <= JS.or_num (JS.parseInt_opt (range_parts rangeHeader !! i)) d.
Proof.
  intros Hd. unfold range_parts.
  destruct (JS.split "-" _ !! i) as [part|] eqn:Hpart; [|exact Hd].
  apply split_parts in Hpart.
  unfold JS.parseInt_opt, JS.or_num.
  destruct (JS.parseInt part) as [n|] eqn:Hn; [|exact Hd].
  destruct (n =? 0); [exact Hd|]. by eapply parseInt_no_dash.
Qed.

Lemma range_start_nonneg rangeHeader : 0 <= range_start rangeHeader.
Proof. apply range_part_nonneg. lia. Qed.

Lemma range_end_nonneg rangeHeader fileSize :
  0 < fileSize -> 0 <= range_end rangeHeader fileSize.
Proof. intros H. apply range_part_nonneg. lia. Qed.

(** X9. The header is cut at its minus signs before its numbers are read,
    so neither bound is ever negative: whatever the [Range] header says,
    a 206 answer is for a range with [0 <= start < fileSize] and
    [0 <= end < fileSize], and an empty body is always answered 416. *)
Theorem range_bounds_never_negative (body : list byte) (rangeHeader : string)
    (headers : gmap string string) (contentType : string) :
  let fileSize := Z.of_nat (length body) in
  let r := handleRangeRequest body rangeHeader headers contentType in
  0 <= range_start rangeHeader
  /\ (res_status r = 206 \/ res_status r = 416)
  /\ (res_status r = 206 ->
        0 <= range_start rangeHeader < fileSize
        /\ 0 <= range_end rangeHeader fileSize < fileSize)
  /\ (body = [] -> res_status r = 416).
Proof.
  intros fileSize r. pose proof (range_start_nonneg rangeHeader) as Hstart.
  split; [exact Hstart|]. subst r. unfold handleRangeRequest. fold fileSize.
  destruct (Z.geb_spec (range_start rangeHeader) fileSize) as [Hs|Hs];
    destruct (Z.geb_spec (range_end rangeHeader fileSize) fileSize) as [He|He];
    cbn [orb res_status]; (split; [auto|]); (split; [try discriminate|]).
  - intros ->. reflexivity.
  - intros ->. reflexivity.
  - intros ->. reflexivity.
  - intros _. pose proof (range_end_nonneg rangeHeader fileSize). lia.
  - intros ->. cbn in fileSize. lia.
Qed.

(** X10. A range whose end lies before its start is not refused: with the
    start inside the body the answer is 206 with an empty body, and its
    [Content-Length] header is the non-positive number [end - start + 1]. *)
Theorem inverted_range_is_served_empty (body : list byte) (rangeHeader : string)
    (headers : gmap string string) (contentType : string) :
  let fileSize := Z.of_nat (length body) in
  let start := range_start rangeHeader in
  let end_ := range_end rangeHeader fileSize in
  let r := handleRangeRequest body rangeHeader headers contentType in
  end_ < start -> start < fileSize ->
  res_status r = 206
  /\ res_body r = BBytes []
  /\ JS.header_get "Content-Length" (res_headers r) = Some (JS.num (end_ - start + 1))
  /\ end_ - start + 1 <= 0.
Proof.
  intros fileSize start end_ r Hinv Hin. subst r. unfold handleRangeRequest.
  fold fileSize. fold start. fold end_.
  pose proof (range_start_nonneg rangeHeader) as Hstart. fold start in Hstart.
  pose proof (range_end_nonneg rangeHeader fileSize ltac:(lia)) as Hend. fold end_ in Hend.
  destruct (Z.geb_spec start fileSize); [lia|].
  destruct (Z.geb_spec end_ fileSize); [lia|].
  cbn [orb res_status res_body res_headers].
  split; [reflexivity|]. split; [|split; [|lia]].
  - f_equal. unfold JS.slice, JS.clamp_index. fold fileSize.
    destruct (Z.ltb_spec start 0); [lia|]. destruct (Z.ltb_spec (end_ + 1) 0); [lia|].
    replace (Z.to_nat (Z.min (end_ + 1) fileSize - Z.min start fileSize)) with 0%nat by lia.
    reflexivity.
  - rewrite header_get_set_ne by (vm_compute; discriminate).
    apply header_get_set_eq.
Qed.

(** X11. A suffix range, [bytes=-N], is not read as the last [N] bytes:
    the empty text before the minus sign makes the start 0, and [N] is
    read as the end.  For [0 < N < fileSize] the answer is 206 with the
    first [N + 1] bytes of the body. *)
Theorem suffix_range_is_served_from_the_start (body : list byte) (digits : string) (n : Z)
    (headers : gmap string string) (contentType : string) :
  let fileSize := Z.of_nat (length body) in
  let r := handleRangeRequest body ("bytes=-" +:+ digits) headers contentType in
  JS.filter_string JS.is_digit digits = digits ->
  JS.parseInt digits = Some n ->
  0 < n < fileSize ->
  res_status r = 206
  /\ res_body r = BBytes (take (Z.to_nat (n + 1)) body)
  /\ JS.header_get "Content-Range" (res_headers r)
     = Some ("bytes 0-" +:+ JS.num n +:+ "/" +:+ JS.num fileSize).
Proof.
  intros fileSize r Hdigits Hn Hrange.
  assert (Hnodash : JS.exists_string is_dash digits = false).
  { clear -Hdigits. induction digits as [|c s IH]; [reflexivity|].
    change (JS.filter_string JS.is_digit (String c s))
      with (if JS.is_digit c then String c (JS.filter_string JS.is_digit s)
            else JS.filter_string JS.is_digit s) in Hdigits.
    change (JS.exists_string is_dash (String c s))
      with (Ascii.eqb c "-" || JS.exists_string is_dash s).
    destruct (JS.is_digit c) eqn:Hc.
    - injection Hdigits as Hs. rewrite (IH Hs), orb_false_r.
      destruct (Ascii.eqb_spec c "-") as [->|]; [discriminate Hc | reflexivity].
    - exfalso.
      assert (Hlen : forall t, (String.length (JS.filter_string JS.is_digit t)
                                <= String.length t)%nat).
      { clear. induction t as [|d t IH]; cbn; [lia|]. destruct (JS.is_digit d); cbn; lia. }
      specialize (Hlen s). rewrite Hdigits in Hlen. cbn in Hlen. lia. }
  assert (Hparts : range_parts ("bytes=-" +:+ digits) = [""; digits]).
  { unfold range_parts.
    change (JS.remove_first "bytes=" ("bytes=-" +:+ digits)) with (String "-" digits).
    unfold JS.split.
    change (JS.split_go "-" "" (String "-" digits))
      with (String.rev "" :: JS.split_go "-" "" digits).
    rewrite split_go_whole by exact Hnodash. reflexivity. }
  assert (Hstart : range_start ("bytes=-" +:+ digits) = 0)
    by (unfold range_start; rewrite Hparts; reflexivity).
  assert (Hend : range_end ("bytes=-" +:+ digits) fileSize = n).
  { unfold range_end. rewrite Hparts. cbn [lookup list_lookup JS.parseInt_opt].
    rewrite Hn. unfold JS.or_num. destruct (Z.eqb_spec n 0); [lia | reflexivity]. }
  subst r. unfold handleRangeRequest. fold fileSize. rewrite Hstart, Hend.
  destruct (Z.geb_spec 0 fileSize); [lia|]. destruct (Z.geb_spec n fileSize); [lia|].
  cbn [orb res_status res_body res_headers].
  split; [reflexivity|]. split.
  - f_equal. rewrite slice_inside by lia. rewrite Z.sub_0_r. reflexivity.
  - rewrite !header_get_set_ne by (vm_compute; discriminate).
    rewrite header_get_set_eq. reflexivity.
Qed.

End RangeParsing.

Lemma inverted_range_is_served_empty_witness :
  res_status (RangeRequests.handleRangeRequest RangeRequests.ten_bytes "bytes=5-2" ∅
                "video/mp4") = 206
  /\ res_body (RangeRequests.handleRangeRequest RangeRequests.ten_bytes "bytes=5-2" ∅
                 "video/mp4") = BBytes [].
Proof.
  destruct (inverted_range_is_served_empty RangeRequests.ten_bytes "bytes=5-2" ∅ "video/mp4")
    as (Hstatus & Hbody & _); [vm_compute; reflexivity | vm_compute; reflexivity |].
  split; [exact Hstatus | exact Hbody].
Defined.

Lemma suffix_range_is_served_from_the_start_witness :
  res_body (RangeRequests.handleRangeRequest RangeRequests.ten_bytes "bytes=-3" ∅
              "video/mp4") = BBytes [x00; x01; x02; x03]%byte.
Proof.
  refine (proj1 (proj2 (suffix_range_is_served_from_the_start RangeRequests.ten_bytes "3" 3 ∅
                          "video/mp4" _ _ _))).
  - reflexivity.
  - reflexivity.
  - vm_compute. split; reflexivity.
Defined.

(** ** The upload list of a user *)

Section UploadListFacts.
Import Store Uploads UserUploads.

Lemma user_uploads_key_inj userId userId' :
  user_uploads_key userId = user_uploads_key userId' -> userId = userId'.
Proof. unfold user_uploads_key. apply String.app_inj. Qed.

Lemma removeFromUserUploads_stored env userId fileId :
  get_uploads (removeFromUserUploads env userId fileId) (user_uploads_key userId)
  = Some (filter (fun u => um_storagePath (tu_meta u) <> fileId /\ um_path (tu_meta u) <> fileId)
                 (default [] (get_uploads env (user_uploads_key userId)))).
Proof. unfold removeFromUserUploads, get_uploads at 1. cbn. by rewrite lookup_insert_eq. Qed.

Lemma filter_all {A} (P : A -> Prop) `{forall a, Decision (P a)} l :
  Forall P l -> filter P l = l.
Proof.
  induction 1 as [|y l Hy _ IH]; [reflexivity|]. rewrite filter_cons_True by done.
  by rewrite IH.
Qed.

(** X12. Removing a file from the upload list of a user leaves a list
    that holds exactly the previous entries whose storage path and
    display path both differ from the file id, in their previous order;
    the lists of other users are not touched; removing the same file
    again changes nothing. *)
Theorem removeFromUserUploads_effect (env : Env) (userId fileId : string) :
  let before := default [] (get_uploads env (user_uploads_key userId)) in
  let env' := removeFromUserUploads env userId fileId in
  exists after,
    get_uploads env' (user_uploads_key userId) = Some after
    /\ (forall u, u ∈ after <->
                  u ∈ before /\ um_storagePath (tu_meta u) <> fileId
                  /\ um_path (tu_meta u) <> fileId)
    /\ sublist after before
    /\ (forall userId', userId' <> userId ->
          get_uploads env' (user_uploads_key userId')
          = get_uploads env (user_uploads_key userId'))
    /\ removeFromUserUploads env' userId fileId = env'.
Proof.
  intros before env'.
  exists (filter (fun u => um_storagePath (tu_meta u) <> fileId /\ um_path (tu_meta u) <> fileId)
                 before).
  split; [apply removeFromUserUploads_stored|].
  split; [intros u; rewrite list_elem_of_filter; tauto|].
  split; [apply sublist_filter|].
  split.
  - intros userId' Hne. unfold env', removeFromUserUploads, get_uploads. cbn.
    rewrite lookup_insert_ne; [reflexivity|].
    intros H. apply user_uploads_key_inj in H. congruence.
  - subst env'. unfold removeFromUserUploads at 1.
    rewrite removeFromUserUploads_stored. fold before. cbn [default].
    unfold removeFromUserUploads. fold before.
    unfold set_CDN_METADATA. cbn. f_equal. rewrite insert_insert_eq. do 2 f_equal.
    rewrite filter_all; [reflexivity|].
    apply Forall_forall. intros u Hu. by apply list_elem_of_filter in Hu as [? _].
Qed.

Lemma sort_snoc {A} (cmp : A -> A -> Z) l x :
  JS.sort cmp (l ++ [x]) = JS.insert_sorted cmp x (JS.sort cmp l).
Proof. unfold JS.sort. by rewrite foldl_app. Qed.

Lemma insert_sorted_last {A} (cmp : A -> A -> Z) l x :
  Forall (fun y => cmp y x <= 0) l -> JS.insert_sorted cmp x l = l ++ [x].
Proof.
  induction 1 as [|y l Hy _ IH]; [reflexivity|].
  cbn [JS.insert_sorted]. destruct (Z.leb_spec (cmp y x) 0); [|lia]. by rewrite IH.
Qed.

(** Sorting a list that is in order already gives the list itself. *)
Lemma sort_sorted {A} (f : A -> Z) l :
  StronglySorted (JS.desc_rel f) l -> JS.sort (JS.desc_by f) l = l.
Proof.
  induction l as [|x l IH] using rev_ind; intros Hs; [reflexivity|].
  rewrite sort_snoc, IH by exact (StronglySorted_app_1_l _ _ _ Hs).
  apply insert_sorted_last. apply Forall_forall. intros y Hy.
  pose proof (StronglySorted_app_1_elem_of _ _ _ y x Hs Hy ltac:(by left)) as Hall.
  unfold JS.desc_rel in Hall. unfold JS.desc_by. lia.
Qed.

Lemma filter_insert_sorted {A} (cmp : A -> A -> Z) (P : A -> Prop)
    `{forall a, Decision (P a)} x l :
  ~ P x -> filter P (JS.insert_sorted cmp x l) = filter P l.
Proof.
  intros Hx. induction l as [|y l IH]; cbn [JS.insert_sorted].
  - by rewrite filter_cons_False.
  - destruct (cmp y x <=? 0).
    + destruct (decide (P y)); [rewrite !filter_cons_True by done; by rewrite IH|].
      rewrite !filter_cons_False by done. exact IH.
    + by rewrite filter_cons_False.
Qed.

(** X13. Tracking an upload and removing it again by its storage path
    gives back the store as it was, when the list of the user was in
    order (newest first), held fewer than 1000 entries and none under
    that path. *)
Theorem track_then_remove_restores_the_list (env : Env) (userId : string)
    (fileMetadata : UploadMeta) (existing : list TrackedUpload) :
  CDN_METADATA env !! user_uploads_key userId = Some (MVUploads existing) ->
  StronglySorted (JS.desc_rel tu_createdAt) existing ->
  (length existing < 1000)%nat ->
  Forall (fun u => um_storagePath (tu_meta u) <> um_storagePath fileMetadata
                   /\ um_path (tu_meta u) <> um_storagePath fileMetadata) existing ->
  removeFromUserUploads (trackUserUpload env userId fileMetadata) userId
    (um_storagePath fileMetadata)
  = env.
Proof.
  intros Hstored Hsorted Hlen Hfresh.
  assert (Hget : get_uploads env (user_uploads_key userId) = Some existing)
    by (unfold get_uploads; by rewrite Hstored).
  unfold removeFromUserUploads. rewrite trackUserUpload_stored, Hget. cbn [default id].
  rewrite recentUploads_take, sort_snoc, (sort_sorted _ _ Hsorted).
  rewrite take_ge
    by (rewrite (Permutation_length (insert_sorted_perm _ _ _)); cbn [length]; lia).
  rewrite filter_insert_sorted by (cbn; tauto).
  rewrite (filter_all _ _ Hfresh).
  unfold trackUserUpload, set_CDN_METADATA. cbn.
  destruct env as [cache metadata versions content db]. cbn in *.
  f_equal. rewrite insert_insert_eq. by apply insert_id.
Qed.

Lemma slice_nonneg {A} (l : list A) (b e : Z) :
  0 <= b <= e -> JS.slice l b e = take (Z.to_nat (e - b)) (drop (Z.to_nat b) l).
Proof.
  intros Hbe. unfold JS.slice, JS.clamp_index.
  destruct (Z.ltb_spec b 0); [lia|]. destruct (Z.ltb_spec e 0); [lia|].
  destruct (Z.le_gt_cases b (Z.of_nat (length l))) as [Hb|Hb].
  - rewrite (Z.min_l b) by lia.
    destruct (Z.le_gt_cases e (Z.of_nat (length l))) as [He|He].
    + by rewrite Z.min_l by lia.
    + rewrite Z.min_r by lia. rewrite !take_ge; [reflexivity| |]; rewrite length_drop; lia.
  - rewrite !drop_ge by lia. by rewrite !take_nil.
Qed.

(** X14. The pages of the upload list: with a positive [limit], page
    [p >= 1] holds at most [limit] entries, the pages 1 to [k] laid end to
    end are the first [k * limit] entries of the list in newest-first
    order -- no entry is skipped or repeated -- and page 0 is empty. *)
Theorem getUserKVUploads_pages (env : Env) (userId : string) (limit : Z) :
  0 < limit ->
  let sorted :=
    JS.sort (JS.desc_by tu_createdAt)
            (default [] (get_uploads env (user_uploads_key userId))) in
  (forall page, 1 <= page ->
     (length (getUserKVUploads env userId (page_offset page limit) limit)
      <= Z.to_nat limit)%nat)
  /\ (forall k : nat,
        concat ((fun p => getUserKVUploads env userId (page_offset (Z.of_nat p) limit) limit)
                  <$> seq 1 k)
        = take (k * Z.to_nat limit) sorted)
  /\ getUserKVUploads env userId (page_offset 0 limit) limit = [].
Proof.
  intros Hlimit sorted.
  assert (Hpage : forall page, 1 <= page ->
            getUserKVUploads env userId (page_offset page limit) limit
            = take (Z.to_nat limit) (drop (Z.to_nat ((page - 1) * limit)) sorted)).
  { intros page Hp. unfold getUserKVUploads, page_offset. subst sorted.
    destruct (get_uploads env (user_uploads_key userId)) as [l|]; cbn [default].
    - rewrite slice_nonneg by nia. f_equal. lia.
    - change (JS.sort (JS.desc_by tu_createdAt) []) with (@nil TrackedUpload).
      by rewrite drop_nil, take_nil. }
  split; [|split].
  - intros page Hp. rewrite Hpage by done. rewrite length_take. lia.
  - induction k as [|k IH]; [by rewrite take_0|].
    rewrite seq_S, fmap_app, concat_app, IH. cbn [fmap list_fmap concat].
    rewrite app_nil_r, Hpage by lia.
    replace (Z.to_nat ((Z.of_nat (1 + k) - 1) * limit)) with (k * Z.to_nat limit)%nat by nia.
    replace (S k * Z.to_nat limit)%nat with (k * Z.to_nat limit + Z.to_nat limit)%nat by lia.
    by rewrite take_take_drop.
  - unfold getUserKVUploads, page_offset.
    destruct (get_uploads env (user_uploads_key userId)) as [l|]; [|reflexivity].
    unfold JS.slice, JS.clamp_index.
    destruct (Z.ltb_spec ((0 - 1) * limit) 0); [|lia].
    replace ((0 - 1) * limit + limit) with 0 by lia. cbn [Z.ltb Z.compare].
    rewrite Z.min_l by lia.
    replace (Z.to_nat (0 - _)) with 0%nat by lia. reflexivity.
Qed.

End UploadListFacts.

Lemma track_then_remove_restores_the_list_witness :
  Uploads.removeFromUserUploads
    (Uploads.trackUserUpload UserUploads.env_one_upload "u1" UserUploads.second_upload)
    "u1" "/prod/eu/x/y/z/g"
  = UserUploads.env_one_upload.
Proof.
  apply (track_then_remove_restores_the_list UserUploads.env_one_upload "u1"
           UserUploads.second_upload [Uploads.track_entry (Uploads.sample_upload 5)]).
  - reflexivity.
  - repeat constructor.
  - simpl. lia.
  - repeat constructor; discriminate.
Defined.

Lemma getUserKVUploads_pages_witness :
  Store.tu_createdAt
    <$> (UserUploads.getUserKVUploads UserUploads.env_7_uploads "u1"
           (UserUploads.page_offset 1 3) 3
         ++ UserUploads.getUserKVUploads UserUploads.env_7_uploads "u1"
              (UserUploads.page_offset 2 3) 3)
  = [7; 6; 5; 4; 3; 2].
Proof.
  pose proof (proj1 (proj2 (getUserKVUploads_pages UserUploads.env_7_uploads "u1" 3
                              ltac:(lia))) 2%nat) as H.
  cbn [seq fmap list_fmap concat] in H. rewrite app_nil_r in H.
  change (Z.of_nat 1) with 1 in H. change (Z.of_nat 2) with 2 in H.
  rewrite H. vm_compute. reflexivity.
Defined.

(** ** Editing and restoring files *)

Section EditingFacts.
Import Store Versions.

Variable jsonSize : FileMetadata -> Z.
Variable sha256 : list byte -> list byte.

Local Abbreviation createFileVersion := (Versions.createFileVersion jsonSize).
Local Abbreviation updateFileMetadata := (Versions.updateFileMetadata jsonSize).
Local Abbreviation updateFileContent := (Versions.updateFileContent jsonSize sha256).
Local Abbreviation restoreFileVersion := (Versions.restoreFileVersion jsonSize).
Local Abbreviation version_record := (Versions.version_record jsonSize).

Lemma version_content_key_inj fileId n n' :
  version_content_key fileId n = version_content_key fileId n' -> n = n'.
Proof.
  unfold version_content_key, JS.num. intros H.
  do 3 apply String.app_inj in H. by apply pretty_Z_inj in H.
Qed.

Instance gt_antisymm : AntiSymm eq Z.gt.
Proof. intros x y ? ?. lia. Qed.

(** A number above a strictly descending index goes to its front. *)
Lemma sorted_index_front versionIndex v :
  StronglySorted Z.gt versionIndex -> Forall (fun n => n < v) versionIndex ->
  index_includes versionIndex v = false /\ sorted_index versionIndex v = v :: versionIndex.
Proof.
  intros Hs Hlt.
  assert (Hn : index_includes versionIndex v = false).
  { apply not_true_is_false. rewrite index_includes_spec. intros Hin.
    rewrite Forall_forall in Hlt. specialize (Hlt v Hin). lia. }
  split; [exact Hn|].
  apply (StronglySorted_unique Z.gt).
  - by apply sorted_index_strict.
  - constructor; [exact Hs|]. eapply Forall_impl; [exact Hlt|]. cbn. lia.
  - rewrite sorted_index_perm. by rewrite Permutation_app_comm.
Qed.

Lemma evicted_front versionIndex v :
  StronglySorted Z.gt versionIndex -> Forall (fun n => n < v) versionIndex ->
  evicted versionIndex v = drop (Z.to_nat MAX_VERSIONS - 1) versionIndex.
Proof.
  intros Hs Hlt. destruct (sorted_index_front _ _ Hs Hlt) as [Hn Hsorted].
  unfold evicted. rewrite Hn, Hsorted. reflexivity.
Qed.

(** What [createFileVersion] leaves under a key that is neither written
    nor cleaned up. *)
Lemma createFileVersion_lookup_kept now env metadata user changeType changes k :
  let versionIndex := default [] (get_index env (versions_key (fm_id metadata))) in
  k <> versions_key (fm_id metadata) ->
  (forall old, old ∈ evicted versionIndex (fm_version metadata) ->
     k <> version_key (fm_id metadata) old /\ k <> version_content_key (fm_id metadata) old) ->
  FILE_VERSIONS (createFileVersion now env metadata user changeType changes) !! k
  = if decide (k = version_key (fm_id metadata) (fm_version metadata))
    then Some (VVRecord (version_record now env metadata user changeType changes))
    else match (if is_content_change changeType
                then FILE_CONTENT env !! content_key (fm_id metadata) else None) with
         | Some c =>
             if decide (k = version_content_key (fm_id metadata) (fm_version metadata))
             then Some (VVContent c) else FILE_VERSIONS env !! k
         | None => FILE_VERSIONS env !! k
         end.
Proof.
  intros versionIndex Hk Hkeep. unfold evicted in Hkeep.
  unfold Versions.createFileVersion.
  rewrite index_after_record_writes. fold versionIndex.
  set (content := if is_content_change changeType
                  then FILE_CONTENT env !! content_key (fm_id metadata) else None).
  assert (Hwrites :
            FILE_VERSIONS
              (set_FILE_VERSIONS
                 (insert (version_key (fm_id metadata) (fm_version metadata))
                    (VVRecord (version_record now env metadata user changeType changes)))
                 match content with
                 | Some c =>
                     set_FILE_VERSIONS
                       (insert (version_content_key (fm_id metadata) (fm_version metadata))
                          (VVContent c)) env
                 | None => env
                 end) !! k
            = if decide (k = version_key (fm_id metadata) (fm_version metadata))
              then Some (VVRecord (version_record now env metadata user changeType changes))
              else match content with
                   | Some c =>
                       if decide (k = version_content_key (fm_id metadata) (fm_version metadata))
                       then Some (VVContent c) else FILE_VERSIONS env !! k
                   | None => FILE_VERSIONS env !! k
                   end).
  { cbn [FILE_VERSIONS set_FILE_VERSIONS].
    destruct (decide (k = version_key _ _)) as [->|Hne1]; [by rewrite lookup_insert_eq|].
    rewrite lookup_insert_ne by done.
    destruct content as [c|]; [|reflexivity]. cbn [FILE_VERSIONS set_FILE_VERSIONS].
    destruct (decide (k = version_content_key _ _)) as [->|Hne2];
      [by rewrite lookup_insert_eq | by rewrite lookup_insert_ne]. }
  destruct (index_includes versionIndex (fm_version metadata)); [exact Hwrites|].
  cbn [FILE_VERSIONS set_FILE_VERSIONS].
  rewrite foldl_evict_lookup_other.
  - rewrite lookup_insert_ne by done. exact Hwrites.
  - intros old Hold. apply Hkeep. by rewrite <- length_take_drop_sorted.
Qed.

Lemma createFileVersion_database now env metadata user changeType changes :
  ASSETS_DB (createFileVersion now env metadata user changeType changes) = ASSETS_DB env.
Proof.
  unfold Versions.createFileVersion.
  destruct (index_includes _ _); cbn;
    by destruct (if is_content_change changeType then _ else _).
Qed.

Lemma createFileVersion_metadata_store now env metadata user changeType changes :
  CDN_METADATA (createFileVersion now env metadata user changeType changes)
  = CDN_METADATA env.
Proof.
  unfold Versions.createFileVersion.
  destruct (index_includes _ _); cbn;
    by destruct (if is_content_change changeType then _ else _).
Qed.

Lemma createFileVersion_content_store now env metadata user changeType changes :
  FILE_CONTENT (createFileVersion now env metadata user changeType changes)
  = FILE_CONTENT env.
Proof.
  unfold Versions.createFileVersion.
  destruct (index_includes _ _); cbn;
    by destruct (if is_content_change changeType then _ else _).
Qed.

Lemma updateFileContent_content now env fileId user newContent currentMetadata :
  getFileMetadata env fileId = Some currentMetadata ->
  newContent <> [] ->
  FILE_CONTENT (updateFileContent now env fileId user newContent).1 !! content_key fileId
  = Some newContent.
Proof.
  intros Hm Hne. unfold Versions.updateFileContent. rewrite Hm.
  destruct (Z.eqb_spec (Z.of_nat (length newContent)) 0) as [Hz|_].
  - destruct newContent; [done | cbn in Hz; lia].
  - cbn [fst]. unfold updateUserStorageUsage, db_update, set_ASSETS_DB. cbn.
    by rewrite lookup_insert_eq.
Qed.

Lemma db_row_db_update fileId userId f env fileId' :
  db_row env fileId' = None -> db_row (db_update fileId userId f env) fileId' = None.
Proof.
  unfold db_row, db_update, set_ASSETS_DB. cbn.
  destruct (ASSETS_DB env) as [db|]; cbn; [|done].
  destruct (db_accepts_updates db); cbn; [|done].
  intros Hrow. destruct (decide (fileId = fileId')) as [->|Hne].
  - by rewrite lookup_alter_eq, Hrow.
  - by rewrite lookup_alter_ne.
Qed.

(** The metadata of a file kept in the key-value store only, after its
    content was replaced. *)
Lemma updateFileContent_metadata now env fileId user newContent currentMetadata :
  db_row env fileId = None ->
  get_file env (file_key fileId) = Some currentMetadata ->
  newContent <> [] ->
  getFileMetadata (updateFileContent now env fileId user newContent).1 fileId
  = Some (with_modified_version
            (with_size currentMetadata (Z.of_nat (length newContent))) now
            (fm_version currentMetadata + 1)).
Proof.
  intros Hrow Hfile Hne.
  assert (Hm : getFileMetadata env fileId = Some currentMetadata)
    by (unfold getFileMetadata; by rewrite Hrow).
  unfold Versions.updateFileContent. rewrite Hm.
  destruct (Z.eqb_spec (Z.of_nat (length newContent)) 0) as [Hz|_].
  - destruct newContent; [done | cbn in Hz; lia].
  - cbn [fst]. unfold getFileMetadata.
    assert (Hrow' : forall e, db_row e fileId = None ->
              db_row (updateUserStorageUsage now e (user_id user)
                        match FILE_CONTENT env !! content_key fileId with
                        | Some c => Z.of_nat (length c)
                        | None => 0
                        end (Z.of_nat (length newContent)) UKversion) fileId = None)
      by (intros e He; exact He).
    rewrite Hrow'.
    + unfold get_file, updateUserStorageUsage, db_update, set_ASSETS_DB. cbn.
      rewrite lookup_insert_ne by apply file_key_ne_storage_usage_key.
      by rewrite lookup_insert_eq.
    + apply db_row_db_update. unfold db_row. cbn [ASSETS_DB set_CDN_METADATA set_CDN_CACHE
        set_FILE_CONTENT].
      destruct (FILE_CONTENT env !! content_key fileId);
        [rewrite createFileVersion_database|]; exact Hrow.
Qed.

(** X15. Replacing the content of a file and then restoring the version
    that the replacement recorded brings the previous bytes back.  This
    holds for a file kept in the key-value store only, filed under its own
    id, whose version index is in order and older than its live version.
    The restore leaves the replaced bytes as the content of the next
    version, so that it can be undone in turn. *)
Theorem content_restore_round_trip (now now' : Z) (env : Env) (fileId : string)
    (user user' : User) (currentMetadata : FileMetadata) (oldContent newContent : list byte) :
  let versionIndex := default [] (get_index env (versions_key fileId)) in
  let version := fm_version currentMetadata in
  db_row env fileId = None ->
  get_file env (file_key fileId) = Some currentMetadata ->
  fm_id currentMetadata = fileId ->
  FILE_CONTENT env !! content_key fileId = Some oldContent ->
  newContent <> [] ->
  StronglySorted Z.gt versionIndex ->
  Forall (fun n => n < version) versionIndex ->
  let env1 := (updateFileContent now env fileId user newContent).1 in
  let env2 := (restoreFileVersion now' env1 fileId version user').1 in
  FILE_CONTENT env1 !! content_key fileId = Some newContent
  /\ FILE_CONTENT env2 !! content_key fileId = Some oldContent
  /\ get_version_content env2 (version_content_key fileId (version + 1)) = Some newContent.
Proof.
  intros versionIndex version Hrow Hfile Hid Hcontent Hne Hsorted Hbelow env1 env2.
  assert (Hm : getFileMetadata env fileId = Some currentMetadata)
    by (unfold getFileMetadata; by rewrite Hrow).
  assert (Hc1 : FILE_CONTENT env1 !! content_key fileId = Some newContent)
    by (by eapply updateFileContent_content).
  split; [exact Hc1|].
  set (changes := {| ch_metadata := None;
                     ch_contentSize := Some (Z.of_nat (length oldContent));
                     ch_contentHash := Some (generateContentHash sha256 oldContent) |}).
  (* the version namespace after the replacement *)
  assert (Hv1 : FILE_VERSIONS env1
                = FILE_VERSIONS (createFileVersion now env currentMetadata user CTcontent changes)).
  { unfold env1. rewrite (updateFileContent_versions _ _ _ _ _ _ _ _ Hm Hne), Hcontent.
    reflexivity. }
  assert (Hev : evicted versionIndex version
                = drop (Z.to_nat MAX_VERSIONS - 1) versionIndex)
    by (by apply evicted_front).
  assert (Hold : forall old, old ∈ evicted versionIndex version -> old < version).
  { intros old Hin. rewrite Hev in Hin. apply subseteq_drop in Hin.
    rewrite Forall_forall in Hbelow. by apply Hbelow. }
  assert (Hkept : forall k,
            k <> versions_key fileId ->
            (k = version_key fileId version \/ k = version_content_key fileId version) ->
            FILE_VERSIONS env1 !! k
            = if decide (k = version_key fileId version)
              then Some (VVRecord (version_record now env currentMetadata user CTcontent changes))
              else Some (VVContent oldContent)).
  { intros k Hk Hcases. rewrite Hv1.
    rewrite createFileVersion_lookup_kept; rewrite ?Hid; fold versionIndex; fold version.
    - cbn [is_content_change]. rewrite Hcontent.
      destruct (decide (k = version_key fileId version)); [reflexivity|].
      destruct Hcases as [? | ->]; [done|]. by rewrite decide_True.
    - exact Hk.
    - intros old Hin. specialize (Hold old Hin).
      destruct Hcases as [-> | ->]; split; intros H.
      + apply version_key_inj in H. lia.
      + by apply version_key_ne_version_content_key in H.
      + symmetry in H. by apply version_key_ne_version_content_key in H.
      + apply version_content_key_inj in H. lia. }
  assert (Hrecord : get_record env1 (version_key fileId version)
                    = Some (version_record now env currentMetadata user CTcontent changes)).
  { unfold get_record. rewrite Hkept; [by rewrite decide_True | | by left].
    apply version_key_ne_versions_key. }
  assert (Hsnapshot : FILE_VERSIONS env1 !! version_content_key fileId version
                      = Some (VVContent oldContent)).
  { rewrite Hkept; [rewrite decide_False; [reflexivity|] | | by right].
    - intros H. symmetry in H. by apply version_key_ne_version_content_key in H.
    - apply version_content_key_ne_versions_key. }
  assert (Hindex1 : get_index env1 (versions_key fileId)
                    = Some (take (Z.to_nat MAX_VERSIONS) (version :: versionIndex))).
  { transitivity (get_index (createFileVersion now env currentMetadata user CTcontent changes)
                    (versions_key (fm_id currentMetadata)));
      [unfold get_index; by rewrite Hv1, Hid|].
    rewrite createFileVersion_index, Hid. fold versionIndex. fold version.
    destruct (sorted_index_front _ _ Hsorted Hbelow) as [-> ->]. reflexivity. }
  (* the live metadata after the replacement *)
  set (metadata1 := with_modified_version
                      (with_size currentMetadata (Z.of_nat (length newContent))) now
                      (version + 1)).
  assert (Hm1 : getFileMetadata env1 fileId = Some metadata1)
    by (by apply updateFileContent_metadata).
  (* the restore *)
  set (changes' := {| ch_metadata := Some (patch_of_metadata metadata1);
                      ch_contentSize := Some (fm_size metadata1);
                      ch_contentHash := None |}).
  set (env1' := createFileVersion now' env1 metadata1 user' CTboth changes').
  assert (Henv2 : env2
                  = match get_version_content env1' (version_content_key fileId version) with
                    | Some versionContent =>
                        set_FILE_CONTENT (insert (content_key fileId) versionContent) env1'
                    | None => env1'
                    end).
  { unfold env2, Versions.restoreFileVersion. rewrite Hrecord, Hm1. reflexivity. }
  assert (Hsorted1 : StronglySorted Z.gt (take (Z.to_nat MAX_VERSIONS) (version :: versionIndex))).
  { assert (Hs : StronglySorted Z.gt (version :: versionIndex)).
    { constructor; [exact Hsorted|]. eapply Forall_impl; [exact Hbelow|]. cbn. lia. }
    rewrite <- (take_drop (Z.to_nat MAX_VERSIONS) (version :: versionIndex)) in Hs.
    exact (StronglySorted_app_1_l _ _ _ Hs). }
  assert (Hbelow1 : Forall (fun n => n < version + 1)
                           (take (Z.to_nat MAX_VERSIONS) (version :: versionIndex))).
  { apply Forall_take. constructor; [lia|]. eapply Forall_impl; [exact Hbelow|]. cbn. lia. }
  assert (Hold1 : forall old,
            old ∈ evicted (take (Z.to_nat MAX_VERSIONS) (version :: versionIndex)) (version + 1) ->
            old < version).
  { intros old Hin. rewrite evicted_front in Hin by done.
    change (take (Z.to_nat MAX_VERSIONS) (version :: versionIndex))
      with (version :: take (Z.to_nat MAX_VERSIONS - 1) versionIndex) in Hin.
    change (Z.to_nat MAX_VERSIONS - 1)%nat with 49%nat in Hin.
    cbn [drop] in Hin. apply subseteq_drop, subseteq_take in Hin.
    rewrite Forall_forall in Hbelow. by apply Hbelow. }
  assert (Hid1 : fm_id metadata1 = fileId) by exact Hid.
  assert (Hkept' : forall k,
            k = version_content_key fileId version
            \/ k = version_content_key fileId (version + 1) ->
            FILE_VERSIONS env1' !! k
            = if decide (k = version_content_key fileId (version + 1))
              then Some (VVContent newContent)
              else Some (VVContent oldContent)).
  { intros k Hcases. unfold env1'.
    rewrite createFileVersion_lookup_kept; rewrite ?Hid1;
      change (fm_version metadata1) with (version + 1); rewrite ?Hindex1; cbn [default].
    - cbn [is_content_change]. rewrite Hc1.
      rewrite decide_False
        by (destruct Hcases as [-> | ->]; intros H; symmetry in H;
            by apply version_key_ne_version_content_key in H).
      destruct (decide (k = version_content_key fileId (version + 1))); [reflexivity|].
      destruct Hcases as [-> | ?]; [exact Hsnapshot | done].
    - destruct Hcases as [-> | ->]; apply version_content_key_ne_versions_key.
    - intros old Hin. specialize (Hold1 old Hin).
      destruct Hcases as [-> | ->]; split; intros H.
      + symmetry in H. by apply version_key_ne_version_content_key in H.
      + apply version_content_key_inj in H. lia.
      + symmetry in H. by apply version_key_ne_version_content_key in H.
      + apply version_content_key_inj in H. lia. }
  assert (Hrestored : get_version_content env1' (version_content_key fileId version)
                      = Some oldContent).
  { unfold get_version_content. rewrite Hkept' by (by left).
    rewrite decide_False; [reflexivity|]. intros H. apply version_content_key_inj in H. lia. }
  rewrite Hrestored in Henv2. rewrite Henv2. split.
  - cbn [FILE_CONTENT set_FILE_CONTENT]. by rewrite lookup_insert_eq.
  - unfold get_version_content. cbn [FILE_VERSIONS set_FILE_CONTENT].
    rewrite Hkept' by (by right). by rewrite decide_True.
Qed.

Lemma updateFileMetadata_database now env fileId user updateData currentMetadata :
  getFileMetadata env fileId = Some currentMetadata ->
  ASSETS_DB (updateFileMetadata now env fileId user updateData).1
  = ASSETS_DB
      (db_update fileId (user_id user)
         (row_set_metadata
            (with_modified_version (spread currentMetadata updateData) now
               (fm_version currentMetadata + 1)) now)
         env).
Proof.
  intros Hm. unfold Versions.updateFileMetadata. rewrite Hm. cbn [fst].
  unfold updateUserStorageUsage. cbn [ASSETS_DB set_CDN_METADATA].
  destruct (get_asset _ _) as [[value existingMeta]|]; [destruct (bool_decide _)|];
    cbn [ASSETS_DB set_CDN_METADATA set_CDN_CACHE];
    unfold db_update, set_ASSETS_DB; cbn [ASSETS_DB];
    by rewrite createFileVersion_database.
Qed.

Lemma updateFileMetadata_file_record now env fileId user updateData currentMetadata :
  getFileMetadata env fileId = Some currentMetadata ->
  get_file (updateFileMetadata now env fileId user updateData).1 (file_key fileId)
  = Some (with_modified_version (spread currentMetadata updateData) now
            (fm_version currentMetadata + 1)).
Proof.
  intros Hm. unfold Versions.updateFileMetadata. rewrite Hm. cbn [fst].
  unfold get_file, updateUserStorageUsage. cbn [CDN_METADATA set_CDN_METADATA].
  rewrite lookup_insert_ne by apply file_key_ne_storage_usage_key.
  destruct (get_asset _ _) as [[value existingMeta]|];
    [destruct (bool_decide _)|]; cbn [CDN_METADATA set_CDN_METADATA set_CDN_CACHE];
    by rewrite lookup_insert_eq.
Qed.

(** The metadata of a file kept in the key-value store only, after a
    metadata update. *)
Lemma updateFileMetadata_metadata now env fileId user updateData currentMetadata :
  db_row env fileId = None ->
  get_file env (file_key fileId) = Some currentMetadata ->
  getFileMetadata (updateFileMetadata now env fileId user updateData).1 fileId
  = Some (with_modified_version (spread currentMetadata updateData) now
            (fm_version currentMetadata + 1)).
Proof.
  intros Hrow Hfile.
  assert (Hm : getFileMetadata env fileId = Some currentMetadata)
    by (unfold getFileMetadata; by rewrite Hrow).
  unfold getFileMetadata.
  assert (Hrow' : db_row (updateFileMetadata now env fileId user updateData).1 fileId = None).
  { unfold db_row. rewrite (updateFileMetadata_database _ _ _ _ _ _ Hm).
    by apply (db_row_db_update fileId). }
  rewrite Hrow'. by apply updateFileMetadata_file_record.
Qed.

(** X16. What a metadata update takes from its body.  For a file kept in
    the key-value store only, the body is laid over the current metadata
    and then [modified] and [version] are set by the service: the new
    version is the current one plus one whatever the body says, while the
    owner id, the id and the size are the ones of the body when it names
    them.  For a file that has a row in the relational table, the
    metadata read afterwards has the owner, the id and the size of the
    row, whatever the body says. *)
Theorem updateFileMetadata_fields_of_the_body (now : Z) (env : Env) (fileId : string)
    (user : User) (updateData : Patch) :
  let env' := (updateFileMetadata now env fileId user updateData).1 in
  (forall currentMetadata,
     db_row env fileId = None ->
     get_file env (file_key fileId) = Some currentMetadata ->
     exists updated,
       getFileMetadata env' fileId = Some updated
       /\ fm_version updated = fm_version currentMetadata + 1
       /\ fm_modified updated = now
       /\ fm_ownerId updated = default (fm_ownerId currentMetadata) (p_ownerId updateData)
       /\ fm_id updated = default (fm_id currentMetadata) (p_id updateData)
       /\ fm_size updated = default (fm_size currentMetadata) (p_size updateData))
  /\
  (forall row,
     db_row env fileId = Some row ->
     exists updated,
       getFileMetadata env' fileId = Some updated
       /\ fm_ownerId updated = r_user_id row
       /\ fm_id updated = fileId
       /\ fm_size updated = r_size row).
Proof.
  intros env'. split.
  - intros currentMetadata Hrow Hfile.
    assert (Hm : getFileMetadata env fileId = Some currentMetadata)
      by (unfold getFileMetadata; by rewrite Hrow).
    exists (with_modified_version (spread currentMetadata updateData) now
              (fm_version currentMetadata + 1)).
    split; [by apply updateFileMetadata_metadata | by repeat split].
  - intros row Hrow.
    assert (Hm : getFileMetadata env fileId = Some (metadata_of_row fileId row))
      by (unfold getFileMetadata; by rewrite Hrow).
    assert (Hrow' : exists row', db_row env' fileId = Some row'
                                 /\ r_user_id row' = r_user_id row
                                 /\ r_size row' = r_size row).
    { unfold db_row, env'. rewrite (updateFileMetadata_database _ _ _ _ _ _ Hm).
      unfold db_row in Hrow. unfold db_update, set_ASSETS_DB. cbn [ASSETS_DB].
      destruct (ASSETS_DB env) as [db|]; [|discriminate]. cbn [fmap option_fmap option_map].
      destruct (db_accepts_updates db); cbn [db_assets]; [|by exists row].
      rewrite lookup_alter_eq, Hrow. cbn [fmap option_fmap option_map].
      destruct (decide (r_user_id row = user_id user)); eexists; by repeat split. }
    destruct Hrow' as (row' & Hrow' & Huser & Hsize).
    exists (metadata_of_row fileId row'). unfold getFileMetadata. rewrite Hrow'.
    by repeat split.
Qed.

End EditingFacts.

Lemma content_restore_round_trip_witness :
  Store.FILE_CONTENT
    (Versions.restoreFileVersion Versions.toy_jsonSize 20
       (Versions.updateFileContent Versions.toy_jsonSize Versions.toy_sha256 10
          Versions.env_two_files "f1" Versions.ann [x01; x02; x03]%byte).1
       "f1" 1 Versions.ann).1
    !! Store.content_key "f1"
  = Some [x09; x09]%byte.
Proof.
  refine (proj1 (proj2 (content_restore_round_trip Versions.toy_jsonSize Versions.toy_sha256
                          10 20 Versions.env_two_files "f1" Versions.ann Versions.ann
                          (Versions.sample_file "f1" "report.txt" 1)
                          [x09; x09]%byte [x01; x02; x03]%byte
                          eq_refl eq_refl eq_refl eq_refl _ _ _))).
  - discriminate.
  - vm_compute. constructor.
  - vm_compute. constructor.
Defined.

Lemma updateFileMetadata_fields_of_the_body_witness :
  exists updated,
    Versions.getFileMetadata
      (Versions.updateFileMetadata Versions.toy_jsonSize 10 Versions.env_two_files "f1"
         Versions.ann (Editor.patch_owner "u2")).1 "f1" = Some updated
    /\ Store.fm_version updated = 2
    /\ Store.fm_ownerId updated = "u2".
Proof.
  destruct (proj1 (updateFileMetadata_fields_of_the_body Versions.toy_jsonSize 10
                     Versions.env_two_files "f1" Versions.ann (Editor.patch_owner "u2"))
              (Versions.sample_file "f1" "report.txt" 1) eq_refl eq_refl)
    as (updated & Hm & Hv & _ & Ho & _).
  exists updated. split; [exact Hm|]. split; [exact Hv | exact Ho].
Defined.

(** ** The editor and version endpoints *)

Section EndpointFacts.
Import Store Versions Editor.

Variable verifyUserAuthentication : Request -> option User.
Variable jsonSize : FileMetadata -> Z.
Variable sha256 : list byte -> list byte.
Variable metadataBody : list byte -> option Patch.
Variable restoreBody : list byte -> option Z.
Variable file_json : FileMetadata -> JVal.
Variable version_json : FileVersion -> JVal.

Local Abbreviation handleFileEditorRequest :=
  (Editor.handleFileEditorRequest verifyUserAuthentication jsonSize sha256 metadataBody
     file_json version_json).
Local Abbreviation handleVersionsRequest :=
  (Editor.handleVersionsRequest verifyUserAuthentication jsonSize restoreBody version_json).
Local Abbreviation getFileWithVersions :=
  (Editor.getFileWithVersions file_json version_json).

(** X17. Only the owner writes.  Whenever a request to the file editor
    or to the version endpoint changes a store, its token was verified,
    the file named by the third path segment exists and the owner id in
    its metadata is the id of the verified user; the editor writes for
    PUT only, the version endpoint for POST only.  Without a verified
    token the answer is 401, for a file of another owner it is 403. *)
Theorem endpoints_write_for_the_owner_only (now : Z) (env : Env) (request : Request)
    (pathname : string) :
  let authorized (method : string) :=
    exists user fileId fileMetadata,
      verifyUserAuthentication request = Some user
      /\ Proxy.path_parts pathname !! 2%nat = Some fileId
      /\ getFileMetadata env fileId = Some fileMetadata
      /\ fm_ownerId fileMetadata = user_id user
      /\ req_method request = method in
  ((handleFileEditorRequest now env request pathname).1 <> env -> authorized "PUT")
  /\ ((handleVersionsRequest now env request pathname).1 <> env -> authorized "POST")
  /\ (verifyUserAuthentication request = None ->
        res_status (handleFileEditorRequest now env request pathname).2 = 401
        /\ res_status (handleVersionsRequest now env request pathname).2 = 401)
  /\ (forall user fileId fileMetadata,
        verifyUserAuthentication request = Some user ->
        Proxy.path_parts pathname !! 2%nat = Some fileId ->
        getFileMetadata env fileId = Some fileMetadata ->
        fm_ownerId fileMetadata <> user_id user ->
        handleFileEditorRequest now env request pathname
        = (env, createErrorResponse now 403
                  "Access denied. You can only edit your own files.")
        /\ handleVersionsRequest now env request pathname
           = (env, createErrorResponse now 403
                     "Access denied. You can only access versions of your own files.")).
Proof.
  intros authorized. split; [|split; [|split]].
  - unfold Editor.handleFileEditorRequest.
    destruct (verifyUserAuthentication request) as [user|]; [|done].
    destruct (Proxy.path_parts pathname !! 2%nat) as [fileId|]; [|done].
    destruct (getFileMetadata env fileId) as [fileMetadata|] eqn:Hm; [|done].
    destruct (String.eqb_spec (fm_ownerId fileMetadata) (user_id user)) as [Hown|]; [|done].
    cbn [negb].
    assert (Hauth : forall method, req_method request = method -> authorized method)
      by (intros method Hmethod; exists user, fileId, fileMetadata; by repeat split).
    destruct (Proxy.path_parts pathname !! 3%nat) as [action|]; [|done].
    destruct (String.eqb action "metadata").
    { destruct (String.eqb_spec (req_method request) "PUT"); [intros _; by apply Hauth|done]. }
    destruct (String.eqb action "content").
    { destruct (String.eqb_spec (req_method request) "PUT"); [intros _; by apply Hauth|done]. }
    destruct (String.eqb action "info"); [|done].
    by destruct (String.eqb (req_method request) "GET").
  - unfold Editor.handleVersionsRequest.
    destruct (verifyUserAuthentication request) as [user|]; [|done].
    destruct (Proxy.path_parts pathname !! 2%nat) as [fileId|]; [|done].
    destruct (getFileMetadata env fileId) as [fileMetadata|] eqn:Hm; [|done].
    destruct (String.eqb_spec (fm_ownerId fileMetadata) (user_id user)) as [Hown|]; [|done].
    cbn [negb].
    destruct (String.eqb (req_method request) "GET").
    { by destruct (parseInt_auto <$> _). }
    destruct (String.eqb_spec (req_method request) "POST") as [Hpost|]; [|done].
    intros _. exists user, fileId, fileMetadata. by repeat split.
  - intros Hnone. unfold Editor.handleFileEditorRequest, Editor.handleVersionsRequest.
    by rewrite Hnone.
  - intros user fileId fileMetadata Hauth Hpath Hm Hown.
    unfold Editor.handleFileEditorRequest, Editor.handleVersionsRequest.
    rewrite Hauth, Hpath, Hm.
    by destruct (String.eqb_spec (fm_ownerId fileMetadata) (user_id user)).
Qed.

(** X18. Reading is safe: a GET request to the file editor or to the
    version endpoint leaves every store as it is, whatever it asks for;
    and the [info] action lists at most ten versions of a file. *)
Theorem get_requests_do_not_write (now : Z) (env : Env) (request : Request)
    (pathname : string) :
  req_method request = "GET" ->
  (handleFileEditorRequest now env request pathname).1 = env
  /\ (handleVersionsRequest now env request pathname).1 = env
  /\ (forall fileId fields listed,
        res_body (getFileWithVersions now env fileId) = BJson (JObj fields) ->
        (("versions", JArr listed) ∈ fields) ->
        (length listed <= 10)%nat).
Proof.
  intros Hget. split; [|split].
  - unfold Editor.handleFileEditorRequest. rewrite Hget.
    destruct (verifyUserAuthentication request) as [user|]; [|done].
    destruct (Proxy.path_parts pathname !! 2%nat) as [fileId|]; [|done].
    destruct (getFileMetadata env fileId) as [fileMetadata|]; [|done].
    destruct (negb _); [done|].
    destruct (Proxy.path_parts pathname !! 3%nat) as [action|]; [|done].
    by repeat destruct (String.eqb action _).
  - unfold Editor.handleVersionsRequest. rewrite Hget.
    destruct (verifyUserAuthentication request) as [user|]; [|done].
    destruct (Proxy.path_parts pathname !! 2%nat) as [fileId|]; [|done].
    destruct (getFileMetadata env fileId) as [fileMetadata|]; [|done].
    destruct (negb _); [done|]. cbn [String.eqb Ascii.eqb Bool.eqb].
    by destruct (parseInt_auto <$> _).
  - intros fileId fields listed. unfold Editor.getFileWithVersions.
    destruct (getFileMetadata env fileId) as [metadata|]; cbn [res_body json_response
      createErrorResponse]; intros [= <-] Hin.
    + repeat (apply elem_of_cons in Hin as [Heq|Hin]; [try discriminate Heq|]).
      * injection Heq as ->. rewrite length_fmap, slice_prefix by done.
        rewrite length_take. lia.
      * by apply elem_of_nil in Hin.
    + repeat (apply elem_of_cons in Hin as [Heq|Hin]; [discriminate Heq|]).
      by apply elem_of_nil in Hin.
Qed.

(** X19. Ownership follows the update body.  When the owner of a file
    kept in the key-value store only sends a metadata update whose body
    names another owner id, the update is accepted, and from then on the
    former owner is refused by the editor (403) while the user named in
    the body passes the ownership check. *)
Theorem owner_in_the_body_hands_the_file_over (now now' : Z) (env : Env)
    (request request' : Request) (pathname pathname' fileId newOwner : string)
    (user user' : User) (updateData : Patch) (fileMetadata : FileMetadata) :
  verifyUserAuthentication request = Some user ->
  Proxy.path_parts pathname = ["api"; "file-editor"; fileId; "metadata"] ->
  req_method request = "PUT" ->
  metadataBody (req_body request) = Some updateData ->
  p_ownerId updateData = Some newOwner ->
  db_row env fileId = None ->
  get_file env (file_key fileId) = Some fileMetadata ->
  fm_ownerId fileMetadata = user_id user ->
  newOwner <> user_id user ->
  Proxy.path_parts pathname' !! 2%nat = Some fileId ->
  let first := handleFileEditorRequest now env request pathname in
  res_status first.2 = 200
  /\ (verifyUserAuthentication request' = Some user ->
        handleFileEditorRequest now' first.1 request' pathname'
        = (first.1, createErrorResponse now' 403
                      "Access denied. You can only edit your own files."))
  /\ (verifyUserAuthentication request' = Some user' ->
        user_id user' = newOwner ->
        res_status (handleFileEditorRequest now' first.1 request' pathname').2 <> 403).
Proof.
  intros Hauth Hpath Hput Hbody Howner Hrow Hfile Hown Hne Hpath' first.
  assert (Hm : getFileMetadata env fileId = Some fileMetadata)
    by (unfold getFileMetadata; by rewrite Hrow).
  assert (Hfirst : first = Versions.updateFileMetadata jsonSize now env fileId user updateData).
  { unfold first, Editor.handleFileEditorRequest. rewrite Hauth, Hpath.
    cbn [lookup list_lookup]. rewrite Hm, Hown, String.eqb_refl. cbn [negb].
    rewrite Hput. cbn [String.eqb Ascii.eqb Bool.eqb].
    unfold Editor.updateFileMetadata. by rewrite Hbody. }
  pose proof (updateFileMetadata_metadata jsonSize now env fileId user updateData
                fileMetadata Hrow Hfile) as Hupdated.
  set (updated := with_modified_version (spread fileMetadata updateData) now
                    (fm_version fileMetadata + 1)) in Hupdated.
  assert (Hnew : fm_ownerId updated = newOwner) by (cbn; by rewrite Howner).
  clearbody updated. rewrite <- Hfirst in Hupdated.
  split; [|split].
  - rewrite Hfirst. unfold Versions.updateFileMetadata. by rewrite Hm.
  - intros Hauth'. unfold Editor.handleFileEditorRequest.
    rewrite Hauth', Hpath', Hupdated, Hnew.
    by destruct (String.eqb_spec newOwner (user_id user)).
  - intros Hauth' Hid. unfold Editor.handleFileEditorRequest.
    rewrite Hauth', Hpath', Hupdated, Hnew, Hid, String.eqb_refl. cbn [negb].
    destruct (Proxy.path_parts pathname' !! 3%nat) as [action|]; [|cbn; lia].
    destruct (String.eqb action "metadata").
    { destruct (String.eqb (req_method request') "PUT"); [|cbn; lia].
      unfold Editor.updateFileMetadata.
      destruct (metadataBody (req_body request')); [|cbn; lia].
      unfold Versions.updateFileMetadata. rewrite Hupdated. cbn. lia. }
    destruct (String.eqb action "content").
    { destruct (String.eqb (req_method request') "PUT"); [|cbn; lia].
      unfold Versions.updateFileContent. rewrite Hupdated.
      destruct (_ =? 0); cbn; lia. }
    destruct (String.eqb action "info"); [|cbn; lia].
    destruct (String.eqb (req_method request') "GET"); [|cbn; lia].
    unfold Editor.getFileWithVersions. rewrite Hupdated. cbn. lia.
Qed.

End EndpointFacts.

Lemma endpoints_write_for_the_owner_only_witness :
  Editor.handleFileEditorRequest Editor.toy_verify Versions.toy_jsonSize Versions.toy_sha256
    Editor.toy_metadataBody Editor.toy_file_json Editor.toy_version_json 10
    Versions.env_two_files (Editor.editor_request "PUT" "u2" [x7b; x7d]%byte)
    "/api/file-editor/f1/metadata"
  = (Versions.env_two_files,
     createErrorResponse 10 403 "Access denied. You can only edit your own files.").
Proof.
  refine (proj1 (proj2 (proj2 (proj2
            (endpoints_write_for_the_owner_only Editor.toy_verify Versions.toy_jsonSize
               Versions.toy_sha256 Editor.toy_metadataBody Editor.toy_restoreBody
               Editor.toy_file_json Editor.toy_version_json 10 Versions.env_two_files
               (Editor.editor_request "PUT" "u2" [x7b; x7d]%byte)
               "/api/file-editor/f1/metadata")))
            (Editor.user_of "u2") "f1" (Versions.sample_file "f1" "report.txt" 1)
            eq_refl eq_refl eq_refl _)).
  discriminate.
Defined.

Lemma get_requests_do_not_write_witness :
  (Editor.handleVersionsRequest Editor.toy_verify Versions.toy_jsonSize
     Editor.toy_restoreBody Editor.toy_version_json 10 Versions.env_after_content_update
     (Editor.editor_request "GET" "u1" []) "/api/versions/f1/1").1
  = Versions.env_after_content_update.
Proof.
  refine (proj1 (proj2 (get_requests_do_not_write Editor.toy_verify Versions.toy_jsonSize
                          Versions.toy_sha256 Editor.toy_metadataBody Editor.toy_restoreBody
                          Editor.toy_file_json Editor.toy_version_json 10
                          Versions.env_after_content_update
                          (Editor.editor_request "GET" "u1" []) "/api/versions/f1/1" _))).
  reflexivity.
Defined.

Lemma owner_in_the_body_hands_the_file_over_witness :
  res_status
    (Editor.handleFileEditorRequest Editor.toy_verify Versions.toy_jsonSize
       Versions.toy_sha256 Editor.toy_metadataBody Editor.toy_file_json
       Editor.toy_version_json 20
       (Editor.handleFileEditorRequest Editor.toy_verify Versions.toy_jsonSize
          Versions.toy_sha256 Editor.toy_metadataBody Editor.toy_file_json
          Editor.toy_version_json 10 Versions.env_two_files
          (Editor.editor_request "PUT" "u1" [x7b; x7d]%byte)
          "/api/file-editor/f1/metadata").1
       (Editor.editor_request "PUT" "u1" [x7b; x7d]%byte)
       "/api/file-editor/f1/metadata").2
  = 403.
Proof.
  destruct (owner_in_the_body_hands_the_file_over Editor.toy_verify Versions.toy_jsonSize
              Versions.toy_sha256 Editor.toy_metadataBody Editor.toy_file_json
              Editor.toy_version_json 10 20 Versions.env_two_files
              (Editor.editor_request "PUT" "u1" [x7b; x7d]%byte)
              (Editor.editor_request "PUT" "u1" [x7b; x7d]%byte)
              "/api/file-editor/f1/metadata" "/api/file-editor/f1/metadata" "f1" "u2"
              (Editor.user_of "u1") (Editor.user_of "u2") (Editor.patch_owner "u2")
              (Versions.sample_file "f1" "report.txt" 1)
              eq_refl eq_refl eq_refl eq_refl eq_refl eq_refl eq_refl eq_refl
              ltac:(discriminate) eq_refl)
    as (_ & Hrefused & _).
  rewrite (Hrefused eq_refl). reflexivity.
Defined.

(** ** The path obfuscator, continued *)

Section ComplexityFacts.
Import PathObfuscator.

Variable digest : string -> list byte -> list byte.
Variable timestamp : Z.
Variable randomSeed : string.
Variable entropy : string -> Z.

Lemma sizeFactor_bounds category : 1 <= sizeFactor category <= 5.
Proof.
  unfold sizeFactor.
  repeat match goal with |- context [if ?b then _ else _] => destruct b end; lia.
Qed.

Lemma typeFactor_bounds category : 2 <= typeFactor category <= 5.
Proof.
  unfold typeFactor.
  repeat match goal with |- context [if ?b then _ else _] => destruct b end; lia.
Qed.

(** X20. The complexity of an analysed file is never below 5: the base
    of 1, a name complexity of at least 1, a size factor of at least 1
    and a type factor of at least 2 always add up.  The lower clamp of
    the directory depth at 3 therefore never applies, and every generated
    path has between 5 and 8 directories. *)
Theorem directory_depth_is_at_least_five (originalFileName : string)
    (fileBuffer : option (list byte)) (userPath : option string) (uploadType : string)
    (extension : string) :
  let metadata := analyzeFileMetadata digest entropy originalFileName fileBuffer extension in
  5 <= calculateMetadataComplexity metadata <= 10
  /\ pathComplexity_of metadata = Z.min (calculateMetadataComplexity metadata) 8
  /\ (5 <= length (directories_of digest timestamp randomSeed entropy
                     originalFileName fileBuffer userPath uploadType) <= 8)%nat.
Proof.
  intros metadata.
  assert (Hc : forall ext,
             5 <= calculateMetadataComplexity
                    (analyzeFileMetadata digest entropy originalFileName fileBuffer ext) <= 10).
  { intros ext. unfold calculateMetadataComplexity. cbn [nameComplexity sizeCategory
      typeCategory hasSpecialChars wordCount digitCount nameLength entropyTenths
      analyzeFileMetadata].
    pose proof (calculateNameComplexity_pos originalFileName).
    pose proof (sizeFactor_bounds match fileBuffer with
                                  | Some b => categorizeSizeComplexity (Z.of_nat (length b))
                                  | None => "unknown"
                                  end).
    pose proof (typeFactor_bounds (categorizeFileType ext)).
    repeat match goal with |- context [if ?b then _ else _] => destruct b end; lia. }
  split; [apply Hc|]. split.
  - unfold pathComplexity_of. specialize (Hc extension). fold metadata in Hc. lia.
  - unfold directories_of, generateMetadataDirectoryStructure, pathComplexity_of.
    rewrite length_app, nested_directories_length. cbn [length].
    specialize (Hc (JS.toLowerCase (last_part originalFileName))). lia.
Qed.

Lemma to_int32_range z : - 2 ^ 31 <= to_int32 z < 2 ^ 31.
Proof.
  unfold to_int32. pose proof (Z.mod_pos_bound z (2 ^ 32) ltac:(lia)).
  destruct (Z.geb_spec (z mod 2 ^ 32) (2 ^ 31)); lia.
Qed.

Lemma fallback_hash_range hash s :
  - 2 ^ 31 <= hash < 2 ^ 31 -> - 2 ^ 31 <= fallback_hash hash s < 2 ^ 31.
Proof.
  revert hash. induction s as [|c s IH]; intros hash Hh; [exact Hh|].
  cbn [fallback_hash]. apply IH. apply to_int32_range.
Qed.

End ComplexityFacts.

Section FileNameFacts.
Import PathObfuscator FileName.

Lemma forall_string_app p a b :
  forall_string p (a +:+ b) = forall_string p a && forall_string p b.
Proof.
  induction a as [|c a IH]; [reflexivity|].
  rewrite append_cons. cbn [forall_string]. by rewrite IH, andb_assoc.
Qed.

Lemma length_append (a b : string) :
  String.length (a +:+ b) = (String.length a + String.length b)%nat.
Proof. induction a as [|c a IH]; [reflexivity|]. rewrite append_cons. cbn. by rewrite IH. Qed.

Lemma length_repeat_char n c : String.length (repeat_char n c) = n.
Proof. induction n as [|n IH]; cbn; [reflexivity|]. by rewrite IH. Qed.

Lemma forall_string_repeat_char p n c : p c = true -> forall_string p (repeat_char n c) = true.
Proof. intros Hc. induction n as [|n IH]; cbn; [reflexivity|]. by rewrite Hc, IH. Qed.

Lemma digit_char_hex d : 0 <= d < 16 -> hex_digit (JS.digit_char d) = true.
Proof.
  intros Hd. assert (H : forallb (fun i => hex_digit (JS.digit_char (Z.of_nat i))) (seq 0 16)
                         = true) by (vm_compute; reflexivity).
  rewrite forallb_forall in H. specialize (H (Z.to_nat d)).
  rewrite Z2Nat.id in H by lia. apply H. apply in_seq. lia.
Qed.

Lemma radix_go_hex fuel n acc k :
  0 <= n < 16 ^ Z.of_nat k -> (1 <= k)%nat ->
  forall_string hex_digit acc = true ->
  (String.length (JS.radix_go fuel 16 n acc) <= k + String.length acc)%nat
  /\ forall_string hex_digit (JS.radix_go fuel 16 n acc) = true.
Proof.
  revert n acc k. induction fuel as [|fuel IH]; intros n acc k Hn Hk Hacc; cbn [JS.radix_go].
  - split; [lia | exact Hacc].
  - destruct (Z.ltb_spec n 16) as [Hlt|Hge].
    + cbn [String.length forall_string]. rewrite digit_char_hex by lia. split; [lia | exact Hacc].
    + destruct k as [|[|k]]; [lia | cbn in Hn; lia |].
      destruct (IH (n / 16) (String (JS.digit_char (n mod 16)) acc) (S k)) as [Hlen Hall].
      * split; [apply Z.div_pos; lia|]. apply Z.div_lt_upper_bound; [lia|].
        replace (16 * 16 ^ Z.of_nat (S k)) with (16 ^ Z.of_nat (S (S k))); [lia|].
        rewrite (Nat2Z.inj_succ (S k)), Z.pow_succ_r by lia. reflexivity.
      * lia.
      * cbn [forall_string]. rewrite digit_char_hex, Hacc; [reflexivity|].
        apply Z.mod_pos_bound. lia.
      * cbn [String.length] in Hlen. split; [lia | exact Hall].
Qed.

(** X21. The fallback checksum of a file name is always made of exactly
    eight hexadecimal digits, whatever the name is. *)
Theorem generateFallbackChecksum_is_eight_hex_digits (fileName : string) :
  String.length (generateFallbackChecksum fileName) = 8%nat
  /\ forall_string hex_digit (generateFallbackChecksum fileName) = true.
Proof.
  unfold generateFallbackChecksum, padStart, JS.toString_radix.
  pose proof (fallback_hash_range 0 fileName ltac:(lia)) as Hrange.
  destruct (radix_go_hex (S (Z.to_nat (Z.log2 (Z.abs (fallback_hash 0 fileName))))) 
              (Z.abs (fallback_hash 0 fileName)) "" 8) as [Hlen Hall];
    [change (16 ^ Z.of_nat 8) with (2 ^ 32); lia | lia | reflexivity |].
  cbn [String.length] in Hlen. split.
  - rewrite length_append, length_repeat_char. lia.
  - rewrite forall_string_app, Hall, forall_string_repeat_char; reflexivity.
Qed.

Lemma charAt_segment_chars i :
  0 <= i < 62 ->
  exists c, charAt i segment_chars = String c "" /\ JS.is_alnum c = true.
Proof.
  intros Hi.
  assert (H : forallb (fun k => match charAt (Z.of_nat k) segment_chars with
                                | String c EmptyString => JS.is_alnum c
                                | _ => false
                                end) (seq 0 62) = true) by (vm_compute; reflexivity).
  rewrite forallb_forall in H. specialize (H (Z.to_nat i)).
  rewrite Z2Nat.id in H by lia.
  destruct (charAt i segment_chars) as [|c [|? ?]];
    try (discriminate H; apply in_seq; lia).
  exists c. split; [reflexivity|]. apply H. apply in_seq. lia.
Qed.

Lemma influenced_go_shape seedHash count :
  0 <= seedHash ->
  String.length (influenced_go seedHash count) = count
  /\ forall_string JS.is_alnum (influenced_go seedHash count) = true.
Proof.
  revert seedHash. induction count as [|count IH]; intros seedHash Hs; [by split|].
  cbn [influenced_go].
  set (seedHash' := Z.rem (seedHash * 9301 + 49297) 233280).
  assert (Hs' : 0 <= seedHash' < 233280) by (apply Z.rem_bound_pos; lia).
  destruct (charAt_segment_chars (Z.rem seedHash' (Z.of_nat (String.length segment_chars))))
    as (c & -> & Hc).
  - change (Z.of_nat (String.length segment_chars)) with 62. apply Z.rem_bound_pos; lia.
  - destruct (IH seedHash' ltac:(lia)) as [Hlen Hall].
    rewrite append_cons. cbn [String.length forall_string].
    change ("" +:+ influenced_go seedHash' count) with (influenced_go seedHash' count).
    rewrite Hlen, Hc, Hall. by split.
Qed.

Lemma char_code_sum_nonneg s : 0 <= JS.char_code_sum s.
Proof.
  induction s as [|c s IH]; cbn [JS.char_code_sum]; [lia|].
  unfold JS.code. lia.
Qed.

(** X22. The seeded segment generator returns exactly as many
    characters as it is asked for, all of them letters or digits, and so
    none of them a path separator. *)
Theorem generateInfluencedRandomSegment_shape (seed : string) (length : Z) :
  String.length (generateInfluencedRandomSegment seed length) = Z.to_nat length
  /\ forall_string JS.is_alnum (generateInfluencedRandomSegment seed length) = true.
Proof. apply influenced_go_shape, char_code_sum_nonneg. Qed.

Lemma take_string_all n s : (String.length s <= n)%nat -> JS.take_string n s = s.
Proof.
  revert s. induction n as [|n IH]; intros [|c s] Hn; cbn in *; try reflexivity; try lia.
  rewrite IH by lia. reflexivity.
Qed.

Lemma length_drop_string n s :
  String.length (JS.drop_string n s) = (String.length s - n)%nat.
Proof. revert s. induction n as [|n IH]; intros [|c s]; cbn; try reflexivity. apply IH. Qed.

Lemma substr_inside a b s :
  0 <= a <= b -> b <= Z.of_nat (String.length s) ->
  JS.substr a b s = JS.take_string (Z.to_nat (b - a)) (JS.drop_string (Z.to_nat a) s).
Proof.
  intros Hab Hb. unfold JS.substr, JS.substring.
  replace (Z.min (Z.max a 0) (Z.of_nat (String.length s))) with a by lia.
  replace (Z.min (Z.max b 0) (Z.of_nat (String.length s))) with b by lia.
  replace (Z.min a b) with a by lia. replace (Z.max a b) with b by lia.
  f_equal. lia.
Qed.

Lemma substr_below a b s : a <= 0 -> JS.substr a b s = JS.substr 0 b s.
Proof.
  intros Ha. unfold JS.substr. by replace (Z.max a 0) with (Z.max 0 0) by lia.
Qed.

Lemma substr_comm a b s : JS.substr a b s = JS.substr b a s.
Proof.
  unfold JS.substr.
  set (a' := Z.min (Z.max a 0) (Z.of_nat (String.length s))).
  set (b' := Z.min (Z.max b 0) (Z.of_nat (String.length s))).
  by rewrite (Z.min_comm a' b'), (Z.max_comm a' b').
Qed.

Lemma append_empty (s : string) : s +:+ "" = s.
Proof. induction s as [|c s IH]; [reflexivity|]. rewrite append_cons. by rewrite IH. Qed.

(** X23. Rotating a segment moves a prefix of it to its end: the result
    has the characters of the segment in cyclic order, and in particular
    its length.  Rotating by a multiple of the length changes nothing,
    and the empty segment is replaced by the text [default]. *)
Theorem rotateSegment_is_a_rotation (segment : string) (rotateBy : Z) :
  (segment <> "" ->
     exists front back,
       segment = front +:+ back /\ rotateSegment segment rotateBy = back +:+ front)
  /\ (segment <> "" -> Z.rem rotateBy (Z.of_nat (String.length segment)) = 0 ->
        rotateSegment segment rotateBy = segment)
  /\ rotateSegment "" rotateBy = "default".
Proof.
  assert (Hparts : segment <> "" ->
            exists front back,
              segment = front +:+ back /\ rotateSegment segment rotateBy = back +:+ front
              /\ (Z.rem rotateBy (Z.of_nat (String.length segment)) = 0 -> front = "")).
  { intros Hne. unfold rotateSegment.
    destruct (String.eqb_spec segment "") as [?|_]; [done|].
    destruct (Z.eqb_spec rotateBy 0) as [->|Hr].
    { exists "", segment. split; [reflexivity|]. split; [|done]. by rewrite append_empty. }
    set (len := Z.of_nat (String.length segment)).
    assert (Hlen : 0 < len) by (destruct segment; [done | unfold len; cbn; lia]).
    set (rotation := Z.rem rotateBy len).
    destruct (Z.le_gt_cases 0 rotateBy) as [Hpos|Hneg].
    - assert (Hrot : 0 <= rotation < len) by (apply Z.rem_bound_pos; lia).
      exists (JS.take_string (Z.to_nat rotation) segment),
             (JS.drop_string (Z.to_nat rotation) segment).
      split; [by rewrite take_drop_string|]. split.
      + rewrite !substr_inside by (fold len; lia). f_equal.
        * apply take_string_all. rewrite length_drop_string. unfold len. lia.
        * rewrite Z.sub_0_r. reflexivity.
      + intros H0. rewrite H0. by destruct segment.
    - assert (Hrot : - len < rotation <= 0).
      { pose proof (Z.rem_bound_pos_neg rotateBy len ltac:(lia) ltac:(lia)).
        unfold rotation. lia. }
      exists "", segment. split; [reflexivity|]. split; [|done].
      rewrite (substr_below rotation) by lia.
      rewrite (substr_comm 0 rotation), (substr_below rotation) by lia.
      rewrite !substr_inside by (fold len; lia).
      rewrite Z.sub_0_r. change (Z.to_nat (0 - 0)) with 0%nat.
      change (Z.to_nat 0) with 0%nat.
      change (JS.drop_string 0 segment) with segment.
      rewrite (take_string_all (Z.to_nat len)) by (unfold len; lia).
      by destruct segment. }
  split; [|split].
  - intros Hne. destruct (Hparts Hne) as (front & back & H1 & H2 & _). by exists front, back.
  - intros Hne H0. destruct (Hparts Hne) as (front & back & H1 & H2 & H3).
    rewrite H2, H1, (H3 H0). apply append_empty.
  - reflexivity.
Qed.

(** With an entropy level that is not a whole number, no index computed
    by the arrangement is a whole number, and every read of a segment
    yields [undefined]. *)
Lemma arranged_segment_undefined segments metadata i :
  Z.rem (entropyTenths metadata) 10 <> 0 ->
  arranged_segment segments (offsetTenths (calculateSegmentArrangement metadata)) i = None.
Proof.
  intros Hfrac. unfold arranged_segment, calculateSegmentArrangement. cbn [offsetTenths].
  assert (Hentropy : JS.or_num (Some (entropyTenths metadata)) 10 = entropyTenths metadata).
  { unfold JS.or_num. destruct (Z.eqb_spec (entropyTenths metadata) 0) as [H0|]; [|reflexivity].
    rewrite H0 in Hfrac. done. }
  rewrite Hentropy.
  set (complexity := 10 * JS.or_num (Some (nameComplexity metadata)) 1 + entropyTenths metadata).
  set (index := Z.rem (10 * i + Z.rem complexity 70) (10 * Z.of_nat (length segments))).
  destruct (Z.eqb_spec (Z.rem index 10) 0) as [Hz|]; [|reflexivity].
  exfalso. apply Hfrac.
  apply Z.rem_divide in Hz; [|lia]. apply Z.rem_divide; [lia|].
  assert (H1 : (10 | 10 * i + Z.rem complexity 70)).
  { unfold index in Hz.
    rewrite (Z.quot_rem' (10 * i + Z.rem complexity 70) (10 * Z.of_nat (length segments))).
    apply Z.divide_add_r; [|exact Hz].
    rewrite <- Z.mul_assoc. apply Z.divide_factor_l. }
  assert (H2 : (10 | Z.rem complexity 70)).
  { apply (Z.divide_add_cancel_r _ (10 * i)); [apply Z.divide_factor_l | exact H1]. }
  assert (H3 : (10 | complexity)).
  { rewrite (Z.quot_rem' complexity 70). apply Z.divide_add_r; [|exact H2].
    change 70 with (10 * 7). rewrite <- Z.mul_assoc. apply Z.divide_factor_l. }
  unfold complexity in H3.
  apply (Z.divide_add_cancel_r _ (10 * JS.or_num (Some (nameComplexity metadata)) 1));
    [apply Z.divide_factor_l | exact H3].
Qed.

(** X24. When the entropy level of the file name is not a whole number,
    the assembled file name does not depend on what the segments are, only
    on how many there are: every segment is read at an index that is not
    a whole number and is replaced by the fallback text [seg] followed by
    its position. *)
Theorem assembled_name_ignores_the_segments (segments segments' : list string)
    (metadata : FileAnalysis) (combinedHash : string) :
  Z.rem (entropyTenths metadata) 10 <> 0 ->
  length segments = length segments' ->
  (forall i, arrange segments (calculateSegmentArrangement metadata) metadata i
             = arrange [] (calculateSegmentArrangement metadata) metadata i)
  /\ assembleMetadataObfuscatedFilename segments metadata combinedHash
     = assembleMetadataObfuscatedFilename segments' metadata combinedHash.
Proof.
  intros Hfrac Hlen.
  assert (Harrange : forall segs i,
            arrange segs (calculateSegmentArrangement metadata) metadata i
            = arrange [] (calculateSegmentArrangement metadata) metadata i).
  { intros segs i. unfold arrange. by rewrite !arranged_segment_undefined. }
  split; [apply Harrange|].
  unfold assembleMetadataObfuscatedFilename.
  set (segs := match segments with [] => ["fallback"; "segment"] | _ => segments end).
  set (segs' := match segments' with [] => ["fallback"; "segment"] | _ => segments' end).
  assert (Hlen' : length segs = length segs').
  { unfold segs, segs'. destruct segments, segments'; cbn in *; congruence. }
  assert (Heq : arrange segs (calculateSegmentArrangement metadata) metadata
                  <$> (Z.of_nat <$> seq 0 (length segs))
                = arrange segs' (calculateSegmentArrangement metadata) metadata
                  <$> (Z.of_nat <$> seq 0 (length segs'))).
  { rewrite Hlen'. apply list_fmap_ext. intros _ i _. by rewrite Harrange, (Harrange segs'). }
  by rewrite Heq.
Qed.

End FileNameFacts.

Lemma assembled_name_ignores_the_segments_witness :
  FileName.assembleMetadataObfuscatedFilename ["3f9a12bc"; "77e0c1"] FileName.sample_analysis
    "abcdef0123456789"
  = FileName.assembleMetadataObfuscatedFilename ["00000000"; "ffffff"] FileName.sample_analysis
      "abcdef0123456789".
Proof.
  refine (proj2 (assembled_name_ignores_the_segments ["3f9a12bc"; "77e0c1"]
                   ["00000000"; "ffffff"] FileName.sample_analysis "abcdef0123456789" _ _)).
  - vm_compute. discriminate.
  - reflexivity.
Defined.

Lemma rotateSegment_is_a_rotation_witness :
  FileName.rotateSegment "abcdef" 8 = "cdefab".
Proof.
  destruct (proj1 (rotateSegment_is_a_rotation "abcdef" 8) ltac:(discriminate))
    as (front & back & _ & Hrot).
  rewrite Hrot. vm_compute in Hrot. exact (eq_sym Hrot).
Defined.

(** ** Content types and cache lifetimes *)

Section ServingFacts.
Import Serving.

Lemma assoc_In key table value :
  assoc key table = Some value -> In (key, value) table.
Proof.
  induction table as [|[k v] rest IH]; [discriminate|]. cbn [assoc].
  destruct (String.eqb_spec key k) as [->|_].
  - intros [= ->]. by left.
  - intros H. right. by apply IH.
Qed.

Lemma in_list_In x l : PathObfuscator.in_list x l = true -> In x l.
Proof.
  unfold PathObfuscator.in_list. rewrite existsb_exists.
  intros (y & Hy & Heq). apply String.eqb_eq in Heq. by subst.
Qed.

Lemma from_last_dot_starts s t :
  from_last_dot s = Some t -> exists rest, t = String "." rest.
Proof.
  revert t. induction s as [|c s IH]; intros t; [discriminate|]. cbn [from_last_dot].
  destruct (from_last_dot s) as [u|].
  - intros [= <-]. by apply IH.
  - destruct (Ascii.eqb_spec c ".") as [->|_]; [|discriminate].
    intros [= <-]. by exists s.
Qed.

(** X25. The table of cache lifetimes and the table of content types
    agree.  A path gets the lifetime of images exactly when its content
    type is an [image/] type, the lifetime of fonts exactly when its
    content type is a font type, and one day exactly when it is a style
    sheet or a script; every other path gets one hour.  A path with a dot
    in it always has a text as its content type. *)
Theorem cache_lifetime_matches_content_type (pathname : string) :
  (getCacheTTL pathname = IMAGES
   <-> exists m, getContentType pathname = Mime m /\ JS.startsWith "image/" m = true)
  /\ (getCacheTTL pathname = FONTS
      <-> exists m, getContentType pathname = Mime m
                    /\ (JS.startsWith "font/" m = true
                        \/ m = "application/vnd.ms-fontobject"))
  /\ (getCacheTTL pathname = 86400
      <-> getContentType pathname = Mime "text/css"
          \/ getContentType pathname = Mime "application/javascript")
  /\ (getCacheTTL pathname = IMAGES \/ getCacheTTL pathname = FONTS
      \/ getCacheTTL pathname = 86400 \/ getCacheTTL pathname = 3600)
  /\ (from_last_dot pathname <> None -> exists m, getContentType pathname = Mime m).
Proof.
  assert (Hdot : from_last_dot pathname <> None ->
                 PathObfuscator.in_list (extension pathname) ["constructor"; "__proto__"]
                 = false).
  { intros Hsome. unfold extension.
    destruct (from_last_dot pathname) as [t|] eqn:Ht; [|done].
    apply from_last_dot_starts in Ht as [rest ->]. reflexivity. }
  unfold getCacheTTL, getContentType. revert Hdot.
  generalize (extension pathname). intros ext Hdot.
  destruct (assoc ext mime_table) as [m|] eqn:Hm.
  - apply assoc_In in Hm. cbn [In mime_table] in Hm.
    repeat (destruct Hm as [[= <- <-]|Hm];
            [vm_compute;
             repeat split; try discriminate; try tauto; try (intros _; by eexists);
             try (intros _; eexists; split; [reflexivity | tauto]);
             try (intros [? [[= <-] ?]]; done);
             try (intros [? [[= <-] [?|?]]]; done);
             try (intros [?|?]; done)|]).
    done.
  - assert (Hnone : forall l, (forall x, In x l -> assoc x mime_table <> None) ->
                              PathObfuscator.in_list ext l = false).
    { intros l Hl. apply not_true_is_false. intros Hin. apply in_list_In in Hin.
      by apply (Hl ext Hin). }
    rewrite !Hnone
      by (intros x Hx; cbn [In] in Hx;
          repeat (destruct Hx as [<-|Hx]; [vm_compute; discriminate|]); done).
    unfold IMAGES, FONTS, DEFAULT.
    split; [|split; [|split; [|split]]].
    + split; [discriminate|]. intros (m & Heq & Hstart).
      destruct (PathObfuscator.in_list ext _); [discriminate|].
      injection Heq as <-. discriminate Hstart.
    + split; [discriminate|]. intros (m & Heq & Hfont).
      destruct (PathObfuscator.in_list ext _); [discriminate|].
      injection Heq as <-. destruct Hfont; discriminate.
    + split; [discriminate|].
      destruct (PathObfuscator.in_list ext _); intros [?|?]; discriminate.
    + tauto.
    + intros Hsome. rewrite (Hdot Hsome). by eexists.
Qed.

End ServingFacts.

Lemma cache_lifetime_matches_content_type_witness :
  Serving.getCacheTTL "/assets/fonts/Inter.v3.WOFF2" = Serving.FONTS.
Proof.
  apply (proj2 (proj1 (proj2 (cache_lifetime_matches_content_type
                                "/assets/fonts/Inter.v3.WOFF2")))).
  exists "font/woff2". split; [reflexivity | by left].
Defined.

(** ** Searching the asset index *)

Section SearchFacts.
Import Search.

Lemma slice_from_start {A} (l : list A) (e : Z) :
  JS.slice l 0 e
  = take (Z.to_nat (if e <? 0 then Z.of_nat (length l) + e else e)) l.
Proof.
  unfold JS.slice, JS.clamp_index. change (0 <? 0) with false. cbv iota.
  rewrite (Z.min_l 0) by lia. rewrite Z.sub_0_r. change (Z.to_nat 0) with 0%nat.
  rewrite drop_0.
  destruct (Z.ltb_spec e 0).
  - destruct (Z.max_spec (Z.of_nat (length l) + e) 0) as [[? ->]|[? ->]]; [|reflexivity].
    replace (Z.to_nat (Z.of_nat (length l) + e)) with 0%nat by lia. reflexivity.
  - destruct (Z.min_spec e (Z.of_nat (length l))) as [[? ->]|[? ->]]; [reflexivity|].
    rewrite !take_ge by lia. reflexivity.
Qed.

Lemma performAssetSearch_slice assets query limit :
  performAssetSearch assets query limit
  = fst <$> JS.slice (ranked assets query) 0 (default 0 limit).
Proof.
  unfold performAssetSearch. destruct assets; [|reflexivity].
  change (ranked [] query) with (@nil (Asset * Z)).
  rewrite slice_from_start. by rewrite take_nil.
Qed.

(** X26. What a search returns.  The results are assets of the index
    whose score for the query is positive, in the order of the ranking
    (highest score first).  A limit that is not a number, or 0, gives no
    result; a limit [n >= 0] gives the first [n] matches; a negative limit
    [-k] is not refused: it gives all matches but the last [k], however
    many these are.  The limit computed from the URL is at most 50, so a
    non-negative [limit] parameter yields at most 50 results. *)
Theorem performAssetSearch_results (assets : list Asset) (query : string)
    (limit : option Z) :
  let searchQuery := trim (Serving.toLowerCase query) in
  let matches := ranked assets query in
  let results := performAssetSearch assets query limit in
  (forall asset, asset ∈ results ->
     asset ∈ assets /\ 0 < score searchQuery (split_spaces searchQuery) asset)
  /\ StronglySorted (fun a b => b.2 <= a.2) matches
  /\ (exists n, results = take n (fst <$> matches))
  /\ (limit = None \/ limit = Some 0 -> results = [])
  /\ (forall n, limit = Some n -> 0 <= n ->
        length results = Nat.min (Z.to_nat n) (length matches))
  /\ (forall k, limit = Some (- k) -> 0 < k ->
        length results = (length matches - Z.to_nat k)%nat)
  /\ (forall limitParam n,
        limit = search_limit limitParam -> limit = Some n -> 0 <= n ->
        (length results <= 50)%nat).
Proof.
  intros searchQuery matches results.
  assert (Hres : results
                 = take (Z.to_nat (if default 0 limit <? 0
                                   then Z.of_nat (length matches) + default 0 limit
                                   else default 0 limit))
                        (fst <$> matches)).
  { unfold results. rewrite performAssetSearch_slice, slice_from_start. fold matches.
    by rewrite fmap_take. }
  assert (Hlen : forall n, limit = Some n -> 0 <= n ->
                 length results = Nat.min (Z.to_nat n) (length matches)).
  { intros n -> Hn. rewrite Hres. cbn [default id].
    destruct (Z.ltb_spec n 0); [lia|]. by rewrite length_take, length_fmap. }
  split; [|split; [|split; [|split; [|split; [|split]]]]].
  - intros asset Hin. rewrite Hres in Hin. apply subseteq_take in Hin.
    apply list_elem_of_fmap in Hin as ([asset' s] & -> & Hin). cbn [fst].
    unfold matches, ranked in Hin. rewrite sort_perm in Hin.
    apply list_elem_of_filter in Hin as [Hpos Hin]. cbn [snd] in Hpos.
    apply list_elem_of_fmap in Hin as (asset'' & [= -> ->] & Hin).
    split; [exact Hin | exact Hpos].
  - apply (sort_desc (A := Asset * Z) snd).
  - by eexists.
  - intros [-> | ->]; rewrite Hres; cbn; by rewrite take_0.
  - exact Hlen.
  - intros k -> Hk. rewrite Hres. cbn [default id].
    destruct (Z.ltb_spec (- k) 0); [|lia].
    rewrite length_take, length_fmap. lia.
  - intros limitParam n Hlimit Hsome Hn. rewrite (Hlen n Hsome Hn).
    rewrite Hsome in Hlimit. unfold search_limit in Hlimit.
    destruct (Editor.parseInt_auto _) as [m|]; [|discriminate].
    cbn in Hlimit. injection Hlimit as ->. lia.
Qed.

End SearchFacts.

Lemma performAssetSearch_results_witness :
  length (Search.search_results (Some "icon") (Some "-1") Search.sixty_icons) = 59%nat.
Proof.
  pose proof (proj1 (proj2 (proj2 (proj2 (proj2 (proj2
                (performAssetSearch_results Search.sixty_icons "icon" (Some (- 1))))))))
                1 eq_refl ltac:(lia)) as H.
  vm_compute in H. exact H.
Defined.

(** ** The upload endpoint *)

Section UploadGate.
Import Store Quota.

Variable verifyUserAuthentication : Request -> option User.
Variable handleDirectUpload : Env -> Request -> User -> Env * Response.
Variable handleDatabaseUpload : Env -> Request -> User -> Env * Response.

Local Abbreviation handleUploadRequest :=
  (Quota.handleUploadRequest verifyUserAuthentication handleDirectUpload handleDatabaseUpload).

(** X27. The upload endpoint hands a request to an upload handler only
    when it is a POST with a verified token whose user is within quota,
    sent to one of the two upload paths; in every other case the stores
    are left as they are.  A pre-flight OPTIONS request is answered 200
    without a token, any other method but POST is answered 405 before the
    token is looked at. *)
Theorem uploads_pass_three_checks (now : Z) (env : Env) (request : Request)
    (pathname : string) :
  let out := handleUploadRequest now env request pathname in
  (out.1 <> env ->
     req_method request = "POST"
     /\ exists user,
          verifyUserAuthentication request = Some user
          /\ canUpload (checkUserQuota env user) = true
          /\ ((pathname = "/api/upload/direct" /\ out = handleDirectUpload env request user)
              \/ (pathname = "/api/upload/database"
                  /\ out = handleDatabaseUpload env request user)))
  /\ (req_method request = "OPTIONS" -> res_status out.2 = 200 /\ res_body out.2 = BNone)
  /\ (req_method request <> "OPTIONS" -> req_method request <> "POST" ->
        out = (env, createErrorResponse now 405 "Method not allowed")).
Proof.
  intros out. subst out. unfold Quota.handleUploadRequest. split; [|split].
  - destruct (String.eqb_spec (req_method request) "OPTIONS"); [done|].
    destruct (String.eqb_spec (req_method request) "POST") as [Hpost|]; [|done].
    cbn [negb].
    destruct (verifyUserAuthentication request) as [user|] eqn:Hauth; [|done].
    destruct (canUpload (checkUserQuota env user)) eqn:Hquota; [|done]. cbn [negb].
    destruct (String.eqb_spec pathname "/api/upload/direct") as [->|].
    { intros _. split; [exact Hpost|]. exists user. repeat split; try done. by left. }
    destruct (String.eqb_spec pathname "/api/upload/database") as [->|]; [|done].
    intros _. split; [exact Hpost|]. exists user. repeat split; try done. by right.
  - intros ->. by cbn.
  - intros Hopt Hpost.
    destruct (String.eqb_spec (req_method request) "OPTIONS"); [done|].
    by destruct (String.eqb_spec (req_method request) "POST").
Qed.

End UploadGate.

Lemma uploads_pass_three_checks_witness :
  Quota.handleUploadRequest (fun _ => Some Quota.sample_user)
    (fun env _ _ => (Store.empty_env, json_response JNull))
    (fun env _ _ => (Store.empty_env, json_response JNull))
    0 Quota.env_100_files (Editor.editor_request "PUT" "u1" []) "/api/upload/direct"
  = (Quota.env_100_files, createErrorResponse 0 405 "Method not allowed")
  /\ exists user,
       Quota.canUpload (Quota.checkUserQuota Quota.env_100_files user) = true
       /\ Store.user_role user = Some "constructor".
Proof.
  split.
  - refine (proj2 (proj2 (uploads_pass_three_checks (fun _ => Some Quota.sample_user)
                            (fun env _ _ => (Store.empty_env, json_response JNull))
                            (fun env _ _ => (Store.empty_env, json_response JNull))
                            0 Quota.env_100_files (Editor.editor_request "PUT" "u1" [])
                            "/api/upload/direct")) _ _); discriminate.
  - destruct (proj1 (uploads_pass_three_checks (fun _ => Some Quota.constructor_user)
                       (fun env _ _ => (Store.empty_env, json_response JNull))
                       (fun env _ _ => (Store.empty_env, json_response JNull))
                       0 Quota.env_100_files Quota.post_request "/api/upload/direct"))
      as (_ & user & Hauth & Hquota & _).
    + vm_compute. discriminate.
    + exists user. split; [exact Hquota|]. by injection Hauth as <-.
Defined.

(** ** The path handed to a worker *)

Section RouteFacts.
Import Proxy.

Local Abbreviation has_slash := (JS.exists_string (fun c => Ascii.eqb c "/")).

Lemma split_go_app sep cur x t :
  JS.exists_string (fun c => Ascii.eqb c sep) x = false ->
  JS.split_go sep cur (x +:+ String sep t)
  = String.rev_app cur x :: JS.split_go sep EmptyString t.
Proof.
  revert cur. induction x as [|c x IH]; intros cur Hx.
  - change ("" +:+ String sep t) with (String sep t).
    change (JS.split_go sep cur (String sep t))
      with (if Ascii.eqb sep sep then String.rev cur :: JS.split_go sep EmptyString t
            else JS.split_go sep (String sep cur) t).
    by rewrite Ascii.eqb_refl.
  - change (JS.exists_string (fun c => Ascii.eqb c sep) (String c x))
      with (Ascii.eqb c sep || JS.exists_string (fun c => Ascii.eqb c sep) x) in Hx.
    apply orb_false_elim in Hx as [Hc Hx].
    rewrite append_cons.
    change (JS.split_go sep cur (String c (x +:+ String sep t)))
      with (if Ascii.eqb c sep
            then String.rev cur :: JS.split_go sep EmptyString (x +:+ String sep t)
            else JS.split_go sep (String c cur) (x +:+ String sep t)).
    rewrite Hc. by rewrite IH.
Qed.

(** Splitting a joined list of separator-free texts gives the list. *)
Lemma split_join sep segs :
  segs <> [] ->
  Forall (fun seg => JS.exists_string (fun c => Ascii.eqb c sep) seg = false) segs ->
  JS.split sep (JS.join (String sep "") segs) = segs.
Proof.
  intros Hne Hall. unfold JS.split.
  induction Hall as [|x [|y rest] Hx Hrest IH]; [done| |].
  - cbn [JS.join]. by rewrite split_go_whole.
  - change (JS.join (String sep "") (x :: y :: rest))
      with (x +:+ String sep "" +:+ JS.join (String sep "") (y :: rest)).
    change (String sep "" +:+ JS.join (String sep "") (y :: rest))
      with (String sep (JS.join (String sep "") (y :: rest))).
    rewrite split_go_app by exact Hx. by rewrite IH.
Qed.

Lemma path_parts_segments pathname :
  Forall (fun seg => seg <> "" /\ has_slash seg = false) (path_parts pathname).
Proof.
  unfold path_parts. apply Forall_forall. intros seg Hin.
  apply list_elem_of_filter in Hin as [Hne Hin]. split; [exact Hne|].
  apply list_elem_of_lookup in Hin as [i Hi]. by eapply split_parts.
Qed.

Lemma path_parts_join segs :
  Forall (fun seg => seg <> "" /\ has_slash seg = false) segs ->
  path_parts ("/" +:+ JS.join "/" segs) = segs.
Proof.
  intros Hall. unfold path_parts.
  destruct segs as [|x rest]; [reflexivity|].
  change ("/" +:+ JS.join "/" (x :: rest)) with (JS.join "/" ("" :: x :: rest)).
  rewrite split_join.
  - rewrite filter_cons_False by (intros H; by apply H).
    apply filter_all. eapply Forall_impl; [exact Hall|]. by intros seg [? _].
  - done.
  - constructor; [reflexivity|]. eapply Forall_impl; [exact Hall|]. by intros seg [_ ?].
Qed.

(** X28. The path handed to a worker is normalised: it is a slash
    followed by the non-empty segments of the request path after the
    worker name, joined by single slashes, so empty segments and a
    trailing slash of the request path are dropped.  Routing the
    normalised path again gives the same worker and the same path. *)
Theorem route_normalises_the_path (pathname workerName workerPath : string) :
  route pathname = Some (workerName, workerPath) ->
  (exists segs,
     workerPath = "/" +:+ JS.join "/" segs
     /\ Forall (fun seg => seg <> "" /\ has_slash seg = false) segs
     /\ path_parts workerPath = segs)
  /\ workerName <> "" /\ has_slash workerName = false
  /\ route ("/worker/" +:+ workerName +:+ workerPath) = Some (workerName, workerPath).
Proof.
  intros Hroute. unfold route in Hroute.
  pose proof (path_parts_segments pathname) as Hall.
  destruct (path_parts pathname) as [|first [|name segs]] eqn:Hparts; try discriminate.
  cbn [lookup list_lookup drop] in Hroute. rewrite drop_0 in Hroute.
  injection Hroute as <- <-.
  apply Forall_cons in Hall as [_ Hall]. apply Forall_cons in Hall as [[Hname Hslash] Hsegs].
  split; [|split; [exact Hname | split; [exact Hslash|]]].
  - exists segs. split; [reflexivity|]. split; [exact Hsegs|]. by apply path_parts_join.
  - assert (Hre : path_parts ("/worker/" +:+ name +:+ "/" +:+ JS.join "/" segs)
                  = "worker" :: name :: segs).
    { change ("/worker/" +:+ name +:+ "/" +:+ JS.join "/" segs)
        with ("/" +:+ ("worker" +:+ "/" +:+ name +:+ "/" +:+ JS.join "/" segs)).
      destruct segs as [|seg rest].
      - change (JS.join "/" []) with "".
        unfold path_parts.
        change ("/" +:+ "worker" +:+ "/" +:+ name +:+ "/" +:+ "")
          with (JS.join "/" [""; "worker"; name; ""]).
        rewrite split_join; [|done|by repeat constructor].
        rewrite filter_cons_False by (intros H; by apply H).
        rewrite filter_cons_True by done. rewrite filter_cons_True by done.
        by rewrite filter_cons_False by (intros H; by apply H).
      - change ("worker" +:+ "/" +:+ name +:+ "/" +:+ JS.join "/" (seg :: rest))
          with (JS.join "/" ("worker" :: name :: seg :: rest)).
        apply path_parts_join. constructor; [done|]. by constructor. }
    unfold route. rewrite Hre. reflexivity.
Qed.

End RouteFacts.

Lemma route_normalises_the_path_witness :
  Proxy.route "/worker/auth//v2///login/" = Some ("auth", "/v2/login")
  /\ Proxy.route ("/worker/" +:+ "auth" +:+ "/v2/login") = Some ("auth", "/v2/login").
Proof.
  split; [reflexivity|].
  exact (proj2 (proj2 (proj2 (route_normalises_the_path "/worker/auth//v2///login/" "auth"
                                "/v2/login" eq_refl)))).
Defined.

Lemma range_bounds_never_negative_witness :
  res_status (RangeRequests.handleRangeRequest [] "bytes=0-" ∅ "video/mp4") = 416.
Proof.
  exact (proj2 (proj2 (proj2 (range_bounds_never_negative [] "bytes=0-" ∅ "video/mp4")))
           eq_refl).
Defined.

Lemma removeFromUserUploads_effect_witness :
  Store.get_uploads
    (Uploads.removeFromUserUploads UserUploads.env_7_uploads "u2" "/prod/na/a/b/c/f")
    (Store.user_uploads_key "u1")
  = Store.get_uploads UserUploads.env_7_uploads (Store.user_uploads_key "u1").
Proof.
  destruct (removeFromUserUploads_effect UserUploads.env_7_uploads "u2" "/prod/na/a/b/c/f")
    as (after & _ & _ & _ & Hothers & _).
  apply Hothers. discriminate.
Defined.

(** ** Updates that do not arrive, restores that do not undo *)

Section HistoryFacts.
Import Store Versions.

Variable jsonSize : FileMetadata -> Z.

Local Abbreviation createFileVersion := (Versions.createFileVersion jsonSize).
Local Abbreviation updateFileMetadata := (Versions.updateFileMetadata jsonSize).
Local Abbreviation restoreFileVersion := (Versions.restoreFileVersion jsonSize).

Lemma spread_twice m p : spread (spread m p) p = spread m p.
Proof.
  unfold spread. cbn.
  destruct p as [pid pname porig ppath pmime psize powner pownerId pcreated pmodified
                 pversion ppublic ptags pdesc pcustom]; cbn.
  destruct pid, pname, porig, ppath, pmime, psize, powner, pownerId, pcreated, pmodified,
    pversion, ppublic, ptags, pdesc, pcustom; reflexivity.
Qed.

Lemma spread_over_stamp m p modified version modified' version' :
  with_modified_version (spread (with_modified_version m modified version) p)
    modified' version'
  = with_modified_version (spread m p) modified' version'.
Proof. reflexivity. Qed.

(** X29. An update that the relational table does not take is reported
    as a success.  For a file with a row in the table, when the table
    rejects the UPDATE statement or the row belongs to another user, a
    metadata update still answers 200 with the next version number, but
    the metadata read afterwards is the metadata from before: the
    key-value record that holds the update is shadowed by the row. *)
Theorem rejected_database_update_is_answered_200 (now : Z) (env : Env) (fileId : string)
    (user : User) (updateData : Patch) (db : Database) (row : AssetRow) :
  ASSETS_DB env = Some db ->
  db_assets db !! fileId = Some row ->
  db_accepts_updates db = false \/ r_user_id row <> user_id user ->
  let out := updateFileMetadata now env fileId user updateData in
  let current := metadata_of_row fileId row in
  res_status out.2 = 200
  /\ (exists fields,
        res_body out.2 = BJson (JObj fields)
        /\ ("version", JNum (fm_version current + 1)) ∈ fields)
  /\ getFileMetadata out.1 fileId = Some current
  /\ get_file out.1 (file_key fileId)
     = Some (with_modified_version (spread current updateData) now (fm_version current + 1)).
Proof.
  intros Hdb Hrow Hreject out current.
  assert (Hm : getFileMetadata env fileId = Some current)
    by (unfold getFileMetadata, db_row; by rewrite Hdb, Hrow).
  split; [|split; [|split]].
  - subst out. unfold Versions.updateFileMetadata. by rewrite Hm.
  - subst out. unfold Versions.updateFileMetadata. rewrite Hm.
    eexists. split; [reflexivity|]. cbn [fm_version with_modified_version].
    do 3 (apply elem_of_cons; right). apply elem_of_cons. by left.
  - unfold getFileMetadata, db_row. subst out.
    rewrite (updateFileMetadata_database jsonSize _ _ _ _ _ _ Hm).
    unfold db_update, set_ASSETS_DB. cbn [ASSETS_DB]. rewrite Hdb.
    cbn [fmap option_fmap option_map].
    destruct (db_accepts_updates db) eqn:Hacc; cbn [db_assets]; [|by rewrite Hrow].
    destruct Hreject as [?|Hother]; [done|].
    rewrite lookup_alter_eq, Hrow. cbn [fmap option_fmap option_map].
    by rewrite decide_False.
  - by apply updateFileMetadata_file_record.
Qed.

(** X30. Restoring does not undo a metadata update.  The version record
    that a metadata update writes holds the update itself, so restoring
    that version lays the same update over the metadata once more: for a
    file kept in the key-value store only, after an update and the
    restore of the version it recorded, every field but [modified] and
    [version] is as the update left it, and the version has gone up by
    two. *)
Theorem restore_does_not_undo_a_metadata_update (now now' : Z) (env : Env)
    (fileId : string) (user user' : User) (updateData : Patch)
    (currentMetadata : FileMetadata) :
  let versionIndex := default [] (get_index env (versions_key fileId)) in
  let version := fm_version currentMetadata in
  db_row env fileId = None ->
  get_file env (file_key fileId) = Some currentMetadata ->
  fm_id currentMetadata = fileId ->
  StronglySorted Z.gt versionIndex ->
  Forall (fun n => n < version) versionIndex ->
  let env1 := (updateFileMetadata now env fileId user updateData).1 in
  let out := restoreFileVersion now' env1 fileId version user' in
  res_status out.2 = 200
  /\ getFileMetadata out.1 fileId
     = Some (with_modified_version (spread currentMetadata updateData) now' (version + 2)).
Proof.
  intros versionIndex version Hrow Hfile Hid Hsorted Hbelow env1 out.
  assert (Hm : getFileMetadata env fileId = Some currentMetadata)
    by (unfold getFileMetadata; by rewrite Hrow).
  set (metadata1 := with_modified_version (spread currentMetadata updateData) now
                      (version + 1)).
  assert (Hm1 : getFileMetadata env1 fileId = Some metadata1)
    by (by apply updateFileMetadata_metadata).
  assert (Hrow1 : db_row env1 fileId = None).
  { unfold db_row, env1. rewrite (updateFileMetadata_database jsonSize _ _ _ _ _ _ Hm).
    by apply (db_row_db_update fileId). }
  assert (Hkeep : fm_version currentMetadata
                  ∉ evicted (default [] (get_index env (versions_key (fm_id currentMetadata))))
                            (fm_version currentMetadata)).
  { rewrite Hid. fold versionIndex. fold version. rewrite evicted_front by done.
    intros Hin. apply subseteq_drop in Hin. rewrite Forall_forall in Hbelow.
    specialize (Hbelow _ Hin). lia. }
  destruct (updateFileMetadata_records_update jsonSize now env fileId user updateData
              currentMetadata Hm Hkeep) as (record & Hrecord & _ & Htype & Hchanges).
  rewrite Hid in Hrecord. fold version in Hrecord. fold env1 in Hrecord.
  assert (Hout : out
                 = (set_CDN_METADATA
                      (insert (file_key fileId)
                         (MVFile (with_modified_version (spread metadata1 updateData) now'
                                    (fm_version metadata1 + 1))))
                      (createFileVersion now' env1 metadata1 user' CTboth
                         {| ch_metadata := Some (patch_of_metadata metadata1);
                            ch_contentSize := Some (fm_size metadata1);
                            ch_contentHash := None |}),
                    out.2)).
  { unfold out, Versions.restoreFileVersion. rewrite Hrecord, Hm1, Htype, Hchanges.
    reflexivity. }
  split.
  - unfold out, Versions.restoreFileVersion. by rewrite Hrecord, Hm1.
  - rewrite Hout. cbn [fst]. unfold getFileMetadata.
    assert (Hrow2 : forall f e, db_row e fileId = None ->
                      db_row (set_CDN_METADATA f e) fileId = None) by (intros f e He; exact He).
    rewrite Hrow2.
    + unfold get_file. cbn [CDN_METADATA set_CDN_METADATA]. rewrite lookup_insert_eq.
      f_equal. unfold metadata1. rewrite spread_over_stamp, spread_twice.
      cbn [fm_version with_modified_version]. f_equal. lia.
    + unfold db_row. by rewrite createFileVersion_database.
Qed.

End HistoryFacts.

Lemma rejected_database_update_is_answered_200_witness :
  Versions.getFileMetadata
    (Versions.updateFileMetadata Versions.toy_jsonSize 10 (Versions.env_database false) "f1"
       Versions.ann (Versions.patch_rename "final.txt")).1 "f1"
  = Some (Versions.metadata_of_row "f1" (Versions.sample_row None)).
Proof.
  refine (proj1 (proj2 (proj2 (rejected_database_update_is_answered_200 Versions.toy_jsonSize
                                 10 (Versions.env_database false) "f1" Versions.ann
                                 (Versions.patch_rename "final.txt")
                                 {| Store.db_assets := {[ "f1" := Versions.sample_row None ]};
                                    Store.db_accepts_updates := false |}
                                 (Versions.sample_row None) eq_refl _ (or_introl eq_refl))))).
  vm_compute. reflexivity.
Defined.

Lemma restore_does_not_undo_a_metadata_update_witness :
  Store.fm_name
    <$> Versions.getFileMetadata
          (Versions.restoreFileVersion Versions.toy_jsonSize 20
             (Versions.updateFileMetadata Versions.toy_jsonSize 10 Versions.env_two_files "f1"
                Versions.ann (Versions.patch_rename "final.txt")).1
             "f1" 1 Versions.ann).1 "f1"
  = Some "final.txt".
Proof.
  refine (f_equal (fmap Store.fm_name)
            (proj2 (restore_does_not_undo_a_metadata_update Versions.toy_jsonSize 10 20
                      Versions.env_two_files "f1" Versions.ann Versions.ann
                      (Versions.patch_rename "final.txt")
                      (Versions.sample_file "f1" "report.txt" 1)
                      eq_refl eq_refl eq_refl _ _))).
  - vm_compute. constructor.
  - vm_compute. constructor.
Defined.

(** ** The obfuscated path of an uploaded file *)

Section AssetPathFacts.
Import PathObfuscator FileName AssetPath.

Variable digest : string -> list byte -> list byte.
Variable timestamp : Z.
Variable randomSeed : string.
Variable entropy : string -> Z.
Variable encodeMetadataToSegment : FileAnalysis -> string -> string.
Variable obfuscateTimestamp : Z -> string.
Variable serviceClock : string -> Z.
Variable fraction_toString36 : Z -> Z -> string.

Local Abbreviation generateComplexAssetPath :=
  (AssetPath.generateComplexAssetPath digest timestamp randomSeed entropy
     encodeMetadataToSegment obfuscateTimestamp serviceClock fraction_toString36).
Local Abbreviation directories_of :=
  (AssetPath.directories_of digest timestamp randomSeed entropy).
Local Abbreviation obfuscatedName_of :=
  (AssetPath.obfuscatedName_of digest timestamp randomSeed entropy
     encodeMetadataToSegment obfuscateTimestamp serviceClock).
Local Abbreviation obfuscateFileExtension :=
  (AssetPath.obfuscateFileExtension fraction_toString36).
Local Abbreviation fileMetadata_of := (AssetPath.fileMetadata_of digest entropy).

Local Abbreviation sep_slash := (fun c : ascii => Ascii.eqb c "/").

Lemma has_slash_is_slash s : JS.exists_string sep_slash s = JS.exists_string is_slash s.
Proof.
  induction s as [|c s IH]; [reflexivity|].
  change (JS.exists_string sep_slash (String c s))
    with (Ascii.eqb c "/" || JS.exists_string sep_slash s).
  change (JS.exists_string is_slash (String c s))
    with (Ascii.eqb "/" c || JS.exists_string is_slash s).
  by rewrite IH, Ascii.eqb_sym.
Qed.

Lemma component_has_no_slash s : is_component s -> JS.exists_string sep_slash s = false.
Proof.
  intros [_ Hs]. rewrite has_slash_is_slash. unfold no_slash in Hs.
  by apply negb_true_iff in Hs.
Qed.

(** Cutting at a separator: the parts of [a] followed by the parts of [b]. *)
Lemma split_go_app_sep sep cur a b :
  JS.split_go sep cur (a +:+ String sep b)
  = JS.split_go sep cur a ++ JS.split_go sep EmptyString b.
Proof.
  revert cur. induction a as [|c a IH]; intros cur.
  - change ("" +:+ String sep b) with (String sep b).
    change (JS.split_go sep cur (String sep b))
      with (if Ascii.eqb sep sep then String.rev cur :: JS.split_go sep EmptyString b
            else JS.split_go sep (String sep cur) b).
    by rewrite Ascii.eqb_refl.
  - change (String c a +:+ String sep b) with (String c (a +:+ String sep b)).
    change (JS.split_go sep cur (String c (a +:+ String sep b)))
      with (if Ascii.eqb c sep
            then String.rev cur :: JS.split_go sep EmptyString (a +:+ String sep b)
            else JS.split_go sep (String c cur) (a +:+ String sep b)).
    change (JS.split_go sep cur (String c a))
      with (if Ascii.eqb c sep then String.rev cur :: JS.split_go sep EmptyString a
            else JS.split_go sep (String c cur) a).
    destruct (Ascii.eqb c sep); by rewrite IH.
Qed.

Lemma split_app_sep sep a b :
  JS.split sep (a +:+ String sep b) = JS.split sep a ++ JS.split sep b.
Proof. apply split_go_app_sep. Qed.

(** A text that holds the separator has at least two parts. *)
Lemma split_go_two_parts sep cur s :
  JS.exists_string (fun c => Ascii.eqb c sep) s = true ->
  (2 <= length (JS.split_go sep cur s))%nat.
Proof.
  revert cur. induction s as [|c s IH]; intros cur Hs; [discriminate|].
  change (JS.exists_string (fun c => Ascii.eqb c sep) (String c s))
    with (Ascii.eqb c sep || JS.exists_string (fun c => Ascii.eqb c sep) s) in Hs.
  change (JS.split_go sep cur (String c s))
    with (if Ascii.eqb c sep then String.rev cur :: JS.split_go sep EmptyString s
          else JS.split_go sep (String c cur) s).
  destruct (Ascii.eqb c sep); [|by apply IH].
  cbn [length]. destruct s as [|d s]; [cbn; lia|].
  change (JS.split_go sep "" (String d s))
    with (if Ascii.eqb d sep then String.rev "" :: JS.split_go sep EmptyString s
          else JS.split_go sep (String d "") s).
  assert (Hone : forall cur' t, (1 <= length (JS.split_go sep cur' t))%nat).
  { clear. intros cur' t. revert cur'. induction t as [|e t IHt]; intros cur'; [cbn; lia|].
    change (JS.split_go sep cur' (String e t))
      with (if Ascii.eqb e sep then String.rev cur' :: JS.split_go sep EmptyString t
            else JS.split_go sep (String e cur') t).
    destruct (Ascii.eqb e sep); [cbn [length]; lia | apply IHt]. }
  destruct (Ascii.eqb d sep).
  - cbn [length]. lia.
  - pose proof (Hone (String d "") s). lia.
Qed.

Lemma lower_char_slash c : is_slash (Serving.lower_char c) = is_slash c.
Proof. destruct c as [[] [] [] [] [] [] [] []]; reflexivity. Qed.

Lemma toLowerCase_slash s :
  JS.exists_string is_slash (Serving.toLowerCase s) = JS.exists_string is_slash s.
Proof.
  induction s as [|c s IH]; [reflexivity|].
  change (Serving.toLowerCase (String c s))
    with (String (Serving.lower_char c) (Serving.toLowerCase s)).
  change (JS.exists_string is_slash (String (Serving.lower_char c) (Serving.toLowerCase s)))
    with (is_slash (Serving.lower_char c)
          || JS.exists_string is_slash (Serving.toLowerCase s)).
  change (JS.exists_string is_slash (String c s))
    with (is_slash c || JS.exists_string is_slash s).
  by rewrite IH, lower_char_slash.
Qed.

Lemma exists_string_app p a b :
  JS.exists_string p (a +:+ b) = JS.exists_string p a || JS.exists_string p b.
Proof.
  induction a as [|c a IH]; [reflexivity|].
  change (String c a +:+ b) with (String c (a +:+ b)).
  change (JS.exists_string p (String c (a +:+ b)))
    with (p c || JS.exists_string p (a +:+ b)).
  change (JS.exists_string p (String c a)) with (p c || JS.exists_string p a).
  by rewrite IH, orb_assoc.
Qed.

Lemma take_string_length n s :
  (String.length s <= n)%nat -> JS.take_string n s = s.
Proof.
  revert n. induction s as [|c s IH]; intros [|n] Hn; cbn in *; try reflexivity; try lia.
  f_equal. apply IH. lia.
Qed.

(** [extension.substring(0, Math.min(extension.length, 2))]: the first
    two characters. *)
Lemma extension_head extension :
  JS.substr 0 (Z.min (Z.of_nat (String.length extension)) 2) extension
  = JS.take_string 2 extension.
Proof.
  unfold JS.substr, JS.substring.
  pose proof (Nat2Z.is_nonneg (String.length extension)) as Hlen.
  set (len := Z.of_nat (String.length extension)) in *.
  rewrite (Z.max_l 0 0) by lia. rewrite (Z.min_l 0 len) by lia.
  rewrite (Z.max_l (Z.min len 2) 0) by lia. rewrite (Z.min_l (Z.min len 2) len) by lia.
  rewrite (Z.min_l 0 (Z.min len 2)) by lia. rewrite (Z.max_r 0 (Z.min len 2)) by lia.
  change (Z.to_nat 0) with 0%nat.
  change (JS.drop_string 0 extension) with extension. rewrite Nat.sub_0_r.
  destruct (Z.le_gt_cases 2 len).
  - by rewrite Z.min_r by lia.
  - rewrite Z.min_l by lia. unfold len in *. rewrite Nat2Z.id.
    rewrite !take_string_length; [reflexivity | lia..].
Qed.

(** The pseudo-extension copies the first two characters of the
    extension: a slash among them is a slash in the pseudo-extension. *)
Lemma obfuscateFileExtension_copies_slash extension metadata :
  JS.exists_string is_slash (JS.take_string 2 extension) = true ->
  no_slash (obfuscateFileExtension extension metadata) = false.
Proof.
  intros Hslash. unfold AssetPath.obfuscateFileExtension.
  destruct (String.eqb_spec extension "") as [->|_]; [discriminate Hslash|].
  unfold no_slash. rewrite toLowerCase_slash. cbn [JS.join].
  rewrite !exists_string_app, extension_head, Hslash, orb_true_r. reflexivity.
Qed.

Lemma analysed_complexity_bounds originalFileName fileBuffer extension :
  5 <= calculateMetadataComplexity
         (analyzeFileMetadata digest entropy originalFileName fileBuffer extension) <= 10.
Proof.
  unfold calculateMetadataComplexity.
  cbn [nameComplexity sizeCategory typeCategory hasSpecialChars wordCount digitCount
       nameLength entropyTenths analyzeFileMetadata].
  pose proof (calculateNameComplexity_pos originalFileName).
  pose proof (sizeFactor_bounds match fileBuffer with
                                | Some b => categorizeSizeComplexity (Z.of_nat (length b))
                                | None => "unknown"
                                end).
  pose proof (typeFactor_bounds (categorizeFileType extension)).
  repeat match goal with |- context [if ?b then _ else _] => destruct b end; lia.
Qed.

(** The path in general: prefix, continent, between five and eight
    directories, each a non-empty component without a slash, then the
    assembled name with the pseudo-extension and the routing suffix. *)
Lemma generateComplexAssetPath_directories (originalFileName : string)
    (fileBuffer : option (list byte)) (userPath : option string) (uploadType : string) :
  let dirs := directories_of originalFileName fileBuffer userPath uploadType in
  let file :=
    obfuscatedName_of originalFileName fileBuffer userPath uploadType
    +:+ obfuscateFileExtension (fileExtension_of originalFileName)
          (fileMetadata_of originalFileName fileBuffer) in
  generateComplexAssetPath originalFileName fileBuffer userPath uploadType
  = "/prod/" +:+ detectContinent +:+ "/" +:+ JS.join "/" dirs +:+ "/" +:+ file
    +:+ "/object/live.m3u8"
  /\ (5 <= length dirs <= 8)%nat
  /\ Forall is_component dirs.
Proof.
  intros dirs file. split; [|split].
  - unfold AssetPath.generateComplexAssetPath, dirs, file, AssetPath.directories_of,
      AssetPath.obfuscatedName_of, AssetPath.fileMetadata_of, pathComplexity_of,
      segmentCount_of, routing_suffix.
    do 5 apply (f_equal (String.append _)).
    symmetry. apply string_append_assoc.
  - unfold dirs, AssetPath.directories_of, generateMetadataDirectoryStructure,
      pathComplexity_of, AssetPath.fileMetadata_of.
    rewrite length_app, nested_directories_length. cbn [length].
    pose proof (analysed_complexity_bounds originalFileName fileBuffer
                  (fileExtension_of originalFileName)).
    lia.
  - unfold dirs, AssetPath.directories_of, generateMetadataDirectoryStructure.
    apply Forall_app. split.
    + repeat constructor; apply directory_is_component, no_slash_substr, no_slash_hex.
    + apply nested_directories_components; apply no_slash_hex.
Qed.

(** The levels of a path built from components [dirs] and a file part. *)
Lemma levels_of_path dirs file :
  dirs <> [] -> Forall is_component dirs ->
  levels ("/prod/" +:+ detectContinent +:+ "/" +:+ JS.join "/" dirs +:+ "/" +:+ file
          +:+ "/object/live.m3u8")
  = dirs ++ JS.split "/" file.
Proof.
  intros Hne Hdirs.
  assert (Hpath : "/prod/" +:+ detectContinent +:+ "/" +:+ JS.join "/" dirs +:+ "/" +:+ file
                  +:+ "/object/live.m3u8"
                  = JS.join "/" ("" :: "prod" :: "na" :: dirs)
                    +:+ String "/" (file +:+ String "/" "object/live.m3u8")).
  { destruct dirs as [|d dirs]; [done|].
    change (JS.join "/" ("" :: "prod" :: "na" :: d :: dirs))
      with ("" +:+ "/" +:+ "prod" +:+ "/" +:+ "na" +:+ "/" +:+ JS.join "/" (d :: dirs)).
    unfold detectContinent.
    change ("" +:+ "/" +:+ "prod" +:+ "/" +:+ "na" +:+ "/" +:+ JS.join "/" (d :: dirs))
      with ("/prod/na/" +:+ JS.join "/" (d :: dirs)).
    change ("/prod/" +:+ "na" +:+ "/" +:+ JS.join "/" (d :: dirs) +:+ "/" +:+ file
            +:+ "/object/live.m3u8")
      with ("/prod/na/" +:+ (JS.join "/" (d :: dirs) +:+ String "/" (file
            +:+ String "/" "object/live.m3u8"))).
    by rewrite string_append_assoc. }
  rewrite Hpath. unfold levels.
  rewrite !split_app_sep. rewrite split_join.
  - change (JS.split "/" "object/live.m3u8") with ["object"; "live.m3u8"].
    cbn [app drop length]. rewrite drop_0, !length_app. cbn [length].
    replace (S (S (S (length dirs + (length (JS.split "/" file) + 2)))) - 5)%nat
      with (length (dirs ++ JS.split "/" file)) by (rewrite length_app; lia).
    rewrite app_assoc. apply take_app_length.
  - done.
  - repeat (constructor; [reflexivity|]).
    eapply Forall_impl; [exact Hdirs|]. intros seg. apply component_has_no_slash.
Qed.

(** C8. The generated path is not of the shape
    [/prod/{continent}/{dir1}/.../{dirN}/{file}/object/live.m3u8] for
    every file name.
    Between the continent and the routing suffix the path always has
    between five and eight directories, each one a component; what
    follows them is the assembled name with the pseudo-extension.  The
    pseudo-extension copies the first two characters of the extension
    (the text after the last dot of the name, or the whole name) as they
    are: when one of them is a slash, the file part holds a slash and is
    cut into two or more levels of the path, so that the path has at
    least [N + 2] levels, not [N + 1], after the continent. *)
Theorem generateComplexAssetPath_slash_in_file_part (originalFileName : string)
    (fileBuffer : option (list byte)) (userPath : option string) (uploadType : string) :
  let fileExtension := fileExtension_of originalFileName in
  let dirs := directories_of originalFileName fileBuffer userPath uploadType in
  let file :=
    obfuscatedName_of originalFileName fileBuffer userPath uploadType
    +:+ obfuscateFileExtension fileExtension (fileMetadata_of originalFileName fileBuffer) in
  let path := generateComplexAssetPath originalFileName fileBuffer userPath uploadType in
  JS.exists_string is_slash (JS.take_string 2 fileExtension) = true ->
  path = "/prod/" +:+ detectContinent +:+ "/" +:+ JS.join "/" dirs +:+ "/" +:+ file
         +:+ "/object/live.m3u8"
  /\ (5 <= length dirs <= 8)%nat
  /\ Forall is_component dirs
  /\ no_slash file = false
  /\ levels path = dirs ++ JS.split "/" file
  /\ (length dirs + 2 <= length (levels path))%nat.
Proof.
  intros fileExtension dirs file path Hslash.
  destruct (generateComplexAssetPath_directories originalFileName fileBuffer userPath
              uploadType) as (Hpath & Hcount & Hdirs).
  fold dirs in Hpath, Hcount, Hdirs. fold fileExtension in Hpath. fold file in Hpath.
  fold path in Hpath.
  assert (Hfile : no_slash file = false).
  { unfold file. rewrite no_slash_app.
    rewrite (obfuscateFileExtension_copies_slash _ _ Hslash). apply andb_false_r. }
  assert (Hlevels : levels path = dirs ++ JS.split "/" file).
  { rewrite Hpath. apply levels_of_path; [|exact Hdirs].
    intros Hnil. rewrite Hnil in Hcount. cbn in Hcount. lia. }
  repeat split; try done; try lia.
  rewrite Hlevels, length_app.
  assert (2 <= length (JS.split "/" file))%nat; [|lia].
  apply split_go_two_parts. rewrite has_slash_is_slash.
  unfold no_slash in Hfile. by apply negb_false_iff in Hfile.
Qed.

(** Lower-casing the extension with or without the accented capitals
    makes no difference to the category of the file: the two texts are
    equal or both hold a character that no listed extension has. *)
Local Abbreviation is_high := (fun c : ascii => 128 <=? JS.code c).

Lemma lower_chars_agree c :
  JS.lower_char (Serving.lower_char c) = JS.lower_char (JS.lower_char c)
  \/ (is_high (JS.lower_char (Serving.lower_char c)) = true
      /\ is_high (JS.lower_char (JS.lower_char c)) = true).
Proof. destruct c as [[] [] [] [] [] [] [] []]; vm_compute; auto. Qed.

Lemma lower_texts_agree s :
  JS.toLowerCase (Serving.toLowerCase s) = JS.toLowerCase (JS.toLowerCase s)
  \/ (JS.exists_string is_high (JS.toLowerCase (Serving.toLowerCase s)) = true
      /\ JS.exists_string is_high (JS.toLowerCase (JS.toLowerCase s)) = true).
Proof.
  induction s as [|c s IH]; [by left|].
  change (JS.toLowerCase (Serving.toLowerCase (String c s)))
    with (String (JS.lower_char (Serving.lower_char c))
                 (JS.toLowerCase (Serving.toLowerCase s))).
  change (JS.toLowerCase (JS.toLowerCase (String c s)))
    with (String (JS.lower_char (JS.lower_char c)) (JS.toLowerCase (JS.toLowerCase s))).
  change (JS.exists_string is_high (String ?a ?t))
    with (is_high a || JS.exists_string is_high t).
  destruct (lower_chars_agree c) as [Hc | [Hc1 Hc2]].
  - rewrite Hc. destruct IH as [-> | [H1 H2]]; [by left|].
    right. by rewrite H1, H2, !orb_true_r.
  - right. by rewrite Hc1, Hc2.
Qed.

Lemma in_list_high t words :
  JS.exists_string is_high t = true ->
  forallb (fun w => negb (JS.exists_string is_high w)) words = true ->
  in_list t words = false.
Proof.
  intros Ht Hwords. unfold in_list. apply not_true_is_false. intros Hin.
  apply existsb_exists in Hin as (w & Hw & Heq). apply String.eqb_eq in Heq as <-.
  rewrite forallb_forall in Hwords. specialize (Hwords t Hw). by rewrite Ht in Hwords.
Qed.

Lemma categorizeFileType_lower s :
  categorizeFileType (Serving.toLowerCase s) = categorizeFileType (JS.toLowerCase s).
Proof.
  unfold categorizeFileType.
  destruct (lower_texts_agree s) as [-> | [H1 H2]]; [reflexivity|].
  by rewrite !(in_list_high _ _ H1), !(in_list_high _ _ H2).
Qed.

(** The directories of the generated path are those of
    [PathObfuscator.directories_of]. *)
Lemma directories_of_agree (originalFileName : string) (fileBuffer : option (list byte))
    (userPath : option string) (uploadType : string) :
  directories_of originalFileName fileBuffer userPath uploadType
  = PathObfuscator.directories_of digest timestamp randomSeed entropy
      originalFileName fileBuffer userPath uploadType.
Proof.
  unfold AssetPath.directories_of, PathObfuscator.directories_of, AssetPath.fileMetadata_of,
    AssetPath.fileExtension_of, primaryHashSource_of, metadataHashSource_of.
  assert (Hsame : analyzeFileMetadata digest entropy originalFileName fileBuffer
                    (Serving.toLowerCase (last_part originalFileName))
                  = analyzeFileMetadata digest entropy originalFileName fileBuffer
                      (JS.toLowerCase (last_part originalFileName))).
  { unfold analyzeFileMetadata. by rewrite categorizeFileType_lower. }
  by rewrite Hsame.
Qed.

End AssetPathFacts.

Lemma generateComplexAssetPath_slash_in_file_part_witness :
  length (AssetPath.toy_directories AssetPath.slash_name (Some RangeRequests.ten_bytes)) = 8%nat
  /\ length (AssetPath.levels
               (AssetPath.toy_path AssetPath.slash_name (Some RangeRequests.ten_bytes)))
     = 10%nat
  /\ last (AssetPath.levels
             (AssetPath.toy_path AssetPath.slash_name (Some RangeRequests.ten_bytes)))
     = Some "yx"
  /\ JS.drop_string 220
       (AssetPath.toy_path AssetPath.slash_name (Some RangeRequests.ten_bytes))
     = "nc/yx/object/live.m3u8".
Proof.
  pose proof (generateComplexAssetPath_slash_in_file_part PathObfuscator.toy_digest
                1700000000000 "k3x9" (fun _ => 20) AssetPath.toy_encode
                AssetPath.toy_obfuscateTimestamp (fun _ => 1700000000001)
                (fun _ _ => "0.0") AssetPath.slash_name (Some RangeRequests.ten_bytes)
                None "direct" eq_refl) as (Hpath & _ & _ & _ & Hlevels & _).
  split; [vm_compute; reflexivity|]. split; [|split].
  - unfold AssetPath.toy_path. rewrite Hlevels. vm_compute. reflexivity.
  - unfold AssetPath.toy_path. rewrite Hlevels. vm_compute. reflexivity.
  - unfold AssetPath.toy_path. rewrite Hpath. vm_compute. reflexivity.
Defined.
